(** * ronnin: the ticket description engine and the network-call field parser

    A shallow embedding of [internal/services] (the Jira service:
    [CreateTicket], [getRandomTeamMember]; the ticket store's queries), of
    [internal/models] ([ReportIssueRequest.GetNetworkCalls]) and of
    [internal/handlers] ([CreateTicketGin], [GetTicketByIDGin],
    [GetAllTicketsGin], [ReportIssue]).

    Go strings are byte sequences: they are [string] here (a list of 8-bit
    [ascii]), [len] counts bytes and slicing is positional.  Go's [int] is
    [Z]; every integer the code computes is a difference of string lengths
    and small constants, far inside the 64-bit range, so no wrap-around
    occurs.  Integer division is Go's truncating [/], that is [Z.quot].
    A run-time panic (slice bounds out of range, index out of range) is
    the outcome [Panic]. *)

From stdpp Require Import gmap strings list sorting.
From Stdlib Require Import ZArith Lia.

Open Scope Z_scope.

(** ** Go strings *)

Module GoString.

(** The line feed, the double quote, the single quote and the backslash,
    as characters and as one-character strings. *)
Definition lf : Ascii.ascii := Ascii.ascii_of_N 10.
Definition dq : Ascii.ascii := Ascii.ascii_of_N 34.
Definition sq : Ascii.ascii := Ascii.ascii_of_N 39.
Definition bs : Ascii.ascii := Ascii.ascii_of_N 92.

Definition LF : string := String lf "".
Definition DQ : string := String dq "".
Definition SQ : string := String sq "".
Definition BS : string := String bs "".

(** The characters of [s], each replaced by the string [f] gives for
    it. *)
Fixpoint expand (f : Ascii.ascii -> string) (s : string) : string :=
  match s with
  | EmptyString => EmptyString
  | String c rest => f c +:+ expand f rest
  end.

(** [len(s)] *)
Definition len (s : string) : Z := Z.of_nat (String.length s).

(** [s[:hi]]; the run time panics unless [0 <= hi <= len(s)]. *)
Definition slice_to (s : string) (hi : Z) : option string :=
  if (0 <=? hi) && (hi <=? len s)
  then Some (String.substring 0 (Z.to_nat hi) s)
  else None.

(** [s[lo:hi]]; the run time panics unless [0 <= lo <= hi <= len(s)]. *)
Definition slice (s : string) (lo hi : Z) : option string :=
  if (0 <=? lo) && (lo <=? hi) && (hi <=? len s)
  then Some (String.substring (Z.to_nat lo) (Z.to_nat (hi - lo)) s)
  else None.

(** [strings.HasPrefix(s, p)] *)
Definition HasPrefix (s p : string) : bool := String.prefix p s.

(** [strings.HasSuffix(s, p)] *)
Definition HasSuffix (s p : string) : bool :=
  String.prefix (String.rev p) (String.rev s).

(** [strings.ReplaceAll(s, old, new)] for a non-empty [old]: the
    non-overlapping occurrences of [old] are replaced from left to right.
    [fuel] bounds the scan; [String.length s] is always enough. *)
Fixpoint replace_from (fuel : nat) (s old new : string) : string :=
  match fuel with
  | O => s
  | S fuel' =>
      match s with
      | EmptyString => EmptyString
      | String c rest =>
          if String.prefix old s
          then new +:+ replace_from fuel'
                 (String.substring (String.length old)
                    (String.length s - String.length old) s) old new
          else String c (replace_from fuel' rest old new)
      end
  end.

Definition ReplaceAll (s old new : string) : string :=
  replace_from (String.length s) s old new.

(** [strings.Repeat(s, n)] *)
Definition Repeat (s : string) (n : Z) : string :=
  Z.iter n (String.append s) "".

(** The white space [strings.TrimSpace] removes: the ASCII characters
    tab, line feed, vertical tab, form feed, carriage return and space,
    and the UTF-8 encodings of U+0085, U+00A0, U+1680, U+2000..U+200A,
    U+2028, U+2029, U+202F, U+205F and U+3000. *)
Definition bytes (l : list N) : string :=
  String.string_of_list_ascii (map Ascii.ascii_of_N l).

Definition unicode_spaces : list string :=
  map bytes
    ([ [9]; [10]; [11]; [12]; [13]; [32];
       [194; 133]; [194; 160]; [225; 154; 128] ] ++
     map (fun k => [226; 128; k]) [128; 129; 130; 131; 132; 133; 134; 135;
                                   136; 137; 138; 168; 169; 175] ++
     [ [226; 129; 159]; [227; 128; 128] ])%list%N.

(** The length of the white-space rune [s] starts with, if any. *)
Definition leading_space (s : string) : option nat :=
  String.length <$> List.find (fun p => String.prefix p s) unicode_spaces.

Fixpoint trim_left (fuel : nat) (s : string) : string :=
  match fuel with
  | O => s
  | S fuel' =>
      match leading_space s with
      | Some k => trim_left fuel'
                    (String.substring k (String.length s - k) s)
      | None => s
      end
  end.

(** The length of the white-space rune [s] ends with, if any; [r] is [s]
    reversed. *)
Definition trailing_space (r : string) : option nat :=
  String.length <$>
    List.find (fun p => String.prefix (String.rev p) r) unicode_spaces.

Fixpoint trim_right_rev (fuel : nat) (r : string) : string :=
  match fuel with
  | O => r
  | S fuel' =>
      match trailing_space r with
      | Some k => trim_right_rev fuel'
                    (String.substring k (String.length r - k) r)
      | None => r
      end
  end.

(** [strings.TrimSpace(s)] *)
Definition TrimSpace (s : string) : string :=
  let l := trim_left (String.length s) s in
  String.rev (trim_right_rev (String.length l) (String.rev l)).

End GoString.

Import GoString.

(** ** internal/models: requests and responses *)

Module Models.

(** A Go [interface{}] value as it reaches the service: the result of
    decoding JSON (nil, bool, number, string, array, object).  A number
    keeps its literal.  A typed Go value a handler stores in the payload
    (a [[]NetworkCall]) is the array it marshals to. *)
#[warnings="-register-all"]
Inductive value : Type :=
| VNil
| VBool (b : bool)
| VNumber (lit : string)
| VString (s : string)
| VArray (l : list value)
| VObject (fields : list (string * value)).

(** [TicketRequest] *)
Record TicketRequest : Type := {
  URL : string;
  Payload : gmap string value;
  Response : gmap string value;
  RequestHeaders : gmap string string;
  ImageS3URL : string
}.

(** [TicketResponse] *)
Record TicketResponse : Type := {
  TicketID : string;
  Status : string;
  AssignedTo : string;
  JiraLink : string
}.

(** [m[k].(string)]: the type assertion succeeds on a string value only;
    a missing key reads as the nil interface. *)
Definition as_string (m : gmap string value) (k : string) : option string :=
  match m !! k with
  | Some (VString s) => Some s
  | _ => None
  end.

(** [m[k]] *)
Definition index (m : gmap string value) (k : string) : value :=
  default VNil (m !! k).

End Models.

Import Models.

(** ** What the service takes from the Go run time and standard library

    [fmt], [encoding/json] and [time] are not code of the repository: the
    service is verified for every behaviour of theirs. *)

Class GoRuntime : Type := {
  (** [fmt.Sprintf("%s", v)] *)
  Sprintf_s : value -> string;
  (** [fmt.Sprintf("%v", m)] *)
  Sprintf_v : gmap string value -> string;
  (** [json.Marshal(v)]; [None] is a non-nil error. *)
  json_Marshal : value -> option string;
  (** [json.MarshalIndent(m, "", "  ")] on a [map[string]interface{}] *)
  json_MarshalIndent : gmap string value -> option string;
  (** [json.MarshalIndent(h, "", "  ")] on a [map[string]string] *)
  json_MarshalIndent_headers : gmap string string -> option string;
  (** the order in which [range] visits the headers in this run *)
  range_headers : gmap string string -> list (string * string);
  (** [time.Now().Format(time.RFC1123)] *)
  now_RFC1123 : string
}.

(** ** internal/services: the description engine of [CreateTicket] *)

Module Services.

(** The outcome of a run: a value, or a run-time panic. *)
Inductive outcome (A : Type) : Type :=
| Done (a : A)
| Panic.
Arguments Done {A} a.
Arguments Panic {A}.

Definition is_Done {A : Type} (o : outcome A) : bool :=
  match o with
  | Done _ => true
  | Panic => false
  end.

(** The two variables every section updates: [wasTruncated] and the
    builder [truncatedContent]. *)
Record overflow : Type := {
  wasTruncated : bool;
  truncatedContent : string
}.

(** A computation that reads and writes the overflow variables and may
    panic. *)
Definition M (A : Type) : Type := overflow -> outcome (A * overflow).

#[export] Instance M_ret : MRet M := fun A a st => Done (a, st).
#[export] Instance M_bind : MBind M := fun A B f m st =>
  match m st with
  | Done (a, st') => f a st'
  | Panic => Panic
  end.

(** [wasTruncated = true] *)
Definition set_truncated : M unit := fun st =>
  Done (tt, {| wasTruncated := true; truncatedContent := truncatedContent st |}).

(** [truncatedContent.WriteString(s)] *)
Definition WriteString (s : string) : M unit := fun st =>
  Done (tt, {| wasTruncated := wasTruncated st;
               truncatedContent := truncatedContent st +:+ s |}).

(** [s[:hi]] inside a computation *)
Definition cut (s : string) (hi : Z) : M string := fun st =>
  match slice_to s hi with
  | Some r => Done (r, st)
  | None => Panic
  end.

Definition maxJiraDescLength : Z := 32000.

(** The overflow variables as [CreateTicket] initialises them. *)
Definition overflow_init : overflow :=
  {| wasTruncated := false;
     truncatedContent :=
       "Additional details that couldn't fit in the description:" +:+ LF +:+ LF |}.

(** *** The budget allocator (lines 109-119) *)

Record budget : Type := {
  remainingChars : Z;
  networkCallsLimit : Z;
  headersLimit : Z;
  responseLimit : Z;
  payloadLimit : Z
}.

Definition allocate (ceiling essentialLength : Z) : budget :=
  let remainingChars := ceiling - essentialLength in
  let networkCallsLimit := remainingChars `quot` 2 in
  let headersLimit := remainingChars `quot` 5 in
  let responseLimit := remainingChars `quot` 5 in
  let payloadLimit :=
    remainingChars - networkCallsLimit - headersLimit - responseLimit in
  {| remainingChars := remainingChars;
     networkCallsLimit := networkCallsLimit;
     headersLimit := headersLimit;
     responseLimit := responseLimit;
     payloadLimit := payloadLimit |}.

(** *** The markup tokens *)

Definition panel (title : string) : string :=
  "{panel:title=" +:+ title +:+
  "|collapsed=true|borderStyle=solid|borderColor=#ddd|titleBGColor=#f7f7f7|bgColor=#fff}"
  +:+ LF.

Definition panel_end : string := "{panel}" +:+ LF +:+ LF.
Definition code_json : string := "{code:json}" +:+ LF.
Definition code_end : string := LF +:+ "{code}" +:+ LF.
Definition truncation_marker : string := "...[truncated]...".
Definition marker_line : string := LF +:+ truncation_marker +:+ LF.

Section Engine.
Context `{GoRuntime}.

(** *** The fixed sections (lines 59-107) *)

Definition metadataSection (req : TicketRequest) : string :=
  let m := "" in
  let m := match as_string (Payload req) "userEmail" with
           | Some userEmail =>
               if bool_decide (userEmail ≠ "")
               then m +:+ "* *User Email:* " +:+ userEmail +:+ LF else m
           | None => m
           end in
  let m := match as_string (Payload req) "leadId" with
           | Some leadID =>
               if bool_decide (leadID ≠ "")
               then m +:+ "* *Lead ID:* " +:+ leadID +:+ LF else m
           | None => m
           end in
  let m := match as_string (Payload req) "product" with
           | Some product =>
               if bool_decide (product ≠ "")
               then m +:+ "* *Product:* " +:+ product +:+ LF else m
           | None => m
           end in
  let page := match as_string (Payload req) "url" with
              | Some pageURL => if bool_decide (pageURL ≠ "") then Some pageURL else None
              | None => None
              end in
  match page with
  | Some pageURL => m +:+ "* *Page URL:* " +:+ pageURL +:+ LF
  | None =>
      if bool_decide (URL req ≠ "")
      then m +:+ "* *Page URL:* " +:+ URL req +:+ LF else m
  end.

(** [req.ImageS3URL != "" && req.ImageS3URL != "None" && req.ImageS3URL != "null"] *)
Definition has_image (req : TicketRequest) : bool :=
  bool_decide (ImageS3URL req ≠ "") &&
  bool_decide (ImageS3URL req ≠ "None") &&
  bool_decide (ImageS3URL req ≠ "null").

Definition screenshotSection (req : TicketRequest) : string :=
  if has_image req then
    if HasPrefix (ImageS3URL req) "http" then
      "h3. Screenshot" +:+ LF +:+ "!" +:+ ImageS3URL req +:+ "|width=800!" +:+ LF +:+ LF +:+
      "{panel:title=Note|borderStyle=dashed|borderColor=#ccc|titleBGColor=#f0f0f0|bgColor=#fafafa}"
        +:+ LF +:+
      "This screenshot URL will expire in 7 days." +:+ LF +:+ "{panel}" +:+ LF +:+ LF
    else
      "h3. Screenshot" +:+ LF +:+ ImageS3URL req +:+ LF +:+ LF
  else "".

(** The description up to the screenshot: everything before line 101. *)
Definition fixedSections (req : TicketRequest) : string :=
  let description :=
    "h2. Issue Summary" +:+ LF +:+ Sprintf_s (index (Payload req) "issue") +:+ LF +:+ LF in
  let description :=
    match as_string (Payload req) "description" with
    | Some desc =>
        if bool_decide (desc ≠ "")
        then description +:+ "h3. Description" +:+ LF +:+ desc +:+ LF +:+ LF
        else description
    | None => description
    end in
  let metadataSection := metadataSection req in
  let description :=
    if bool_decide (metadataSection ≠ "")
    then description +:+ "h3. User Information" +:+ LF +:+ metadataSection +:+ LF +:+ LF
    else description in
  description +:+ screenshotSection req.

Definition timestamp : string := "Ticket created on: " +:+ now_RFC1123 +:+ LF.

(** [essentialLength] as line 107 leaves it. *)
Definition essentialLength (req : TicketRequest) : Z :=
  len (fixedSections req) + len timestamp.

(** *** The variable sections (lines 121-315)

    [limit] is the section's allocation; the room left for its content is
    the allocation minus the panel's opening and closing tokens. *)

(** The overflow variables once a block with this heading and content
    has been recorded. *)
Definition recorded (st : overflow) (heading fullContent : string) : overflow :=
  {| wasTruncated := true;
     truncatedContent :=
       ((truncatedContent st +:+ (heading +:+ LF)) +:+ fullContent) +:+ (LF +:+ LF) |}.

(** Lines 136-139, 153-156, 189-192, 243-246, 258-261, 288-291, 303-306:
    record a section's full content in the overflow document. *)
Definition overflow_block (heading fullContent : string) : M unit :=
  _ ← set_truncated;
  _ ← WriteString (heading +:+ LF);
  _ ← WriteString fullContent;
  WriteString (LF +:+ LF).

(** Lines 135-145 and 152-162: the network-calls text [nc], string or
    marshalled. *)
Definition networkCallsContent (limit : Z) (sectionStart sectionEnd nc : string)
  : M string :=
  let fullContent := code_json +:+ nc +:+ code_end in
  if len nc >? limit - len sectionStart - len sectionEnd - 20 then
    _ ← overflow_block "h3. Complete Network Calls" fullContent;
    let content := "Network calls data truncated to fit Jira limit:" +:+ LF in
    head ← cut nc (limit - len sectionStart - len sectionEnd - 50);
    mret (content +:+ code_json +:+ head +:+ marker_line +:+ "{code}" +:+ LF)
  else mret fullContent.

Definition networkCallsSection (req : TicketRequest) (limit : Z) : M string :=
  match Payload req !! "failedNetworkCalls" with
  | None | Some VNil => mret ""
  | Some networkCalls =>
      let sectionStart := panel "Failed Network Calls" in
      let sectionEnd := panel_end in
      content ←
        match networkCalls with
        | VString nc => networkCallsContent limit sectionStart sectionEnd nc
        | _ =>
            match json_Marshal networkCalls with
            | Some ncJSON =>
                networkCallsContent limit sectionStart sectionEnd ncJSON
            | None => mret ("Failed to format network calls data as JSON." +:+ LF)
            end
        end;
      mret (sectionStart +:+ content +:+ sectionEnd)
  end.

(** Lines 188-197, 242-251, 257-266, 287-296 and 302-311: the text [body]
    is kept when [len(body) <= room - pad], and otherwise cut to
    [room - 30] bytes and followed by the marker; [pad] is 20 for
    marshalled JSON and 30 for the [%v] rendering. *)
Definition clipped (heading body fullContent : string) (room pad : Z) : M string :=
  if len body >? room - pad then
    _ ← overflow_block heading fullContent;
    head ← cut body (room - 30);
    mret (head +:+ marker_line)
  else mret body.

(** Lines 200-220: the key-value rendering of the headers when they
    cannot be marshalled. *)
Fixpoint headersFallback (room : Z) (hs : list (string * string))
    (headersStr fullHeadersStr : string) : M string :=
  match hs with
  | [] => mret headersStr
  | (k, v) :: rest =>
      let line := k +:+ ": " +:+ v +:+ LF in
      let fullHeadersStr := fullHeadersStr +:+ line in
      if len headersStr + len line >? room - 30 then
        let headersStr := if bool_decide (headersStr = "") then line else headersStr in
        _ ← set_truncated;
        _ ← WriteString ("h3. Complete Request Headers" +:+ LF);
        _ ← WriteString ("{code}" +:+ LF +:+ fullHeadersStr +:+ "{code}" +:+ LF +:+ LF);
        mret (headersStr +:+ truncation_marker +:+ LF)
      else headersFallback room rest (headersStr +:+ line) fullHeadersStr
  end.

Definition headerSection (req : TicketRequest) (limit : Z) : M string :=
  let sectionStart := panel "Request Headers" in
  let sectionEnd := panel_end in
  let room := limit - len sectionStart - len sectionEnd in
  if 0 <? Z.of_nat (size (RequestHeaders req)) then
    let content := code_json in
    let fullContent := code_json in
    body ←
      match json_MarshalIndent_headers (RequestHeaders req) with
      | Some headersJSON =>
          clipped "h3. Complete Request Headers" headersJSON
            (fullContent +:+ headersJSON +:+ code_end) room 20
      | None =>
          headersFallback room (range_headers (RequestHeaders req)) "" ""
      end;
    let content := content +:+ body +:+ code_end in
    mret (sectionStart +:+ content +:+ sectionEnd)
  else mret (sectionStart +:+ "No request headers available." +:+ LF +:+ sectionEnd).

(** Lines 238-267 and 283-312: a [map[string]interface{}] rendered as
    indented JSON, or with [%v] when that fails. *)
Definition mapBody (heading : string) (m : gmap string value) (room : Z) : M string :=
  let fullContent := code_json in
  match json_MarshalIndent m with
  | Some js => clipped heading js (fullContent +:+ js +:+ code_end) room 20
  | None =>
      let str := Sprintf_v m in
      clipped heading str (fullContent +:+ str +:+ code_end) room 30
  end.

Definition responseSection (req : TicketRequest) (limit : Z) : M string :=
  let sectionStart := panel "Response" in
  let sectionEnd := panel_end in
  let room := limit - len sectionStart - len sectionEnd in
  if 0 <? Z.of_nat (size (Response req)) then
    let content := code_json in
    body ← mapBody "h3. Complete Response" (Response req) room;
    let content := content +:+ body +:+ code_end in
    mret (sectionStart +:+ content +:+ sectionEnd)
  else mret (sectionStart +:+ "No response data available." +:+ LF +:+ sectionEnd).

Definition payloadSection (req : TicketRequest) (limit : Z) : M string :=
  let sectionStart := panel "Full Payload Data" in
  let sectionEnd := panel_end in
  let room := limit - len sectionStart - len sectionEnd in
  let content := code_json in
  body ← mapBody "h3. Complete Payload" (Payload req) room;
  let content := content +:+ body +:+ code_end in
  mret (sectionStart +:+ content +:+ sectionEnd).

(** *** Assembly (lines 101-315) and the final check (lines 317-326) *)

Definition technicalDetails : string := "h3. Technical Details" +:+ LF +:+ LF.

(** The description before the final check. *)
Definition assemble (req : TicketRequest) : M string :=
  let description := fixedSections req in
  let essentialLength := len description in
  let description := description +:+ timestamp in
  let essentialLength := essentialLength + len timestamp in
  let b := allocate maxJiraDescLength essentialLength in
  networkCallsSection ← networkCallsSection req (networkCallsLimit b);
  let description := description +:+ networkCallsSection in
  let description := description +:+ technicalDetails in
  headerSection ← headerSection req (headersLimit b);
  let description := description +:+ headerSection in
  responseSection ← responseSection req (responseLimit b);
  let description := description +:+ responseSection in
  payloadSection ← payloadSection req (payloadLimit b);
  mret (description +:+ payloadSection).

Definition truncation_notice : string :=
  LF +:+ LF +:+
  "[Content truncated due to Jira character limit. See comments for complete information.]".

Definition finalCheck (description : string) : M string :=
  if len description >? maxJiraDescLength then
    _ ← overflow_block "h3. Full Original Description" description;
    head ← cut description (maxJiraDescLength - 100);
    mret (head +:+ truncation_notice)
  else mret description.

(** The description [CreateTicket] submits, with the overflow variables
    as they stand at line 327. *)
Definition describe (req : TicketRequest) : outcome (string * overflow) :=
  (description ← assemble req; finalCheck description) overflow_init.

(** *** When a section is cut

    The conditions under which the code takes a truncating branch, read
    off the tests at lines 135, 152, 188, 206, 242, 257, 287, 302 and 318;
    the properties below relate them to [wasTruncated]. *)

(** The allocations [CreateTicket] computes for [req]. *)
Definition budget_of (req : TicketRequest) : budget :=
  allocate maxJiraDescLength (essentialLength req).

(** The text of the network calls, when the section has one: the string
    itself, or the marshalled value. *)
Definition networkCalls_rendered (req : TicketRequest) : option string :=
  match Payload req !! "failedNetworkCalls" with
  | None | Some VNil => None
  | Some (VString nc) => Some nc
  | Some networkCalls => json_Marshal networkCalls
  end.

Definition networkCalls_exceeds (req : TicketRequest) (limit : Z) : bool :=
  match networkCalls_rendered req with
  | Some nc =>
      len nc >? limit - len (panel "Failed Network Calls") - len panel_end - 20
  | None => false
  end.

(** The loop of lines 202-219 reaches its [break]. *)
Fixpoint fallback_exceeds (room : Z) (hs : list (string * string))
    (headersStr : string) : bool :=
  match hs with
  | [] => false
  | (k, v) :: rest =>
      let line := k +:+ ": " +:+ v +:+ LF in
      (len headersStr + len line >? room - 30) ||
      fallback_exceeds room rest (headersStr +:+ line)
  end.

Definition headers_exceeds (req : TicketRequest) (limit : Z) : bool :=
  let room := limit - len (panel "Request Headers") - len panel_end in
  (0 <? Z.of_nat (size (RequestHeaders req))) &&
  match json_MarshalIndent_headers (RequestHeaders req) with
  | Some headersJSON => len headersJSON >? room - 20
  | None => fallback_exceeds room (range_headers (RequestHeaders req)) ""
  end.

(** The text of a map (indented JSON, or [%v] when marshalling fails) and
    the slack its test leaves. *)
Definition map_rendered (m : gmap string value) : string :=
  match json_MarshalIndent m with
  | Some js => js
  | None => Sprintf_v m
  end.

Definition map_pad (m : gmap string value) : Z :=
  match json_MarshalIndent m with
  | Some _ => 20
  | None => 30
  end.

Definition map_exceeds (m : gmap string value) (room : Z) : bool :=
  len (map_rendered m) >? room - map_pad m.

Definition response_exceeds (req : TicketRequest) (limit : Z) : bool :=
  (0 <? Z.of_nat (size (Response req))) &&
  map_exceeds (Response req) (limit - len (panel "Response") - len panel_end).

Definition payload_exceeds (req : TicketRequest) (limit : Z) : bool :=
  map_exceeds (Payload req) (limit - len (panel "Full Payload Data") - len panel_end).

(** The assembled description is over the ceiling. *)
Definition description_exceeds (req : TicketRequest) : bool :=
  match assemble req overflow_init with
  | Done (description, _) => len description >? maxJiraDescLength
  | Panic => false
  end.

(** Some section, or the whole description, is cut. *)
Definition truncates (req : TicketRequest) : bool :=
  let b := budget_of req in
  networkCalls_exceeds req (networkCallsLimit b) ||
  headers_exceeds req (headersLimit b) ||
  response_exceeds req (responseLimit b) ||
  payload_exceeds req (payloadLimit b) ||
  description_exceeds req.

End Engine.
End Services.

(** ** internal/services: the collaborators and the orchestration of
    [CreateTicket] (lines 328-563) *)

Module Orchestrator.
Import Services.

(** The fields of the [jira.Issue] the service fills in. *)
Record Issue : Type := {
  ProjectKey : string;
  Summary : string;
  Description : string;
  TypeID : string;
  AssigneeAccountID : string
}.

(** [jira.Response] as the error path reads it: the status code and, when
    there is a body, the bytes one [Read] into a 1024-byte buffer gives. *)
Record HTTPResponse : Type := {
  StatusCode : Z;
  Body : option string
}.

Record IssueType : Type := { Name : string; Id : string }.
Record MetaProject : Type := { Key : string; IssueTypes : list IssueType }.

(** [services.FlattenedTicket] (the persisted projection), without the
    store's own [_id]. *)
Record FlattenedTicket : Type := {
  ft_TicketID : string;
  ft_Status : string;
  ft_AssignedTo : string;
  ft_JiraLink : string;
  ft_CreatedAt : Z;
  ft_Issue : string;
  ft_Description : string;
  ft_UserEmail : string;
  ft_LeadID : string;
  ft_Product : string;
  ft_PageURL : string;
  ft_ImageURL : string;
  ft_FailedNetworkCallsJSON : string;
  ft_PayloadJSON : string;
  ft_ResponseJSON : string;
  ft_RequestHeadersJSON : string
}.

(** The ticket system behind [s.client].  An error is [inr]. *)
Record JiraClient : Type := {
  (** [Issue.GetCreateMeta(projectKey)]: the projects, or an error *)
  GetCreateMeta : string -> option (list MetaProject);
  (** [Issue.Create(issue)]: the new issue's key, or the response (if any)
      and the error *)
  Create : Issue -> string + (option HTTPResponse * string);
  (** [Issue.AddComment(key, comment)]: [None] when it succeeds *)
  AddComment : string -> string -> option string;
  (** [GetBaseURL().Host] *)
  BaseURLHost : string
}.

(** [MongoDBService.SaveTicket]: the stored id, or an error *)
Definition MongoDBService : Type := FlattenedTicket -> string + string.

(** [math/rand]'s process-wide source: [Intn(n)] is in [[0, n)] for a
    positive [n]. *)
Record RandSource : Type := {
  Intn : Z -> Z;
  Intn_range : forall n, 0 < n -> 0 <= Intn n < n
}.

Record JiraService : Type := {
  client : JiraClient;
  projectKey : string;
  supportTeam : list string;
  defaultPriority : string;
  mongoService : option MongoDBService;
  rand : RandSource;
  (** [time.Now()] at line 488 *)
  time_Now : Z
}.

(** The calls that create or change something on the collaborators, in
    order, with their results (the lookup [GetCreateMeta] is not
    recorded). *)
Inductive call : Type :=
| CallCreate (issue : Issue) (result : string + (option HTTPResponse * string))
| CallAddComment (key body : string) (err : option string)
| CallSaveTicket (ticket : FlattenedTicket) (result : string + string).

(** The error [CreateTicket] returns: the arguments of the [fmt.Errorf] at
    line 439. *)
Record error : Type := {
  statusCode : Z;
  err : string;
  responseBody : string
}.

(** What a run of [CreateTicket] that does not panic leaves behind: the
    returned pair and the calls made. *)
Record run : Type := {
  returned : TicketResponse + error;
  calls : list call
}.

(** [team[i]] *)
Definition at_index (team : list string) (i : Z) : option string :=
  if 0 <=? i then team !! Z.to_nat i else None.

(** [getRandomTeamMember] (lines 565-580) *)
Definition getRandomTeamMember (s : JiraService) : outcome string :=
  if bool_decide (length (supportTeam s) = 0%nat) then Done ""
  else
    let randIndex := Intn (rand s) (Z.of_nat (length (supportTeam s))) in
    match at_index (supportTeam s) randIndex with
    | Some selectedMember => Done selectedMember
    | None => Panic
    end.

(** Lines 331-352: the id of the issue type named Bug. *)
Definition issueTypeID (s : JiraService) : string :=
  let found :=
    match GetCreateMeta (client s) (projectKey s) with
    | None => "10001"
    | Some projects =>
        foldl (fun id project =>
                 if bool_decide (Key project = projectKey s)
                 then foldl (fun id issueType =>
                               if bool_decide (Name issueType = "Bug")
                               then Id issueType else id)
                        id (IssueTypes project)
                 else id)
          "" projects
    end in
  if bool_decide (found = "") then "10001" else found.

(** Lines 420-441: the error built from a failed [Create]. *)
Definition create_error (resp : option HTTPResponse) (e : string) : error :=
  {| statusCode := match resp with Some r => StatusCode r | None => 0 end;
     err := e;
     responseBody :=
       match resp with
       | Some {| Body := Some b |} => b
       | _ => ""
       end |}.

Definition comment_notice : string :=
  LF +:+ LF +:+ "[Comment truncated due to Jira character limit]".

(** Lines 458-463: the body of the overflow comment. *)
Definition commentBody (truncatedContent : string) : outcome string :=
  if len truncatedContent >? maxJiraDescLength then
    match slice_to truncatedContent (maxJiraDescLength - 100) with
    | Some head => Done (head +:+ comment_notice)
    | None => Panic
    end
  else Done truncatedContent.

Definition jiraLink (s : JiraService) (key : string) : string :=
  "https://" +:+ BaseURLHost (client s) +:+ "/browse/" +:+ key.

(** [s] with another comment service and another store. *)
Definition with_secondary (s : JiraService)
    (addComment : string -> string -> option string)
    (store : option MongoDBService) : JiraService :=
  {| client := {| GetCreateMeta := GetCreateMeta (client s);
                  Create := Create (client s);
                  AddComment := addComment;
                  BaseURLHost := BaseURLHost (client s) |};
     projectKey := projectKey s;
     supportTeam := supportTeam s;
     defaultPriority := defaultPriority s;
     mongoService := store;
     rand := rand s;
     time_Now := time_Now s |}.

Definition is_comment (c : call) : bool :=
  match c with
  | CallAddComment _ _ _ => true
  | _ => false
  end.

Section Orchestration.
Context `{GoRuntime}.

(** [json.Marshal] of the request's maps *)
Definition marshal_map (m : gmap string value) : option string :=
  json_Marshal (VObject (map_to_list m)).

Definition marshal_headers (h : gmap string string) : option string :=
  json_Marshal (VObject (prod_map id VString <$> map_to_list h)).

(** Lines 483-549: the flattened projection. *)
Definition flatten (s : JiraService) (req : TicketRequest) (key assignee : string)
  : FlattenedTicket :=
  {| ft_TicketID := key;
     ft_Status := "created";
     ft_AssignedTo := assignee;
     ft_JiraLink := jiraLink s key;
     ft_CreatedAt := time_Now s;
     ft_Issue := default "" (as_string (Payload req) "issue");
     ft_Description := default "" (as_string (Payload req) "description");
     ft_UserEmail := default "" (as_string (Payload req) "userEmail");
     ft_LeadID := default "" (as_string (Payload req) "leadId");
     ft_Product := default "" (as_string (Payload req) "product");
     ft_PageURL := default (URL req) (as_string (Payload req) "url");
     ft_ImageURL := if has_image req then ImageS3URL req else "";
     ft_FailedNetworkCallsJSON :=
       match Payload req !! "failedNetworkCalls" with
       | Some networkCalls =>
           match json_Marshal networkCalls with
           | Some networkCallsJSON => networkCallsJSON
           | None => match networkCalls with VString ncStr => ncStr | _ => "" end
           end
       | None => ""
       end;
     ft_PayloadJSON := default "" (marshal_map (Payload req));
     ft_ResponseJSON := default "" (marshal_map (Response req));
     ft_RequestHeadersJSON := default "" (marshal_headers (RequestHeaders req)) |}.

(** Lines 456-478: the overflow comment, attached when [wasTruncated]. *)
Definition attachOverflow (s : JiraService) (key : string) (ov : overflow)
  : outcome (list call) :=
  if wasTruncated ov then
    match commentBody (truncatedContent ov) with
    | Done body => Done [CallAddComment key body (AddComment (client s) key body)]
    | Panic => Panic
    end
  else Done [].

(** Lines 480-560: the projection, saved when a store is configured. *)
Definition persist (s : JiraService) (req : TicketRequest) (key assignee : string)
  : list call :=
  match mongoService s with
  | Some SaveTicket =>
      let flattenedTicket := flatten s req key assignee in
      [CallSaveTicket flattenedTicket (SaveTicket flattenedTicket)]
  | None => []
  end.

(** [CreateTicket] (lines 50-563).  The lines written to standard output
    are left out. *)
Definition CreateTicket (s : JiraService) (req : TicketRequest) : outcome run :=
  match describe req with
  | Panic => Panic
  | Done (description, ov) =>
      match getRandomTeamMember s with
      | Panic => Panic
      | Done assignee =>
          let issue :=
            {| ProjectKey := projectKey s;
               Summary := "Issue Report: " +:+ Sprintf_s (index (Payload req) "issue");
               Description := description;
               TypeID := issueTypeID s;
               AssigneeAccountID := assignee |} in
          match Create (client s) issue with
          | inr (resp, e) =>
              Done {| returned := inr (create_error resp e);
                      calls := [CallCreate issue (inr (resp, e))] |}
          | inl key =>
              let ticketResponse :=
                {| TicketID := key;
                   Status := "created";
                   AssignedTo := assignee;
                   JiraLink := jiraLink s key |} in
              match attachOverflow s key ov with
              | Panic => Panic
              | Done commented =>
                  Done {| returned := inl ticketResponse;
                          calls := CallCreate issue (inl key) :: commented
                                   ++ persist s req key assignee |}
              end
          end
      end
  end.

End Orchestration.
End Orchestrator.

(** ** internal/models: the failed network calls *)

Module NetworkCalls.
Import Services.

(** [NetworkCall.RequestData] *)
Record RequestData : Type := {
  Method : string;
  rd_URL : string;
  Headers : gmap string string;
  rd_Body : value
}.

(** [NetworkCall] *)
Record NetworkCall : Type := {
  requestData : RequestData;
  ResponseStatus : Z;
  ResponseHeaders : string;
  ResponseBody : string;
  PageURL : string;
  Timestamp : string
}.

(** [ReportIssueRequest] *)
Record ReportIssueRequest : Type := {
  rq_Issue : string;
  rq_Description : string;
  rq_UserEmail : string;
  rq_LeadID : string;
  rq_Product : string;
  FailedNetworkCalls : string;
  rq_PageURL : string;
  rq_ImageS3URL : string
}.

(** What [GetNetworkCalls] takes from [encoding/json].  [Unmarshal_calls
    data calls] is [json.Unmarshal(data, &calls)] on the slice [calls] as
    it stands before the call: it gives the slice as it stands after the
    call and the error ([None] for [nil]); a failed call may leave the
    elements it decoded before the failure.  [Unmarshal_string data] is
    [json.Unmarshal(data, &decodedString)] on a fresh string. *)
Class JsonDecoder : Type := {
  Unmarshal_calls : string -> list NetworkCall -> list NetworkCall * option string;
  Unmarshal_string : string -> string + string
}.

Section Parser.
Context `{JsonDecoder}.

(** Lines 69-80: the input cleaned for the second attempt. *)
Definition unquote (input : string) : outcome string :=
  if (HasPrefix input DQ && HasSuffix input DQ) ||
     (HasPrefix input SQ && HasSuffix input SQ)
  then match slice input 1 (len input - 1) with
       | Some inner => Done inner
       | None => Panic
       end
  else Done input.

Definition clean (raw : string) : outcome string :=
  match unquote (TrimSpace raw) with
  | Done input =>
      let input := ReplaceAll input (BS +:+ DQ) DQ in
      let input := ReplaceAll input (BS +:+ BS) BS in
      Done input
  | Panic => Panic
  end.

Definition parse_failure : string :=
  "could not parse network calls after multiple attempts".

(** [GetNetworkCalls] (lines 54-104): the slice and the error returned.
    The line written to standard output is left out. *)
Definition GetNetworkCalls (r : ReportIssueRequest)
  : outcome (list NetworkCall * option string) :=
  let calls := [] in
  if bool_decide (FailedNetworkCalls r = "") then Done (calls, None)
  else
    match Unmarshal_calls (FailedNetworkCalls r) calls with
    | (calls, None) => Done (calls, None)
    | (calls, Some _) =>
        match clean (FailedNetworkCalls r) with
        | Panic => Panic
        | Done input =>
            match Unmarshal_calls input calls with
            | (calls, None) => Done (calls, None)
            | (calls, Some _) =>
                match Unmarshal_string input with
                | inl decodedString =>
                    match Unmarshal_calls decodedString calls with
                    | (calls, None) => Done (calls, None)
                    | (calls, Some _) => Done (calls, Some parse_failure)
                    end
                | inr _ => Done (calls, Some parse_failure)
                end
            end
        end
    end.

(** The three attempts of lines 63-95 on [raw], without the guard of
    line 57: [true] when each of them ends in an error. *)
Definition attempts_fail (raw : string) : bool :=
  match Unmarshal_calls raw [] with
  | (_, None) => false
  | (calls, Some _) =>
      match clean raw with
      | Panic => false
      | Done input =>
          match Unmarshal_calls input calls with
          | (_, None) => false
          | (calls, Some _) =>
              match Unmarshal_string input with
              | inl decodedString =>
                  match Unmarshal_calls decodedString calls with
                  | (_, None) => false
                  | (_, Some _) => true
                  end
              | inr _ => true
              end
          end
      end
  end.

End Parser.

(** *** The forms in which a client sends a text

    The quote-wrapped, escaped form of [s]: every backslash doubled, every
    double quote preceded by a backslash, the whole between double
    quotes. *)
Definition escape_char (c : Ascii.ascii) : string :=
  if bool_decide (c = bs) then BS +:+ BS
  else if bool_decide (c = dq) then BS +:+ DQ
  else String c "".

Definition escaped (s : string) : string := expand escape_char s.

Definition quote_wrapped (s : string) : string := DQ +:+ escaped s +:+ DQ.

(** [escaped s] once its escaped quotes are replaced: the backslashes are
    still doubled. *)
Definition double_backslash (c : Ascii.ascii) : string :=
  if bool_decide (c = bs) then BS +:+ BS else String c "".

Definition backslashes_doubled (s : string) : string := expand double_backslash s.

End NetworkCalls.

(** ** A reference model of [encoding/json]

    The decoder follows RFC 8259 and Go's rules for decoding into
    [[]NetworkCall]; the encoder is [json.Marshal] and
    [json.MarshalIndent(v, "", "  ")] on decoded values.  Bytes above 127
    pass through unchanged on both sides: the replacement of invalid UTF-8
    is not modelled.  The parametric theorems do not depend on this
    module; it instantiates them and evaluates the code on concrete
    inputs. *)

Module Json.
Import NetworkCalls.

Definition code (c : Ascii.ascii) : Z := Z.of_N (Ascii.N_of_ascii c).
Definition char (n : Z) : Ascii.ascii := Ascii.ascii_of_N (Z.to_N n).
Definition str1 (n : Z) : string := String (char n) "".

Definition is_ws (c : Ascii.ascii) : bool :=
  let n := code c in (n =? 32) || (n =? 9) || (n =? 10) || (n =? 13).

Definition is_digit (c : Ascii.ascii) : bool := (48 <=? code c) && (code c <=? 57).

Fixpoint skip_ws (s : string) : string :=
  match s with
  | String c r => if is_ws c then skip_ws r else s
  | EmptyString => EmptyString
  end.

Definition hex_val (c : Ascii.ascii) : option Z :=
  let n := code c in
  if (48 <=? n) && (n <=? 57) then Some (n - 48)
  else if (97 <=? n) && (n <=? 102) then Some (n - 87)
  else if (65 <=? n) && (n <=? 70) then Some (n - 55)
  else None.

(** [getu4]: four hexadecimal digits *)
Definition u4 (a b c d : Ascii.ascii) : option Z :=
  a ← hex_val a; b ← hex_val b; c ← hex_val c; d ← hex_val d;
  Some (((a * 16 + b) * 16 + c) * 16 + d).

(** The UTF-8 encoding of a code point. *)
Definition utf8 (cp : Z) : string :=
  if cp <? 128 then str1 cp
  else if cp <? 2048 then str1 (192 + cp `quot` 64) +:+ str1 (128 + cp `mod` 64)
  else if cp <? 65536 then
    str1 (224 + cp `quot` 4096) +:+ str1 (128 + (cp `quot` 64) `mod` 64) +:+
    str1 (128 + cp `mod` 64)
  else
    str1 (240 + cp `quot` 262144) +:+ str1 (128 + (cp `quot` 4096) `mod` 64) +:+
    str1 (128 + (cp `quot` 64) `mod` 64) +:+ str1 (128 + cp `mod` 64).

Definition replacement_char : Z := 65533.
Definition is_surrogate (cp : Z) : bool := (55296 <=? cp) && (cp <? 57344).

(** [utf16.DecodeRune] *)
Definition decode_pair (hi lo : Z) : Z :=
  if (hi <? 56320) && (56320 <=? lo) && (lo <? 57344)
  then (hi - 55296) * 1024 + (lo - 56320) + 65536
  else replacement_char.

(** The second half of a surrogate pair, when the text continues with
    one. *)
Definition low_surrogate (s : string) : option Z :=
  match s with
  | String b (String u (String a (String b' (String c (String d _))))) =>
      if (code b =? 92) && (code u =? 117) then u4 a b' c d else None
  | _ => None
  end.

(** The characters of a string literal after its opening quote: the
    decoded string and the input after the closing quote. *)
Fixpoint parse_chars (s : string) : option (string * string) :=
  match s with
  | EmptyString => None
  | String c r =>
      if code c =? 34 then Some ("", r)
      else if code c <? 32 then None
      else if code c =? 92 then
        match r with
        | String e r' =>
            if code e =? 117 then
              match r' with
              | String a (String b (String c' (String d r4))) =>
                  cp ← u4 a b c' d;
                  if is_surrogate cp then
                    match low_surrogate r4, r4 with
                    | Some lo, String _ (String _ (String _ (String _ (String _ (String _ r10))))) =>
                        if decode_pair cp lo =? replacement_char
                        then '(t, rest) ← parse_chars r4;
                             Some (utf8 replacement_char +:+ t, rest)
                        else '(t, rest) ← parse_chars r10;
                             Some (utf8 (decode_pair cp lo) +:+ t, rest)
                    | _, _ =>
                        '(t, rest) ← parse_chars r4;
                        Some (utf8 replacement_char +:+ t, rest)
                    end
                  else '(t, rest) ← parse_chars r4; Some (utf8 cp +:+ t, rest)
              | _ => None
              end
            else
              d ← (let n := code e in
                   if (n =? 34) || (n =? 92) || (n =? 47) then Some (str1 n)
                   else if n =? 98 then Some (str1 8)
                   else if n =? 102 then Some (str1 12)
                   else if n =? 110 then Some (str1 10)
                   else if n =? 114 then Some (str1 13)
                   else if n =? 116 then Some (str1 9)
                   else None);
              '(t, rest) ← parse_chars r';
              Some (d +:+ t, rest)
        | EmptyString => None
        end
      else '(t, rest) ← parse_chars r; Some (String c t, rest)
  end.

Fixpoint span_digits (s : string) : string * string :=
  match s with
  | String c r =>
      if is_digit c then let '(ds, rest) := span_digits r in (String c ds, rest)
      else ("", s)
  | EmptyString => ("", "")
  end.

(** A number literal: an optional minus sign; zero, or a non-zero digit
    followed by digits; an optional fraction; an optional exponent. *)
Definition parse_number (s : string) : option (string * string) :=
  let '(sign, s) := match s with
                    | String c r => if code c =? 45 then ("-", r) else ("", s)
                    | _ => ("", s)
                    end in
  '(int, s) ← match s with
              | String c r =>
                  if code c =? 48 then Some ("0", r)
                  else if is_digit c then Some (span_digits s)
                  else None
              | EmptyString => None
              end;
  '(frac, s) ← match s with
               | String c r =>
                   if code c =? 46 then
                     let '(ds, rest) := span_digits r in
                     if bool_decide (ds = "") then None else Some ("." +:+ ds, rest)
                   else Some ("", s)
               | EmptyString => Some ("", s)
               end;
  '(exp, s) ← match s with
              | String c r =>
                  if (code c =? 101) || (code c =? 69) then
                    let '(sg, r) := match r with
                                    | String c' r' =>
                                        if (code c' =? 43) || (code c' =? 45)
                                        then (String c' "", r') else ("", r)
                                    | _ => ("", r)
                                    end in
                    let '(ds, rest) := span_digits r in
                    if bool_decide (ds = "") then None
                    else Some (String c "" +:+ sg +:+ ds, rest)
                  else Some ("", s)
              | EmptyString => Some ("", s)
              end;
  Some (sign +:+ int +:+ frac +:+ exp, s).

(** [strip p s]: [s] after the literal [p]. *)
Definition strip (p s : string) : option string :=
  if String.prefix p s
  then Some (String.substring (String.length p) (String.length s - String.length p) s)
  else None.

(** A JSON value at the head of [s] and the input after it.  Each call
    consumes input, so [fuel] above twice the length of the input is never
    exhausted. *)
Fixpoint parse_value (fuel : nat) (s : string) : option (value * string) :=
  match fuel with
  | O => None
  | S fuel =>
      match skip_ws s with
      | EmptyString => None
      | String c r as s' =>
          let n := code c in
          if n =? 123 then
            match skip_ws r with
            | String c' r' =>
                if code c' =? 125 then Some (VObject [], r')
                else '(fs, rest) ← parse_members fuel (skip_ws r) []; Some (VObject fs, rest)
            | EmptyString => None
            end
          else if n =? 91 then
            match skip_ws r with
            | String c' r' =>
                if code c' =? 93 then Some (VArray [], r')
                else '(vs, rest) ← parse_elements fuel r []; Some (VArray vs, rest)
            | EmptyString => None
            end
          else if n =? 34 then
            '(t, rest) ← parse_chars r; Some (VString t, rest)
          else if n =? 116 then rest ← strip "true" s'; Some (VBool true, rest)
          else if n =? 102 then rest ← strip "false" s'; Some (VBool false, rest)
          else if n =? 110 then rest ← strip "null" s'; Some (VNil, rest)
          else '(lit, rest) ← parse_number s'; Some (VNumber lit, rest)
      end
  end
with parse_elements (fuel : nat) (s : string) (acc : list value)
  : option (list value * string) :=
  match fuel with
  | O => None
  | S fuel =>
      '(v, r) ← parse_value fuel s;
      match skip_ws r with
      | String c r' =>
          if code c =? 44 then parse_elements fuel r' (v :: acc)
          else if code c =? 93 then Some (reverse (v :: acc), r')
          else None
      | EmptyString => None
      end
  end
with parse_members (fuel : nat) (s : string) (acc : list (string * value))
  : option (list (string * value) * string) :=
  match fuel with
  | O => None
  | S fuel =>
      match skip_ws s with
      | String q r =>
          if code q =? 34 then
            '(k, r) ← parse_chars r;
            match skip_ws r with
            | String c r =>
                if code c =? 58 then
                  '(v, r) ← parse_value fuel r;
                  match skip_ws r with
                  | String c r' =>
                      if code c =? 44 then parse_members fuel r' ((k, v) :: acc)
                      else if code c =? 125 then Some (reverse ((k, v) :: acc), r')
                      else None
                  | EmptyString => None
                  end
                else None
            | EmptyString => None
            end
          else None
      | EmptyString => None
      end
  end.

(** The value a whole document denotes; [None] is a syntax error. *)
Definition parse (data : string) : option value :=
  '(v, rest) ← parse_value (4 + 2 * String.length data) data;
  if bool_decide (skip_ws rest = "") then Some v else None.

(** *** Decoding into [[]NetworkCall]

    A value of the wrong type for its target is a type error: the target
    keeps its value, the error is remembered and decoding goes on.  A key
    selects the field whose name it equals up to the case of ASCII
    letters; [null] leaves a field as it is.  The flag is [true] when no
    type error occurred. *)

Definition lower (c : Ascii.ascii) : Ascii.ascii :=
  if (65 <=? code c) && (code c <=? 90) then char (code c + 32) else c.

Fixpoint fold_case (s : string) : string :=
  match s with
  | String c r => String (lower c) (fold_case r)
  | EmptyString => EmptyString
  end.

Definition names (key field : string) : bool :=
  bool_decide (fold_case key = fold_case field).

Definition into_string (v : value) (old : string) : string * bool :=
  match v with
  | VString s => (s, true)
  | VNil => (old, true)
  | _ => (old, false)
  end.

Fixpoint digits_value (s : string) (acc : Z) : option Z :=
  match s with
  | String c r => if is_digit c then digits_value r (acc * 10 + (code c - 48)) else None
  | EmptyString => Some acc
  end.

(** [strconv.ParseInt(lit, 10, 64)] *)
Definition parse_int (lit : string) : option Z :=
  n ← match lit with
      | String c r =>
          if code c =? 45
          then (if bool_decide (r = "") then None else Z.opp <$> digits_value r 0)
          else digits_value lit 0
      | EmptyString => None
      end;
  if (- 2 ^ 63 <=? n) && (n <? 2 ^ 63) then Some n else None.

Definition into_int (v : value) (old : Z) : Z * bool :=
  match v with
  | VNumber lit => match parse_int lit with Some n => (n, true) | None => (old, false) end
  | VNil => (old, true)
  | _ => (old, false)
  end.

Definition into_headers (v : value) (old : gmap string string)
  : gmap string string * bool :=
  match v with
  | VObject fs =>
      foldl (fun '(m, ok) '(k, x) =>
               let '(s, ok') := into_string x "" in (<[k := s]> m, ok && ok'))
        (old, true) fs
  | VNil => (∅, true)
  | _ => (old, false)
  end.

Definition into_requestData (v : value) (old : RequestData) : RequestData * bool :=
  match v with
  | VObject fs =>
      foldl (fun '(d, ok) '(k, x) =>
               if names k "method" then
                 let '(s, ok') := into_string x (Method d) in
                 ({| Method := s; rd_URL := rd_URL d; Headers := Headers d;
                     rd_Body := rd_Body d |}, ok && ok')
               else if names k "url" then
                 let '(s, ok') := into_string x (rd_URL d) in
                 ({| Method := Method d; rd_URL := s; Headers := Headers d;
                     rd_Body := rd_Body d |}, ok && ok')
               else if names k "headers" then
                 let '(h, ok') := into_headers x (Headers d) in
                 ({| Method := Method d; rd_URL := rd_URL d; Headers := h;
                     rd_Body := rd_Body d |}, ok && ok')
               else if names k "body" then
                 ({| Method := Method d; rd_URL := rd_URL d; Headers := Headers d;
                     rd_Body := x |}, ok)
               else (d, ok))
        (old, true) fs
  | VNil => (old, true)
  | _ => (old, false)
  end.

Definition with_strings (c : NetworkCall) (rh rb pu ts : string) : NetworkCall :=
  {| requestData := requestData c; ResponseStatus := ResponseStatus c;
     ResponseHeaders := rh; ResponseBody := rb; PageURL := pu; Timestamp := ts |}.

Definition into_call (v : value) (old : NetworkCall) : NetworkCall * bool :=
  match v with
  | VObject fs =>
      foldl (fun '(c, ok) '(k, x) =>
               if names k "requestData" then
                 let '(d, ok') := into_requestData x (requestData c) in
                 ({| requestData := d; ResponseStatus := ResponseStatus c;
                     ResponseHeaders := ResponseHeaders c;
                     ResponseBody := ResponseBody c; PageURL := PageURL c;
                     Timestamp := Timestamp c |}, ok && ok')
               else if names k "responseStatus" then
                 let '(n, ok') := into_int x (ResponseStatus c) in
                 ({| requestData := requestData c; ResponseStatus := n;
                     ResponseHeaders := ResponseHeaders c;
                     ResponseBody := ResponseBody c; PageURL := PageURL c;
                     Timestamp := Timestamp c |}, ok && ok')
               else if names k "responseHeaders" then
                 let '(s, ok') := into_string x (ResponseHeaders c) in
                 (with_strings c s (ResponseBody c) (PageURL c) (Timestamp c), ok && ok')
               else if names k "responseBody" then
                 let '(s, ok') := into_string x (ResponseBody c) in
                 (with_strings c (ResponseHeaders c) s (PageURL c) (Timestamp c), ok && ok')
               else if names k "pageUrl" then
                 let '(s, ok') := into_string x (PageURL c) in
                 (with_strings c (ResponseHeaders c) (ResponseBody c) s (Timestamp c), ok && ok')
               else if names k "timestamp" then
                 let '(s, ok') := into_string x (Timestamp c) in
                 (with_strings c (ResponseHeaders c) (ResponseBody c) (PageURL c) s, ok && ok')
               else (c, ok))
        (old, true) fs
  | VNil => (old, true)
  | _ => (old, false)
  end.

(** The zero [NetworkCall]. *)
Definition zero_call : NetworkCall :=
  {| requestData := {| Method := ""; rd_URL := ""; Headers := ∅; rd_Body := VNil |};
     ResponseStatus := 0; ResponseHeaders := ""; ResponseBody := "";
     PageURL := ""; Timestamp := "" |}.

(** [json.Unmarshal(data, &calls)].  A syntax error, or a document that is
    not an array, leaves [calls] as it is; an array replaces it, each
    element decoded into a zero [NetworkCall] (the reuse of the slice's
    old elements is not modelled). *)
Definition unmarshal_calls (data : string) (calls : list NetworkCall)
  : list NetworkCall * option string :=
  match parse data with
  | None => (calls, Some "invalid JSON")
  | Some VNil => ([], None)
  | Some (VArray vs) =>
      let decoded := (fun v => into_call v zero_call) <$> vs in
      (fst <$> decoded,
       if forallb snd decoded then None
       else Some "json: cannot unmarshal into Go struct field")
  | Some _ => (calls, Some "json: cannot unmarshal into Go value of type []models.NetworkCall")
  end.

(** [json.Unmarshal(data, &decodedString)] on a fresh string *)
Definition unmarshal_string (data : string) : string + string :=
  match parse data with
  | None => inr "invalid JSON"
  | Some (VString s) => inl s
  | Some VNil => inl ""
  | Some _ => inr "json: cannot unmarshal into Go value of type string"
  end.

#[export] Instance decoder : JsonDecoder :=
  {| Unmarshal_calls := unmarshal_calls; Unmarshal_string := unmarshal_string |}.

(** *** Encoding *)

Definition hex_digit (n : Z) : string :=
  String.substring (Z.to_nat n) 1 "0123456789abcdef".

(** A byte inside a string literal, as Go writes it (with the HTML
    characters escaped, as [json.Marshal] does). *)
Definition escape_byte (c : Ascii.ascii) : string :=
  let n := code c in
  if (n =? 34) || (n =? 92) then BS +:+ String c ""
  else if n =? 10 then "\n"
  else if n =? 13 then "\r"
  else if n =? 9 then "\t"
  else if (n <? 32) || (n =? 60) || (n =? 62) || (n =? 38)
  then "\u00" +:+ hex_digit (n `quot` 16) +:+ hex_digit (n `mod` 16)
  else String c "".

Fixpoint escape (s : string) : string :=
  match s with
  | String c r => escape_byte c +:+ escape r
  | EmptyString => EmptyString
  end.

Definition quote (s : string) : string := DQ +:+ escape s +:+ DQ.

Fixpoint join (sep : string) (l : list string) : string :=
  match l with
  | [] => ""
  | [x] => x
  | x :: rest => x +:+ sep +:+ join sep rest
  end.

(** The entries of a Go map in the order the encoder writes them: one
    entry per key (the last one given), sorted by key. *)
Definition key_le : relation (string * string) := fun a b => String.le a.1 b.1.

#[export] Instance key_le_dec : RelDecision key_le.
Proof. intros a b. unfold key_le. apply _. Defined.

Definition entries (fs : list (string * string)) : list (string * string) :=
  merge_sort key_le (map_to_list (list_to_map (reverse fs) : gmap string string)).

(** [json.Marshal(v)] *)
Fixpoint encode (v : value) : string :=
  match v with
  | VNil => "null"
  | VBool b => if b then "true" else "false"
  | VNumber lit => lit
  | VString s => quote s
  | VArray l => "[" +:+ join "," (List.map encode l) +:+ "]"
  | VObject fs =>
      "{" +:+
      join "," ((fun '(k, e) => quote k +:+ ":" +:+ e) <$>
                entries (List.map (fun '(k, x) => (k, encode x)) fs))
      +:+ "}"
  end.

Definition indent (depth : nat) : string := Repeat "  " (Z.of_nat depth).

(** [json.MarshalIndent(v, "", "  ")] *)
Fixpoint encode_indent (depth : nat) (v : value) : string :=
  match v with
  | VArray [] => "[]"
  | VObject [] => "{}"
  | VArray l =>
      "[" +:+ LF +:+
      join ("," +:+ LF)
        (List.map (fun x => indent (S depth) +:+ encode_indent (S depth) x) l)
      +:+ LF +:+ indent depth +:+ "]"
  | VObject fs =>
      "{" +:+ LF +:+
      join ("," +:+ LF)
        ((fun '(k, e) => indent (S depth) +:+ quote k +:+ ": " +:+ e) <$>
         entries (List.map (fun '(k, x) => (k, encode_indent (S depth) x)) fs))
      +:+ LF +:+ indent depth +:+ "}"
  | _ => encode v
  end.

(** *** Formatting with [fmt] *)

(** [fmt.Sprintf("%v", v)]; a number prints its literal. *)
Fixpoint format_v (v : value) : string :=
  match v with
  | VNil => "<nil>"
  | VBool b => if b then "true" else "false"
  | VNumber lit => lit
  | VString s => s
  | VArray l => "[" +:+ join " " (List.map format_v l) +:+ "]"
  | VObject fs =>
      "map[" +:+
      join " " ((fun '(k, e) => k +:+ ":" +:+ e) <$>
                entries (List.map (fun '(k, x) => (k, format_v x)) fs))
      +:+ "]"
  end.

(** [fmt.Sprintf("%s", v)]: a string prints as it is, any other value
    inside the bad-verb marker of its type. *)
Fixpoint format_s (v : value) : string :=
  match v with
  | VNil => "%!s(<nil>)"
  | VBool b => "%!s(bool=" +:+ (if b then "true" else "false") +:+ ")"
  | VNumber lit => "%!s(float64=" +:+ lit +:+ ")"
  | VString s => s
  | VArray l => "[" +:+ join " " (List.map format_s l) +:+ "]"
  | VObject fs =>
      "map[" +:+
      join " " ((fun '(k, e) => k +:+ ":" +:+ e) <$>
                entries (List.map (fun '(k, x) => (k, format_s x)) fs))
      +:+ "]"
  end.

(** The text encoded once more as a JSON string. *)
Definition double_encoded (s : string) : string := encode (VString s).

(** No byte of [s] is a control character or one of the HTML characters
    the encoder escapes. *)
Definition no_escapes_beyond_quotes (s : string) : bool :=
  forallb (fun c => (32 <=? code c) && negb ((code c =? 60) || (code c =? 62) || (code c =? 38)))
    (String.list_ascii_of_string s).

(** The run time with the encoder above and the clock reading [now]. *)
Definition runtime (now : string) : GoRuntime :=
  {| Sprintf_s := format_s;
     Sprintf_v := fun m => format_v (VObject (map_to_list m));
     json_Marshal := fun v => Some (encode v);
     json_MarshalIndent := fun m => Some (encode_indent 0 (VObject (map_to_list m)));
     json_MarshalIndent_headers := fun h =>
       Some (encode_indent 0 (VObject (prod_map id VString <$> map_to_list h)));
     range_headers := map_to_list;
     now_RFC1123 := now |}.

End Json.

(** ** Concrete requests and services *)

Module Examples.
Import Services Orchestrator NetworkCalls.

Definition now : string := "Sat, 31 Oct 2026 12:00:00 UTC".

Definition rt : GoRuntime := Json.runtime now.

(** A small report: nothing is cut. *)
Definition login_request : TicketRequest :=
  {| URL := "https://app.example.com/login";
     Payload := {[ "issue" := VString "Login fails" ]};
     Response := ∅;
     RequestHeaders := ∅;
     ImageS3URL := "" |}.

(** A report whose network calls, headers, response and payload are all
    longer than their allocations. *)
Definition long_request : TicketRequest :=
  {| URL := "";
     Payload := {[ "issue" := VString "Checkout fails";
                   "failedNetworkCalls" := VString (Repeat "a" 20000) ]};
     Response := {[ "body" := VString (Repeat "b" 7000) ]};
     RequestHeaders := {[ "Cookie" := Repeat "c" 7000 ]};
     ImageS3URL := "" |}.

(** A report whose description alone is longer than the ceiling. *)
Definition oversized_request : TicketRequest :=
  {| URL := "";
     Payload := {[ "issue" := VString "Checkout fails";
                   "description" := VString (Repeat "d" 32000) ]};
     Response := ∅;
     RequestHeaders := ∅;
     ImageS3URL := "" |}.

(** A report whose description leaves only 899 bytes for the variable
    sections. *)
Definition tight_request : TicketRequest :=
  {| URL := "";
     Payload := {[ "issue" := VString "Checkout fails";
                   "description" := VString (Repeat "d" 31000) ]};
     Response := ∅;
     RequestHeaders := ∅;
     ImageS3URL := "" |}.

(** A random source that always picks the last member. *)
Definition last_member : RandSource.
Proof. refine {| Intn := fun n => n - 1 |}. intros n Hn. lia. Defined.

(** A ticket system that creates RON-1 and refuses comments, with a
    store that is down. *)
Definition service : JiraService :=
  {| client := {| GetCreateMeta := fun _ => None;
                  Create := fun _ => inl "RON-1";
                  AddComment := fun _ _ => Some "comment rejected";
                  BaseURLHost := "jira.example.com" |};
     projectKey := "RON";
     supportTeam := ["alice"; "bob"];
     defaultPriority := "Medium";
     mongoService := Some (fun _ => inr "store unavailable");
     rand := last_member;
     time_Now := 0 |}.

(** The same service with a ticket system that refuses the issue. *)
Definition failing_service : JiraService :=
  {| client := {| GetCreateMeta := fun _ => None;
                  Create := fun _ => inr (Some {| StatusCode := 400; Body := Some "bad" |},
                                          "request failed");
                  AddComment := fun _ _ => None;
                  BaseURLHost := "jira.example.com" |};
     projectKey := "RON";
     supportTeam := [];
     defaultPriority := "Medium";
     mongoService := None;
     rand := last_member;
     time_Now := 0 |}.

(** A form whose failed-network-calls field is [raw]. *)
Definition report (raw : string) : ReportIssueRequest :=
  {| rq_Issue := "Checkout fails"; rq_Description := "The pay button does nothing";
     rq_UserEmail := ""; rq_LeadID := ""; rq_Product := "";
     FailedNetworkCalls := raw; rq_PageURL := ""; rq_ImageS3URL := "" |}.

(** One failed call, as a decoded JSON array. *)
Definition failed_calls : value :=
  VArray [VObject [("pageUrl", VString "/checkout");
                   ("responseStatus", VNumber "500")]].

Definition failed_call : NetworkCall :=
  {| requestData := {| Method := ""; rd_URL := ""; Headers := ∅; rd_Body := VNil |};
     ResponseStatus := 500; ResponseHeaders := ""; ResponseBody := "";
     PageURL := "/checkout"; Timestamp := "" |}.

(** [s] between quotes, and between escaped quotes. *)
Definition quoted (s : string) : string := DQ +:+ s +:+ DQ.
Definition escaped_quoted (s : string) : string := BS +:+ DQ +:+ s +:+ BS +:+ DQ.

(** The array as indented JSON text, one token group per line. *)
Definition indented_array : string :=
  "[" +:+ LF +:+
  "  {" +:+ LF +:+
  "    " +:+ quoted "pageUrl" +:+ ": " +:+ quoted "/checkout" +:+ "," +:+ LF +:+
  "    " +:+ quoted "responseStatus" +:+ ": 500" +:+ LF +:+
  "  }" +:+ LF +:+
  "]".

(** That text wrapped in quotes, its quotes escaped and its line feeds
    kept. *)
Definition wrapped_indented_array : string :=
  DQ +:+
  "[" +:+ LF +:+
  "  {" +:+ LF +:+
  "    " +:+ escaped_quoted "pageUrl" +:+ ": " +:+ escaped_quoted "/checkout"
    +:+ "," +:+ LF +:+
  "    " +:+ escaped_quoted "responseStatus" +:+ ": 500" +:+ LF +:+
  "  }" +:+ LF +:+
  "]" +:+ DQ.

(** That text encoded as a JSON string: its quotes escaped and its line
    feeds written as backslash and n. *)
Definition double_encoded_indented_array : string :=
  DQ +:+ "[\n  {\n    " +:+ escaped_quoted "pageUrl" +:+ ": " +:+
  escaped_quoted "/checkout" +:+ ",\n    " +:+
  escaped_quoted "responseStatus" +:+ ": 500\n  }\n]" +:+ DQ.

(** The array as compact JSON text, and that text encoded as a JSON
    string. *)
Definition compact_array : string :=
  "[{" +:+ quoted "pageUrl" +:+ ":" +:+ quoted "/checkout" +:+ "," +:+
  quoted "responseStatus" +:+ ":500}]".

Definition double_encoded_compact_array : string :=
  DQ +:+ "[{" +:+ escaped_quoted "pageUrl" +:+ ":" +:+
  escaped_quoted "/checkout" +:+ "," +:+
  escaped_quoted "responseStatus" +:+ ":500}]" +:+ DQ.

End Examples.

(** ** The slices taken for the log

    The lines written to the log are left out of the embeddings above;
    four of them slice a string first, and a slice can panic. *)

Module Logging.

(** [min] (internal/models/ticket.go lines 107-112 and
    internal/handlers/report.go lines 225-230) *)
Definition min (a b : Z) : Z := if a <? b then a else b.

(** [input[:min(len(input), 100)]] (internal/models/ticket.go line 99 and
    internal/handlers/report.go line 132) *)
Definition sample (input : string) : option string :=
  slice_to input (min (len input) 100).

(** Lines 403-406 of [CreateTicket]: the value of a payload entry as it
    is logged. *)
Definition logged (strVal : string) : option string :=
  if len strVal >? 100
  then head ← slice_to strVal 100; Some (head +:+ "...")
  else Some strVal.

(** Lines 391-396 of [CreateTicket]: the description as it is logged. *)
Definition loggedDescription (description : string) : option string :=
  let descLen := len description in
  if descLen >? 500
  then head ← slice_to description 500; Some (head +:+ "...")
  else Some description.

End Logging.

(** ** internal/services: the ticket store's queries *)

Module Store.
Import Orchestrator.

(** What [collection.FindOne(ctx, filter).Decode(&ticket)] gives. *)
Inductive FindOneResult : Type :=
| Decoded (ticket : FlattenedTicket)
| ErrNoDocuments
| FindOneError (err : string).

(** What [collection.Find(ctx, bson.M{})] gives: an error, or a cursor
    with what [cursor.All(ctx, &tickets)] gives. *)
Inductive FindResult : Type :=
| Cursor (all : list FlattenedTicket + string)
| FindError (err : string).

Record Collection : Type := {
  FindOne : string -> FindOneResult;
  Find : FindResult
}.

(** [GetTicketByJiraID] (lines 97-110); an error is its text. *)
Definition GetTicketByJiraID (s : Collection) (jiraID : string)
  : FlattenedTicket + string :=
  match FindOne s jiraID with
  | Decoded ticket => inl ticket
  | ErrNoDocuments => inr ("ticket not found: " +:+ jiraID)
  | FindOneError err => inr ("failed to get ticket: " +:+ err)
  end.

(** [GetAllTickets] (lines 113-127) *)
Definition GetAllTickets (s : Collection) : list FlattenedTicket + string :=
  match Find s with
  | FindError err => inr ("failed to find tickets: " +:+ err)
  | Cursor (inr err) => inr ("failed to decode tickets: " +:+ err)
  | Cursor (inl tickets) => inl tickets
  end.

End Store.

(** ** internal/handlers *)

Module Handlers.
Import Services Orchestrator NetworkCalls Store.

(** [strings.Contains(s, substr)] *)
Fixpoint Contains (s substr : string) : bool :=
  String.prefix substr s ||
  match s with
  | EmptyString => false
  | String _ rest => Contains rest substr
  end.

Definition StatusOK : Z := 200.
Definition StatusCreated : Z := 201.
Definition StatusBadRequest : Z := 400.
Definition StatusNotFound : Z := 404.
Definition StatusInternalServerError : Z := 500.

(** The object a handler passes to [c.JSON]. *)
Inductive body : Type :=
| ErrorResponse (Error Details : string)
| H (fields : gmap string string)
| Created (response : TicketResponse)
| Ticket (ticket : FlattenedTicket)
| Tickets (tickets : list FlattenedTicket).

(** [c.JSON(code, obj)] *)
Record reply : Type := { code : Z; obj : body }.

(** *** internal/handlers/ticket.go *)

Section TicketHandler.
Context `{GoRuntime}.

(** [TicketHandler], without its logger.  [validate] is
    [h.validate.Struct]; [None] is [nil]. *)
Record TicketHandler : Type := {
  jiraService : JiraService;
  validate : TicketRequest -> option string
}.

(** [CreateTicketGin] (lines 42-75).  [bound] is what
    [c.ShouldBindJSON(&req)] gives: the request, or an error.  The result
    is the reply and the calls made on the collaborators. *)
Definition CreateTicketGin (h : TicketHandler) (bound : TicketRequest + string)
  : outcome (reply * list call) :=
  match bound with
  | inr err =>
      Done ({| code := StatusBadRequest;
               obj := ErrorResponse "Invalid request body" err |}, [])
  | inl req =>
      match validate h req with
      | Some err =>
          Done ({| code := StatusBadRequest;
                   obj := H {[ "error" := "Validation failed";
                               "details" := err ]} |}, [])
      | None =>
          match CreateTicket (jiraService h) req with
          | Panic => Panic
          | Done r =>
              match returned r with
              | inr _ =>
                  Done ({| code := StatusInternalServerError;
                           obj := H {[ "error" := "Failed to create ticket" ]} |},
                        calls r)
              | inl response =>
                  Done ({| code := StatusCreated; obj := Created response |},
                        calls r)
              end
          end
      end
  end.

End TicketHandler.

(** [GetAllTicketsGin] (lines 85-105).  [mongo] is
    [h.jiraService.GetMongoService()]; [None] is [nil]. *)
Definition GetAllTicketsGin (mongo : option Collection) : reply :=
  match mongo with
  | None =>
      {| code := StatusInternalServerError;
         obj := ErrorResponse "Database not available"
                  "MongoDB service is not configured" |}
  | Some s =>
      match GetAllTickets s with
      | inr err =>
          {| code := StatusInternalServerError;
             obj := ErrorResponse "Failed to retrieve tickets" err |}
      | inl tickets => {| code := StatusOK; obj := Tickets tickets |}
      end
  end.

(** [GetTicketByIDGin] (lines 118-156).  [id] is [c.Param("id")]. *)
Definition GetTicketByIDGin (mongo : option Collection) (id : string) : reply :=
  if bool_decide (id = "") then
    {| code := StatusBadRequest;
       obj := ErrorResponse "Invalid request" "Ticket ID is required" |}
  else
    match mongo with
    | None =>
        {| code := StatusInternalServerError;
           obj := ErrorResponse "Database not available"
                    "MongoDB service is not configured" |}
    | Some s =>
        match GetTicketByJiraID s id with
        | inr err =>
            if Contains err "not found" then
              {| code := StatusNotFound;
                 obj := ErrorResponse "Ticket not found"
                          ("Ticket with ID " +:+ id +:+ " not found") |}
            else
              {| code := StatusInternalServerError;
                 obj := ErrorResponse "Failed to retrieve ticket" err |}
        | inl ticket => {| code := StatusOK; obj := Ticket ticket |}
        end
    end.

(** *** internal/handlers/report.go *)

(** The values [ReportIssue] stores in a payload: a string, the slice of
    calls the parser returned, or what [json.Unmarshal] decoded into an
    [interface{}]. *)
Inductive any : Type :=
| AString (s : string)
| ACalls (calls : list NetworkCall)
| AValue (v : value).

(** The [models.TicketRequest] the handler builds. *)
Record ReportedTicket : Type := {
  t_URL : string;
  t_Payload : gmap string any;
  t_Response : gmap string any;
  t_RequestHeaders : gmap string string;
  t_ImageS3URL : string
}.

(** [multipart.FileHeader] *)
Record FileHeader : Type := { Filename : string; Size : Z }.

(** [json.Unmarshal(data, &rawNetworkData)] into an [interface{}]: the
    decoded value, or an error. *)
Class GenericDecoder : Type := {
  Unmarshal_any : string -> value + string
}.

(** What the handler does to its collaborators, in order. *)
Inductive step : Type :=
| Upload (file : FileHeader) (result : string + string)
| Submit (ticketReq : ReportedTicket).

(** [ReportHandler], without its logger.  [createTicket] is
    [h.jiraService.CreateTicket]: the response, or the error's text;
    [uploadFile] is [h.s3Service.UploadFile], [None] when [h.s3Service] is
    [nil]: the URL, or an error. *)
Record ReportHandler : Type := {
  createTicket : ReportedTicket -> outcome (TicketResponse + string);
  uploadFile : option (FileHeader -> string + string);
  validateReport : ReportIssueRequest -> option string
}.

Section ReportHandler.
Context `{JsonDecoder} `{GenericDecoder}.

(** Lines 80-124: the image URL, and the upload made.  [image0] is the
    file [c.FormFile("image0")] gives, [None] when it gives an error or
    no file. *)
Definition upload (h : ReportHandler) (image0 : option FileHeader)
  : string * list step :=
  let imageURL := "" in
  match image0 with
  | Some file =>
      match uploadFile h with
      | Some UploadFile =>
          match UploadFile file with
          | inr err => ("", [Upload file (inr err)])
          | inl imageURL => (imageURL, [Upload file (inl imageURL)])
          end
      | None => ("https://example.com/placeholder.png", [])
      end
  | None => (imageURL, [])
  end.

(** Lines 142-159: the request built from generic JSON. *)
Definition genericTicket (req : ReportIssueRequest) (rawNetworkData : value)
    (imageURL : string) : ReportedTicket :=
  {| t_URL := rq_PageURL req;
     t_Payload := {[ "issue" := AString (rq_Issue req);
                     "description" := AString (rq_Description req);
                     "userEmail" := AString (rq_UserEmail req);
                     "leadId" := AString (rq_LeadID req);
                     "product" := AString (rq_Product req);
                     "failedNetworkCalls" := AValue rawNetworkData ]};
     t_Response := {[ "status" := AString "reported" ]};
     t_RequestHeaders := {[ "Content-Type" := "multipart/form-data" ]};
     t_ImageS3URL := imageURL |}.

(** Lines 181-199: the request built from the parsed calls. *)
Definition parsedTicket (req : ReportIssueRequest) (networkCalls : list NetworkCall)
    (imageURL : string) : ReportedTicket :=
  {| t_URL := rq_PageURL req;
     t_Payload := {[ "issue" := AString (rq_Issue req);
                     "description" := AString (rq_Description req);
                     "userEmail" := AString (rq_UserEmail req);
                     "leadId" := AString (rq_LeadID req);
                     "product" := AString (rq_Product req);
                     "failedNetworkCalls" := ACalls networkCalls;
                     "rawNetworkCallsJSON" := AString (FailedNetworkCalls req) ]};
     t_Response := {[ "status" := AString "reported" ]};
     t_RequestHeaders := {[ "Content-Type" := "multipart/form-data" ]};
     t_ImageS3URL := imageURL |}.

(** Lines 162-173 and 211-221 *)
Definition submit (h : ReportHandler) (uploads : list step)
    (ticketReq : ReportedTicket) : outcome (reply * list step) :=
  match createTicket h ticketReq with
  | Panic => Panic
  | Done (inr err) =>
      Done ({| code := StatusInternalServerError;
               obj := ErrorResponse "Failed to create ticket" err |},
            uploads ++ [Submit ticketReq])
  | Done (inl response) =>
      Done ({| code := StatusCreated; obj := Created response |},
            uploads ++ [Submit ticketReq])
  end.

(** [ReportIssue] (lines 48-222).  [bound] is what [c.ShouldBind(&req)]
    gives: the form, or an error.  The result is the reply and the steps
    taken. *)
Definition ReportIssue (h : ReportHandler) (bound : ReportIssueRequest + string)
    (image0 : option FileHeader) : outcome (reply * list step) :=
  match bound with
  | inr err =>
      Done ({| code := StatusBadRequest;
               obj := ErrorResponse "Invalid request body" err |}, [])
  | inl req =>
      match validateReport h req with
      | Some err =>
          Done ({| code := StatusBadRequest;
                   obj := ErrorResponse "Validation failed" err |}, [])
      | None =>
          let '(imageURL, uploads) := upload h image0 in
          match GetNetworkCalls req with
          | Panic => Panic
          | Done (networkCalls, Some _) =>
              match Logging.sample (FailedNetworkCalls req) with
              | None => Panic
              | Some _ =>
                  match Unmarshal_any (FailedNetworkCalls req) with
                  | inl rawNetworkData =>
                      submit h uploads (genericTicket req rawNetworkData imageURL)
                  | inr _ =>
                      let networkCalls := [] in
                      submit h uploads (parsedTicket req networkCalls imageURL)
                  end
              end
          | Done (networkCalls, None) =>
              submit h uploads (parsedTicket req networkCalls imageURL)
          end
      end
  end.

End ReportHandler.

End Handlers.

(** ** The overflow variables along a run *)

Module OverflowInvariant.
Import Services.

(** [st'] is [st], or it is flagged and its builder holds the text of
    [st]'s followed by more. *)
Definition extends (st st' : overflow) : Prop :=
  st' = st \/
  (wasTruncated st' = true /\
   exists more, more <> "" /\
                truncatedContent st' = truncatedContent st +:+ more).

End OverflowInvariant.

(** ** Concrete stores and handlers *)

Module HandlerExamples.
Import Services Orchestrator NetworkCalls Store Handlers Examples.

(** The reference decoder, decoding into an [interface{}]. *)
Definition generic : GenericDecoder :=
  {| Unmarshal_any := fun data =>
       match Json.parse data with
       | Some v => inl v
       | None => inr "invalid JSON"
       end |}.

(** A report all of whose sections fit. *)
Definition short_request : TicketRequest :=
  {| URL := "https://app.example.com/checkout";
     Payload := {[ "issue" := VString "Checkout fails";
                   "failedNetworkCalls" := VString compact_array ]};
     Response := {[ "status" := VString "reported" ]};
     RequestHeaders := {[ "Content-Type" := "multipart/form-data" ]};
     ImageS3URL := "https://example.com/placeholder.png" |}.




(** A store that holds RON-1, fails on RON-2 and holds nothing else. *)
Definition stored_ticket : FlattenedTicket :=
  {| ft_TicketID := "RON-1"; ft_Status := "created"; ft_AssignedTo := "bob";
     ft_JiraLink := "https://jira.example.com/browse/RON-1"; ft_CreatedAt := 0;
     ft_Issue := "Login fails"; ft_Description := ""; ft_UserEmail := "";
     ft_LeadID := ""; ft_Product := "";
     ft_PageURL := "https://app.example.com/login"; ft_ImageURL := "";
     ft_FailedNetworkCallsJSON := ""; ft_PayloadJSON := ""; ft_ResponseJSON := "";
     ft_RequestHeadersJSON := "" |}.

Definition tickets : Collection :=
  {| FindOne := fun jiraID =>
       if bool_decide (jiraID = "RON-1") then Decoded stored_ticket
       else if bool_decide (jiraID = "RON-2")
            then FindOneError "lookup mongo: host not found"
            else ErrNoDocuments;
     Find := Cursor (inl [stored_ticket]) |}.

(** A handler over [service] that requires a URL. *)
Definition ticket_handler : TicketHandler :=
  {| jiraService := service;
     validate := fun req =>
       if bool_decide (URL req = "") then Some "URL is required" else None |}.

(** A report handler whose ticket service creates RON-1 and whose uploads
    fail. *)
Definition created : TicketResponse :=
  {| TicketID := "RON-1"; Status := "created"; AssignedTo := "bob";
     JiraLink := "https://jira.example.com/browse/RON-1" |}.

Definition report_handler : ReportHandler :=
  {| createTicket := fun _ => Done (inl created);
     uploadFile := Some (fun _ => inr "failed to upload to S3: access denied");
     validateReport := fun _ => None |}.

Definition screenshot : FileHeader := {| Filename := "screen.png"; Size := 2048 |}.

End HandlerExamples.

(** * Properties *)

Import Services Orchestrator NetworkCalls.

(** ** Lengths and slices *)

Lemma len_nonneg (s : string) : 0 <= len s.
Proof. unfold len. lia. Qed.

Lemma length_append (s t : string) :
  String.length (s +:+ t) = (String.length s + String.length t)%nat.
Proof. induction s as [|c s IH]; [reflexivity | simpl; by rewrite IH]. Qed.

Lemma append_assoc (s t u : string) : (s +:+ t) +:+ u = s +:+ (t +:+ u).
Proof.
  induction s as [|c s IH]; [reflexivity|].
  change (String c ((s +:+ t) +:+ u) = String c (s +:+ (t +:+ u))).
  by rewrite IH.
Qed.

Lemma len_app (s t : string) : len (s +:+ t) = len s + len t.
Proof. unfold len. rewrite length_append. lia. Qed.

Lemma length_substring_head (n : nat) (s : string) :
  (n <= String.length s)%nat -> String.length (String.substring 0 n s) = n.
Proof.
  revert s. induction n as [|n IH]; intros [|c s] Hn; simpl in *; try lia; auto.
  rewrite IH; lia.
Qed.

Lemma slice_to_Some (s : string) (hi : Z) :
  0 <= hi <= len s ->
  slice_to s hi = Some (String.substring 0 (Z.to_nat hi) s).
Proof.
  intros [H0 H1]. unfold slice_to.
  destruct (Z.leb_spec 0 hi), (Z.leb_spec hi (len s)); simpl; auto; lia.
Qed.

Lemma slice_to_None (s : string) (hi : Z) : hi < 0 -> slice_to s hi = None.
Proof.
  intros Hneg. unfold slice_to. destruct (Z.leb_spec 0 hi); simpl; auto; lia.
Qed.

Lemma slice_to_len (s head : string) (hi : Z) :
  slice_to s hi = Some head -> len head = hi.
Proof.
  unfold slice_to.
  destruct (Z.leb_spec 0 hi), (Z.leb_spec hi (len s)); simpl; try discriminate.
  intros [= <-]. unfold len in *. rewrite length_substring_head; lia.
Qed.

(** ** The budget allocator *)

(** C2. For every ceiling and essential length, the allocations are
    remaining/2, remaining/5, remaining/5 and what is left of remaining,
    where remaining = ceiling - essentialLength: the four sum exactly to
    remaining, the payload allocation taking the remainders of the
    divisions.  With essentialLength 30000 and ceiling 32000 they are
    1000, 400, 400 and 200. *)
Theorem allocate_sums_to_remaining (ceiling essentialLength : Z) :
  let b := allocate ceiling essentialLength in
  remainingChars b = ceiling - essentialLength /\
  networkCallsLimit b = remainingChars b `quot` 2 /\
  headersLimit b = remainingChars b `quot` 5 /\
  responseLimit b = remainingChars b `quot` 5 /\
  networkCallsLimit b + headersLimit b + responseLimit b + payloadLimit b
    = remainingChars b /\
  payloadLimit b
    = remainingChars b `quot` 10
      + (remainingChars b `rem` 10
         - (remainingChars b `rem` 10) `quot` 2
         - 2 * ((remainingChars b `rem` 10) `quot` 5)) /\
  allocate 32000 30000 =
    {| remainingChars := 2000; networkCallsLimit := 1000; headersLimit := 400;
       responseLimit := 400; payloadLimit := 200 |}.
Proof.
  cbv zeta. unfold allocate; simpl. repeat split; try lia.
  generalize (ceiling - essentialLength); intros r.
  Z.quot_rem_to_equations. lia.
Qed.

(** ** Computations with the overflow variables *)

Lemma bind_Done {A B : Type} (m : M A) (f : A -> M B) (st : overflow)
    (r : B * overflow) :
  (m ≫= f) st = Done r <->
  exists a st', m st = Done (a, st') /\ f a st' = Done r.
Proof.
  unfold mbind, M_bind. destruct (m st) as [[a st']|]; split.
  - eauto.
  - intros (a' & st'' & [= -> ->] & Hf). exact Hf.
  - discriminate.
  - intros (a' & st'' & Hm & _). discriminate.
Qed.

Lemma bind_Panic_l {A B : Type} (m : M A) (f : A -> M B) (st : overflow) :
  m st = Panic -> (m ≫= f) st = Panic.
Proof. unfold mbind, M_bind. by intros ->. Qed.

Lemma bind_Done_l {A B : Type} (m : M A) (f : A -> M B) (st st' : overflow) (a : A) :
  m st = Done (a, st') -> (m ≫= f) st = f a st'.
Proof. unfold mbind, M_bind. by intros ->. Qed.

Lemma overflow_block_spec (heading fullContent : string) (st : overflow) :
  overflow_block heading fullContent st = Done (tt, recorded st heading fullContent).
Proof. reflexivity. Qed.

Lemma cut_Some (s : string) (hi : Z) (st : overflow) :
  0 <= hi <= len s ->
  cut s hi st = Done (String.substring 0 (Z.to_nat hi) s, st).
Proof. intros Hhi. unfold cut. by rewrite slice_to_Some. Qed.

Lemma cut_None (s : string) (hi : Z) (st : overflow) :
  hi < 0 -> cut s hi st = Panic.
Proof. intros Hhi. unfold cut. by rewrite slice_to_None. Qed.

(** ** The final check *)

Lemma len_truncation_notice : len truncation_notice = 89.
Proof. reflexivity. Qed.

Lemma finalCheck_within (description : string) (st : overflow) :
  len description <= maxJiraDescLength ->
  finalCheck description st = Done (description, st).
Proof.
  intros Hle. unfold finalCheck.
  destruct (Z.gtb_spec (len description) maxJiraDescLength); [lia | reflexivity].
Qed.

Lemma finalCheck_fires (description : string) (st : overflow) :
  maxJiraDescLength < len description ->
  finalCheck description st =
    Done (String.substring 0 (Z.to_nat (maxJiraDescLength - 100)) description
            +:+ truncation_notice,
          recorded st "h3. Full Original Description" description).
Proof.
  intros Hgt. unfold finalCheck.
  destruct (Z.gtb_spec (len description) maxJiraDescLength); [|lia].
  assert (Hhi : 0 <= maxJiraDescLength - 100 <= len description)
    by (unfold maxJiraDescLength in *; lia).
  rewrite (bind_Done_l _ _ _ _ _ (overflow_block_spec _ _ _)).
  rewrite (bind_Done_l _ _ _ _ _ (cut_Some _ _ _ Hhi)).
  reflexivity.
Qed.

(** ** The variable sections *)

Section SectionProperties.
Context `{GoRuntime}.

(** A section's text and the overflow variables when its content is
    cut. *)
Lemma clipped_keeps (heading body fullContent : string) (room pad : Z)
    (st : overflow) :
  len body <= room - pad ->
  clipped heading body fullContent room pad st = Done (body, st).
Proof.
  intros Hle. unfold clipped.
  destruct (Z.gtb_spec (len body) (room - pad)); [lia | reflexivity].
Qed.

Lemma clipped_cuts (heading body fullContent : string) (room pad : Z)
    (st : overflow) :
  room - pad < len body -> pad <= 30 -> 0 <= room - 30 ->
  clipped heading body fullContent room pad st =
    Done (String.substring 0 (Z.to_nat (room - 30)) body +:+ marker_line,
          recorded st heading fullContent).
Proof.
  intros Hgt Hpad Hroom. unfold clipped.
  destruct (Z.gtb_spec (len body) (room - pad)); [|lia].
  rewrite (bind_Done_l _ _ _ _ _ (overflow_block_spec _ _ _)).
  assert (Hhi : 0 <= room - 30 <= len body) by lia.
  by rewrite (bind_Done_l _ _ _ _ _ (cut_Some _ _ _ Hhi)).
Qed.

Lemma clipped_panics (heading body fullContent : string) (room pad : Z)
    (st : overflow) :
  room - pad < len body -> room - 30 < 0 ->
  clipped heading body fullContent room pad st = Panic.
Proof.
  intros Hgt Hroom. unfold clipped.
  destruct (Z.gtb_spec (len body) (room - pad)); [|lia].
  rewrite (bind_Done_l _ _ _ _ _ (overflow_block_spec _ _ _)).
  apply bind_Panic_l. by apply cut_None.
Qed.

Lemma clipped_flag (heading body fullContent : string) (room pad : Z)
    (st st' : overflow) (text : string) :
  clipped heading body fullContent room pad st = Done (text, st') ->
  wasTruncated st' = wasTruncated st || (len body >? room - pad).
Proof.
  unfold clipped. destruct (len body >? room - pad).
  - rewrite (bind_Done_l _ _ _ _ _ (overflow_block_spec _ _ _)).
    intros (head & st1 & Hcut & [= _ <-])%bind_Done.
    unfold cut in Hcut. destruct (slice_to _ _); [|discriminate].
    injection Hcut as _ <-. simpl. by rewrite orb_true_r.
  - intros [= _ <-]. by rewrite orb_false_r.
Qed.

Lemma networkCallsContent_keeps (limit : Z) (sectionStart sectionEnd nc : string)
    (st : overflow) :
  len nc <= limit - len sectionStart - len sectionEnd - 20 ->
  networkCallsContent limit sectionStart sectionEnd nc st =
    Done (code_json +:+ nc +:+ code_end, st).
Proof.
  intros Hle. unfold networkCallsContent.
  destruct (Z.gtb_spec (len nc) (limit - len sectionStart - len sectionEnd - 20));
    [lia | reflexivity].
Qed.

Lemma networkCallsContent_cuts (limit : Z) (sectionStart sectionEnd nc : string)
    (st : overflow) :
  limit - len sectionStart - len sectionEnd - 20 < len nc ->
  0 <= limit - len sectionStart - len sectionEnd - 50 ->
  networkCallsContent limit sectionStart sectionEnd nc st =
    Done ("Network calls data truncated to fit Jira limit:" +:+ LF +:+ code_json
            +:+ String.substring 0
                  (Z.to_nat (limit - len sectionStart - len sectionEnd - 50)) nc
            +:+ marker_line +:+ "{code}" +:+ LF,
          recorded st "h3. Complete Network Calls" (code_json +:+ nc +:+ code_end)).
Proof.
  intros Hgt Hroom. unfold networkCallsContent.
  destruct (Z.gtb_spec (len nc) (limit - len sectionStart - len sectionEnd - 20));
    [|lia].
  rewrite (bind_Done_l _ _ _ _ _ (overflow_block_spec _ _ _)).
  assert (Hhi : 0 <= limit - len sectionStart - len sectionEnd - 50 <= len nc) by lia.
  rewrite (bind_Done_l _ _ _ _ _ (cut_Some _ _ _ Hhi)).
  unfold mret, M_ret. by rewrite !append_assoc.
Qed.

Lemma networkCallsContent_flag (limit : Z) (sectionStart sectionEnd nc : string)
    (st st' : overflow) (text : string) :
  networkCallsContent limit sectionStart sectionEnd nc st = Done (text, st') ->
  wasTruncated st' =
    wasTruncated st || (len nc >? limit - len sectionStart - len sectionEnd - 20).
Proof.
  unfold networkCallsContent.
  destruct (len nc >? limit - len sectionStart - len sectionEnd - 20).
  - rewrite (bind_Done_l _ _ _ _ _ (overflow_block_spec _ _ _)).
    intros (head & st1 & Hcut & [= _ <-])%bind_Done.
    unfold cut in Hcut. destruct (slice_to _ _); [|discriminate].
    injection Hcut as _ <-. simpl. by rewrite orb_true_r.
  - intros [= _ <-]. by rewrite orb_false_r.
Qed.

(** The network-calls section is the panel around its content. *)
Lemma networkCallsSection_rendered (req : TicketRequest) (limit : Z) (nc : string)
    (st : overflow) :
  networkCalls_rendered req = Some nc ->
  networkCallsSection req limit st =
    (content ← networkCallsContent limit (panel "Failed Network Calls") panel_end nc;
     mret (panel "Failed Network Calls" +:+ content +:+ panel_end)) st.
Proof.
  unfold networkCalls_rendered, networkCallsSection.
  destruct (Payload req !! "failedNetworkCalls") as [v|]; [|discriminate].
  destruct v; try discriminate;
    try (intros ->; reflexivity); try (intros [= ->]; reflexivity).
Qed.

Lemma networkCallsSection_flag (req : TicketRequest) (limit : Z)
    (st st' : overflow) (text : string) :
  networkCallsSection req limit st = Done (text, st') ->
  wasTruncated st' = wasTruncated st || networkCalls_exceeds req limit.
Proof.
  unfold networkCalls_exceeds.
  destruct (networkCalls_rendered req) as [nc|] eqn:Hnc.
  - rewrite (networkCallsSection_rendered _ _ _ _ Hnc).
    intros (content & st1 & Hc & [= _ <-])%bind_Done.
    by apply networkCallsContent_flag in Hc.
  - revert Hnc. unfold networkCalls_rendered, networkCallsSection.
    destruct (Payload req !! "failedNetworkCalls") as [v|].
    + destruct v; try discriminate;
        try (intros _ [= _ <-]; by rewrite orb_false_r);
        intros -> [= _ <-]; by rewrite orb_false_r.
    + intros _ [= _ <-]. by rewrite orb_false_r.
Qed.

Lemma headersFallback_flag (room : Z) (hs : list (string * string))
    (headersStr fullHeadersStr : string) (st st' : overflow) (text : string) :
  headersFallback room hs headersStr fullHeadersStr st = Done (text, st') ->
  wasTruncated st' = wasTruncated st || fallback_exceeds room hs headersStr.
Proof.
  revert headersStr fullHeadersStr.
  induction hs as [|[k v] rest IH]; intros headersStr fullHeadersStr; simpl.
  - intros [= _ <-]. by rewrite orb_false_r.
  - destruct (len headersStr + len (k +:+ ": " +:+ v +:+ LF) >? room - 30).
    + intros [= _ <-]. simpl. by rewrite orb_true_r.
    + simpl. apply IH.
Qed.

Lemma headerSection_flag (req : TicketRequest) (limit : Z)
    (st st' : overflow) (text : string) :
  headerSection req limit st = Done (text, st') ->
  wasTruncated st' = wasTruncated st || headers_exceeds req limit.
Proof.
  unfold headerSection, headers_exceeds.
  destruct (0 <? Z.of_nat (size (RequestHeaders req))); simpl.
  - intros (body & st1 & Hbody & [= _ <-])%bind_Done.
    destruct (json_MarshalIndent_headers (RequestHeaders req)).
    + by apply clipped_flag in Hbody.
    + by apply headersFallback_flag in Hbody.
  - intros [= _ <-]. by rewrite orb_false_r.
Qed.

Lemma mapBody_flag (heading : string) (m : gmap string value) (room : Z)
    (st st' : overflow) (text : string) :
  mapBody heading m room st = Done (text, st') ->
  wasTruncated st' = wasTruncated st || map_exceeds m room.
Proof.
  unfold mapBody, map_exceeds, map_rendered, map_pad.
  destruct (json_MarshalIndent m); apply clipped_flag.
Qed.

Lemma responseSection_flag (req : TicketRequest) (limit : Z)
    (st st' : overflow) (text : string) :
  responseSection req limit st = Done (text, st') ->
  wasTruncated st' = wasTruncated st || response_exceeds req limit.
Proof.
  unfold responseSection, response_exceeds.
  destruct (0 <? Z.of_nat (size (Response req))); simpl.
  - intros (body & st1 & Hbody & [= _ <-])%bind_Done.
    by apply mapBody_flag in Hbody.
  - intros [= _ <-]. by rewrite orb_false_r.
Qed.

Lemma payloadSection_flag (req : TicketRequest) (limit : Z)
    (st st' : overflow) (text : string) :
  payloadSection req limit st = Done (text, st') ->
  wasTruncated st' = wasTruncated st || payload_exceeds req limit.
Proof.
  unfold payloadSection, payload_exceeds.
  intros (body & st1 & Hbody & [= _ <-])%bind_Done.
  by apply mapBody_flag in Hbody.
Qed.

(** [wasTruncated] after the final check is set exactly when a variable
    section or the whole description was cut. *)
Lemma describe_flag (req : TicketRequest) (description : string) (ov : overflow) :
  describe req = Done (description, ov) ->
  wasTruncated ov = truncates req.
Proof.
  unfold describe, truncates, description_exceeds.
  intros (pre & st & Hasm & Hfinal)%bind_Done. rewrite Hasm.
  assert (Hst : wasTruncated st =
                networkCalls_exceeds req (networkCallsLimit (budget_of req)) ||
                headers_exceeds req (headersLimit (budget_of req)) ||
                response_exceeds req (responseLimit (budget_of req)) ||
                payload_exceeds req (payloadLimit (budget_of req))).
  { revert Hasm. unfold assemble.
    intros (s1 & st1 & H1 & (s2 & st2 & H2 & (s3 & st3 & H3 &
             (s4 & st4 & H4 & [= _ <-])%bind_Done)%bind_Done)%bind_Done)%bind_Done.
    apply networkCallsSection_flag in H1. apply headerSection_flag in H2.
    apply responseSection_flag in H3. apply payloadSection_flag in H4.
    rewrite H4, H3, H2, H1. reflexivity. }
  destruct (Z.le_gt_cases (len pre) maxJiraDescLength) as [Hle|Hgt].
  - rewrite finalCheck_within in Hfinal by exact Hle. injection Hfinal as _ <-.
    rewrite Hst. destruct (Z.gtb_spec (len pre) maxJiraDescLength); [lia|].
    by rewrite orb_false_r.
  - rewrite finalCheck_fires in Hfinal by exact Hgt. injection Hfinal as _ <-.
    destruct (Z.gtb_spec (len pre) maxJiraDescLength); [|lia].
    simpl. by rewrite orb_true_r.
Qed.

End SectionProperties.

(** ** Allocations too small for the panel tokens *)

Section Panics.
Context `{GoRuntime}.

Lemma mapBody_panics (heading : string) (m : gmap string value) (room : Z)
    (st : overflow) :
  room < 20 -> mapBody heading m room st = Panic.
Proof.
  intros Hroom. unfold mapBody.
  destruct (json_MarshalIndent m) as [js|].
  - apply clipped_panics; [pose proof (len_nonneg js)|]; lia.
  - apply clipped_panics; [pose proof (len_nonneg (Sprintf_v m))|]; lia.
Qed.

Lemma payloadSection_panics (req : TicketRequest) (limit : Z) (st : overflow) :
  limit < 145 -> payloadSection req limit st = Panic.
Proof.
  intros Hlimit. unfold payloadSection. apply bind_Panic_l, mapBody_panics.
  change (len (panel "Full Payload Data")) with 116.
  change (len panel_end) with 9. lia.
Qed.

(** The payload section is always rendered, so an allocation under 145
    bytes for it stops the assembly, whatever the other sections do. *)
Lemma assemble_panics (req : TicketRequest) (st : overflow) :
  payloadLimit (budget_of req) < 145 -> assemble req st = Panic.
Proof.
  intros Hlimit. unfold assemble.
  unfold mbind at 1, M_bind at 1.
  destruct (networkCallsSection _ _ _) as [[s1 st1]|]; [|reflexivity].
  unfold mbind at 1, M_bind at 1.
  destruct (headerSection _ _ _) as [[s2 st2]|]; [|reflexivity].
  unfold mbind at 1, M_bind at 1.
  destruct (responseSection _ _ _) as [[s3 st3]|]; [|reflexivity].
  apply bind_Panic_l, payloadSection_panics. exact Hlimit.
Qed.

Lemma payloadLimit_bound (ceiling essentialLength : Z) :
  payloadLimit (allocate ceiling essentialLength)
    <= (ceiling - essentialLength) `quot` 10 + 3.
Proof.
  unfold allocate; simpl. generalize (ceiling - essentialLength); intros r.
  Z.quot_rem_to_equations. lia.
Qed.

(** Every request whose fixed sections leave less than 1420 bytes makes
    the assembly panic. *)
Lemma describe_panics (req : TicketRequest) :
  maxJiraDescLength - essentialLength req < 1420 -> describe req = Panic.
Proof.
  intros Hroom. unfold describe. apply bind_Panic_l, assemble_panics.
  pose proof (payloadLimit_bound maxJiraDescLength (essentialLength req)) as Hb.
  unfold budget_of. revert Hb Hroom.
  generalize (maxJiraDescLength - essentialLength req); intros r.
  Z.quot_rem_to_equations. lia.
Qed.

End Panics.

(** ** Allocations with room for the panel tokens *)

Section Totality.
Context `{GoRuntime}.

Lemma clipped_returns (heading body fullContent : string) (room pad : Z)
    (st : overflow) :
  pad <= 30 -> 0 <= room - 30 ->
  is_Done (clipped heading body fullContent room pad st) = true.
Proof.
  intros Hpad Hroom.
  destruct (Z.le_gt_cases (len body) (room - pad)) as [Hle|Hgt].
  - by rewrite clipped_keeps.
  - by rewrite clipped_cuts.
Qed.

Lemma networkCallsContent_returns (limit : Z) (sectionStart sectionEnd nc : string)
    (st : overflow) :
  0 <= limit - len sectionStart - len sectionEnd - 50 ->
  is_Done (networkCallsContent limit sectionStart sectionEnd nc st) = true.
Proof.
  intros Hroom.
  destruct (Z.le_gt_cases (len nc) (limit - len sectionStart - len sectionEnd - 20))
    as [Hle|Hgt].
  - by rewrite networkCallsContent_keeps.
  - by rewrite networkCallsContent_cuts.
Qed.

Lemma bind_returns {A B : Type} (m : M A) (f : A -> M B) (st : overflow) :
  is_Done (m st) = true ->
  (forall a st', is_Done (f a st') = true) ->
  is_Done ((m ≫= f) st) = true.
Proof.
  intros Hm Hf. unfold mbind, M_bind.
  destruct (m st) as [[a st']|]; [apply Hf | discriminate].
Qed.

Lemma networkCallsSection_returns (req : TicketRequest) (limit : Z) (st : overflow) :
  178 <= limit -> is_Done (networkCallsSection req limit st) = true.
Proof.
  intros Hlimit. unfold networkCallsSection.
  assert (Hroom : 0 <= limit - len (panel "Failed Network Calls") - len panel_end - 50).
  { change (len (panel "Failed Network Calls")) with 119.
    change (len panel_end) with 9. lia. }
  destruct (Payload req !! "failedNetworkCalls") as [v|]; [|reflexivity].
  destruct v; try reflexivity;
    (apply bind_returns; [|reflexivity]);
    try (destruct (json_Marshal _); [|reflexivity]);
    by apply networkCallsContent_returns.
Qed.

Lemma headersFallback_returns (room : Z) (hs : list (string * string))
    (headersStr fullHeadersStr : string) (st : overflow) :
  is_Done (headersFallback room hs headersStr fullHeadersStr st) = true.
Proof.
  revert headersStr fullHeadersStr.
  induction hs as [|[k v] rest IH]; intros headersStr fullHeadersStr; simpl;
    [reflexivity|].
  destruct (len headersStr + len (k +:+ ": " +:+ v +:+ LF) >? room - 30);
    [reflexivity | apply IH].
Qed.

Lemma headerSection_returns (req : TicketRequest) (limit : Z) (st : overflow) :
  153 <= limit -> is_Done (headerSection req limit st) = true.
Proof.
  intros Hlimit. unfold headerSection.
  destruct (0 <? Z.of_nat (size (RequestHeaders req))); [|reflexivity].
  apply bind_returns; [|reflexivity].
  destruct (json_MarshalIndent_headers (RequestHeaders req)).
  - apply clipped_returns; [lia|].
    change (len (panel "Request Headers")) with 114.
    change (len panel_end) with 9. lia.
  - apply headersFallback_returns.
Qed.

Lemma mapBody_returns (heading : string) (m : gmap string value) (room : Z)
    (st : overflow) :
  0 <= room - 30 -> is_Done (mapBody heading m room st) = true.
Proof.
  intros Hroom. unfold mapBody.
  destruct (json_MarshalIndent m); apply clipped_returns; lia.
Qed.

Lemma responseSection_returns (req : TicketRequest) (limit : Z) (st : overflow) :
  146 <= limit -> is_Done (responseSection req limit st) = true.
Proof.
  intros Hlimit. unfold responseSection.
  destruct (0 <? Z.of_nat (size (Response req))); [|reflexivity].
  apply bind_returns; [|reflexivity]. apply mapBody_returns.
  change (len (panel "Response")) with 107. change (len panel_end) with 9. lia.
Qed.

Lemma payloadSection_returns (req : TicketRequest) (limit : Z) (st : overflow) :
  155 <= limit -> is_Done (payloadSection req limit st) = true.
Proof.
  intros Hlimit. unfold payloadSection.
  apply bind_returns; [|reflexivity]. apply mapBody_returns.
  change (len (panel "Full Payload Data")) with 116.
  change (len panel_end) with 9. lia.
Qed.

Lemma finalCheck_returns (description : string) (st : overflow) :
  is_Done (finalCheck description st) = true.
Proof.
  destruct (Z.le_gt_cases (len description) maxJiraDescLength) as [Hle|Hgt].
  - by rewrite finalCheck_within.
  - by rewrite finalCheck_fires.
Qed.

(** A request whose fixed sections leave at least 1550 bytes gets its
    description: no slice is out of bounds. *)
Lemma describe_returns (req : TicketRequest) :
  1550 <= maxJiraDescLength - essentialLength req ->
  is_Done (describe req) = true.
Proof.
  intros Hroom. unfold describe.
  assert (Hb : 178 <= networkCallsLimit (budget_of req) /\
               153 <= headersLimit (budget_of req) /\
               146 <= responseLimit (budget_of req) /\
               155 <= payloadLimit (budget_of req)).
  { unfold budget_of, allocate; simpl. revert Hroom.
    generalize (maxJiraDescLength - essentialLength req); intros r Hr.
    Z.quot_rem_to_equations. lia. }
  destruct Hb as (Hn & Hh & Hr & Hp).
  apply bind_returns; [|intros; apply finalCheck_returns].
  unfold assemble.
  apply bind_returns; [by apply networkCallsSection_returns|]. intros s1 st1.
  apply bind_returns; [by apply headerSection_returns|]. intros s2 st2.
  apply bind_returns; [by apply responseSection_returns|]. intros s3 st3.
  apply bind_returns; [by apply payloadSection_returns|]. reflexivity.
Qed.

End Totality.

(** ** The claims about the description engine *)

Section EngineClaims.
Context `{GoRuntime}.

(** C1. Whatever the request, the description [CreateTicket] submits (the
    fixed sections and the four variable sections, after the final check)
    is at most 32000 bytes long; and a request whose fixed sections leave
    1550 bytes or more does get its description. *)
Theorem description_within_ceiling (req : TicketRequest) :
  (1550 <= maxJiraDescLength - essentialLength req ->
   is_Done (describe req) = true) /\
  (forall description ov,
     describe req = Done (description, ov) ->
     len description <= maxJiraDescLength).
Proof.
  split; [apply describe_returns|].
  intros description ov. unfold describe. intros (pre & st & _ & Hfinal)%bind_Done.
  destruct (Z.le_gt_cases (len pre) maxJiraDescLength) as [Hle|Hgt].
  - rewrite finalCheck_within in Hfinal by exact Hle. by injection Hfinal as <- _.
  - rewrite finalCheck_fires in Hfinal by exact Hgt. injection Hfinal as <- _.
    rewrite len_app, len_truncation_notice.
    unfold len at 1. rewrite length_substring_head.
    + unfold maxJiraDescLength. lia.
    + unfold len, maxJiraDescLength in *. lia.
Qed.


(** C3 (amended). For each variable section with rendered content (the
    network calls as a string or marshalled, the headers marshalled, the
    response and the payload marshalled or printed with [%v]): when the
    content is longer than the allocation less the panel tokens less 20
    (30 for [%v] text), and the allocation less the panel tokens less 30
    (50 for the network calls) is not negative, the section is the panel
    around the first so many bytes of the content followed by the marker
    line and the closing code token, and the overflow document gains the
    block "h3. Complete ..." holding the full content between code
    tokens. *)
Theorem cut_sections_keep_full_content_in_overflow (req : TicketRequest)
    (limit : Z) (st : overflow) :
  (forall nc,
     networkCalls_rendered req = Some nc ->
     let room := limit - len (panel "Failed Network Calls") - len panel_end in
     room - 20 < len nc -> 0 <= room - 50 ->
     exists head,
       slice_to nc (room - 50) = Some head /\
       networkCallsSection req limit st =
         Done (panel "Failed Network Calls"
                 +:+ ("Network calls data truncated to fit Jira limit:" +:+ LF
                        +:+ code_json +:+ head +:+ marker_line +:+ "{code}" +:+ LF)
                 +:+ panel_end,
               recorded st "h3. Complete Network Calls"
                 (code_json +:+ nc +:+ code_end))) /\
  (forall headersJSON,
     RequestHeaders req <> ∅ ->
     json_MarshalIndent_headers (RequestHeaders req) = Some headersJSON ->
     let room := limit - len (panel "Request Headers") - len panel_end in
     room - 20 < len headersJSON -> 0 <= room - 30 ->
     exists head,
       slice_to headersJSON (room - 30) = Some head /\
       headerSection req limit st =
         Done (panel "Request Headers"
                 +:+ (code_json +:+ (head +:+ marker_line) +:+ code_end)
                 +:+ panel_end,
               recorded st "h3. Complete Request Headers"
                 (code_json +:+ headersJSON +:+ code_end))) /\
  (Response req <> ∅ ->
   let body := map_rendered (Response req) in
   let room := limit - len (panel "Response") - len panel_end in
   room - map_pad (Response req) < len body -> 0 <= room - 30 ->
   exists head,
     slice_to body (room - 30) = Some head /\
     responseSection req limit st =
       Done (panel "Response"
               +:+ (code_json +:+ (head +:+ marker_line) +:+ code_end)
               +:+ panel_end,
             recorded st "h3. Complete Response" (code_json +:+ body +:+ code_end))) /\
  (let body := map_rendered (Payload req) in
   let room := limit - len (panel "Full Payload Data") - len panel_end in
   room - map_pad (Payload req) < len body -> 0 <= room - 30 ->
   exists head,
     slice_to body (room - 30) = Some head /\
     payloadSection req limit st =
       Done (panel "Full Payload Data"
               +:+ (code_json +:+ (head +:+ marker_line) +:+ code_end)
               +:+ panel_end,
             recorded st "h3. Complete Payload" (code_json +:+ body +:+ code_end))).
Proof.
  assert (Hsize : forall {V} (m : gmap string V),
             m <> ∅ -> (0 <? Z.of_nat (size m)) = true).
  { intros V m Hm. apply Z.ltb_lt.
    assert (size m <> 0%nat) by (by intros ?%map_size_empty_inv). lia. }
  assert (Hmap : forall heading m room,
             room - map_pad m < len (map_rendered m) -> 0 <= room - 30 ->
             mapBody heading m room st =
               Done (String.substring 0 (Z.to_nat (room - 30)) (map_rendered m)
                       +:+ marker_line,
                     recorded st heading
                       (code_json +:+ map_rendered m +:+ code_end))).
  { intros heading m room. unfold mapBody, map_rendered, map_pad.
    destruct (json_MarshalIndent m); intros; apply clipped_cuts; lia. }
  repeat split.
  - intros nc Hnc room Hgt Hroom. eexists. split.
    + apply slice_to_Some. subst room. lia.
    + rewrite (networkCallsSection_rendered _ _ _ _ Hnc).
      rewrite (bind_Done_l _ _ _ _ _
                 (networkCallsContent_cuts _ _ _ _ _ Hgt Hroom)).
      unfold mret, M_ret. by rewrite <- !append_assoc.
  - intros js Hne Hjs room Hgt Hroom. eexists. split.
    + apply slice_to_Some. subst room. lia.
    + unfold headerSection. rewrite (Hsize _ _ Hne), Hjs.
      rewrite (bind_Done_l _ _ _ _ _
                 (clipped_cuts _ _ _ _ _ _ Hgt ltac:(lia) Hroom)).
      reflexivity.
  - intros Hne body room Hgt Hroom. eexists. split.
    + apply slice_to_Some. subst room body. unfold map_pad in Hgt.
      destruct (json_MarshalIndent (Response req)); lia.
    + unfold responseSection. rewrite (Hsize _ _ Hne).
      rewrite (bind_Done_l _ _ _ _ _ (Hmap _ _ _ Hgt Hroom)). reflexivity.
  - intros body room Hgt Hroom. eexists. split.
    + apply slice_to_Some. subst room body. unfold map_pad in Hgt.
      destruct (json_MarshalIndent (Payload req)); lia.
    + unfold payloadSection.
      rewrite (bind_Done_l _ _ _ _ _ (Hmap _ _ _ Hgt Hroom)). reflexivity.
Qed.

(** C4 (the code departs from it). When the fixed sections are longer
    than the ceiling, the remaining budget and the payload allocation are
    negative (nothing clamps them), the payload section slices at a
    negative index, and [CreateTicket] panics instead of returning. *)
Theorem oversized_essential_content_panics (s : JiraService) (req : TicketRequest) :
  maxJiraDescLength < essentialLength req ->
  remainingChars (budget_of req) < 0 /\
  payloadLimit (budget_of req) < 0 /\
  describe req = Panic /\
  CreateTicket s req = Panic.
Proof.
  intros Hover.
  assert (Hpanic : describe req = Panic) by (apply describe_panics; lia).
  repeat split.
  - unfold budget_of, allocate; simpl. lia.
  - unfold budget_of, allocate; simpl.
    revert Hover. generalize (essentialLength req); intros e He.
    unfold maxJiraDescLength in *. Z.quot_rem_to_equations. lia.
  - exact Hpanic.
  - unfold CreateTicket. by rewrite Hpanic.
Qed.

(** C5. When the assembled description exceeds the ceiling, the final
    check appends it whole to the overflow document under the heading
    "h3. Full Original Description" and replaces it with its first
    32000 - 100 bytes followed by the fixed notice. *)
Theorem final_check_moves_description_to_overflow (req : TicketRequest)
    (assembled : string) (st : overflow) :
  assemble req overflow_init = Done (assembled, st) ->
  maxJiraDescLength < len assembled ->
  exists head,
    slice_to assembled (maxJiraDescLength - 100) = Some head /\
    len head = maxJiraDescLength - 100 /\
    describe req =
      Done (head +:+ truncation_notice,
            {| wasTruncated := true;
               truncatedContent :=
                 truncatedContent st +:+ ("h3. Full Original Description" +:+ LF)
                   +:+ assembled +:+ (LF +:+ LF) |}).
Proof.
  intros Hasm Hgt.
  assert (Hhi : 0 <= maxJiraDescLength - 100 <= len assembled)
    by (unfold maxJiraDescLength in *; lia).
  exists (String.substring 0 (Z.to_nat (maxJiraDescLength - 100)) assembled).
  split; [by apply slice_to_Some|]. split.
  - apply (slice_to_len assembled). by apply slice_to_Some.
  - unfold describe. rewrite (bind_Done_l _ _ _ _ _ Hasm).
    rewrite finalCheck_fires by exact Hgt. unfold recorded.
    by rewrite !append_assoc.
Qed.

End EngineClaims.

(** ** The orchestration *)

Lemma commentBody_total (truncatedContent : string) :
  exists body, commentBody truncatedContent = Done body.
Proof.
  unfold commentBody.
  destruct (Z.gtb_spec (len truncatedContent) maxJiraDescLength); [|eauto].
  rewrite slice_to_Some by (unfold maxJiraDescLength in *; lia). eauto.
Qed.

Lemma at_index_Some (team : list string) (i : Z) :
  0 <= i < Z.of_nat (length team) ->
  exists member, at_index team i = Some member /\ member ∈ team.
Proof.
  intros [H0 Hlt]. unfold at_index.
  destruct (Z.leb_spec 0 i); [|lia].
  destruct (lookup_lt_is_Some_2 team (Z.to_nat i)) as [member Hm]; [lia|].
  exists member. split; [exact Hm|]. by eapply list_elem_of_lookup_2.
Qed.

(** C9. With an empty roster the selector returns the empty string; with
    a non-empty roster it returns one of the roster's members. *)
Theorem random_team_member_from_roster (s : JiraService) :
  (supportTeam s = [] -> getRandomTeamMember s = Done "") /\
  (supportTeam s <> [] ->
   exists member, getRandomTeamMember s = Done member /\ member ∈ supportTeam s).
Proof.
  unfold getRandomTeamMember. split.
  - by intros ->.
  - intros Hne. case_bool_decide as Hlen.
    + by apply nil_length_inv in Hlen.
    + destruct (at_index_Some (supportTeam s)
                  (Intn (rand s) (Z.of_nat (length (supportTeam s)))))
        as (member & -> & Hin); [apply Intn_range; lia|].
      eauto.
Qed.

Section OrchestrationClaims.
Context `{GoRuntime}.

Lemma getRandomTeamMember_with_secondary (s : JiraService) addComment store :
  getRandomTeamMember (with_secondary s addComment store) = getRandomTeamMember s.
Proof. reflexivity. Qed.

(** What a run that does not panic went through. *)
Lemma CreateTicket_Done (s : JiraService) (req : TicketRequest) (r : run) :
  CreateTicket s req = Done r ->
  exists description ov assignee,
    describe req = Done (description, ov) /\
    getRandomTeamMember s = Done assignee /\
    let issue :=
      {| ProjectKey := projectKey s;
         Summary := "Issue Report: " +:+ Sprintf_s (index (Payload req) "issue");
         Description := description;
         TypeID := issueTypeID s;
         AssigneeAccountID := assignee |} in
    match Create (client s) issue with
    | inr (resp, e) =>
        r = {| returned := inr (create_error resp e);
               calls := [CallCreate issue (inr (resp, e))] |}
    | inl key =>
        exists commented,
          attachOverflow s key ov = Done commented /\
          r = {| returned := inl {| TicketID := key; Status := "created";
                                    AssignedTo := assignee;
                                    JiraLink := jiraLink s key |};
                 calls := CallCreate issue (inl key) :: commented
                          ++ persist s req key assignee |}
    end.
Proof.
  unfold CreateTicket.
  destruct (describe req) as [[description ov]|]; [|discriminate].
  destruct (getRandomTeamMember s) as [assignee|]; [|discriminate].
  intros Hrun. exists description, ov, assignee. repeat split.
  cbv zeta. destruct (Create (client s) _) as [key|[resp e]].
  - destruct (attachOverflow s key ov) as [commented|]; [|discriminate].
    injection Hrun as <-. eauto.
  - by injection Hrun as <-.
Qed.

(** C7. A run of [CreateTicket] that returns went through one submission,
    and returns an error exactly when that submission failed.  When it
    succeeded the result is the ticket id, "created", the assignee and the
    link, and stays the same whatever the comment service and the store
    do. *)
Theorem create_ticket_fails_only_on_submission (s : JiraService)
    (req : TicketRequest) (r : run) :
  CreateTicket s req = Done r ->
  exists issue assignee rest,
    getRandomTeamMember s = Done assignee /\
    calls r = CallCreate issue (Create (client s) issue) :: rest /\
    ((exists e, returned r = inr e) <-> (exists f, Create (client s) issue = inr f)) /\
    match Create (client s) issue with
    | inr (resp, e) => returned r = inr (create_error resp e) /\ rest = []
    | inl key =>
        returned r = inl {| TicketID := key; Status := "created";
                            AssignedTo := assignee; JiraLink := jiraLink s key |} /\
        forall addComment store,
          exists r', CreateTicket (with_secondary s addComment store) req = Done r' /\
                     returned r' = returned r
    end.
Proof.
  intros (description & ov & assignee & Hdesc & Hassignee & Hrun)%CreateTicket_Done.
  cbv zeta in Hrun.
  set (issue := {| ProjectKey := projectKey s; Summary := _; Description := description;
                   TypeID := issueTypeID s; AssigneeAccountID := assignee |}) in *.
  exists issue, assignee.
  destruct (Create (client s) issue) as [key|[resp e]] eqn:Hcreate.
  - destruct Hrun as (commented & Hattach & ->).
    exists (commented ++ persist s req key assignee). simpl.
    split; [exact Hassignee|]. split; [reflexivity|]. split.
    { split; intros [? ?]; discriminate. }
    split; [reflexivity|]. intros addComment store.
    unfold CreateTicket. rewrite Hdesc, getRandomTeamMember_with_secondary, Hassignee.
    change (issueTypeID (with_secondary s addComment store)) with (issueTypeID s).
    change (projectKey (with_secondary s addComment store)) with (projectKey s).
    change (Create (client (with_secondary s addComment store))) with (Create (client s)).
    fold issue. rewrite Hcreate.
    unfold attachOverflow. destruct (wasTruncated ov).
    + destruct (commentBody_total (truncatedContent ov)) as [body ->]. eauto.
    + eauto.
  - subst r. exists []. simpl.
    split; [exact Hassignee|]. split; [reflexivity|]. split; [|done].
    split; eauto.
Qed.

(** When the final check fires, the overflow document holds the whole
    description and is itself over the ceiling: the comment posted is its
    first 32000 - 100 bytes followed by a notice. *)
Lemma comment_is_cut_when_final_check_fires (req : TicketRequest)
    (assembled description : string) (st ov : overflow) :
  assemble req overflow_init = Done (assembled, st) ->
  maxJiraDescLength < len assembled ->
  describe req = Done (description, ov) ->
  exists head,
    slice_to (truncatedContent ov) (maxJiraDescLength - 100) = Some head /\
    commentBody (truncatedContent ov) = Done (head +:+ comment_notice).
Proof.
  intros Hasm Hgt. unfold describe. rewrite (bind_Done_l _ _ _ _ _ Hasm).
  rewrite finalCheck_fires by exact Hgt. intros [= _ <-].
  assert (Hlen : maxJiraDescLength < len (truncatedContent
                   (recorded st "h3. Full Original Description" assembled))).
  { unfold recorded; simpl. rewrite !len_app.
    pose proof (len_nonneg (truncatedContent st)).
    pose proof (len_nonneg "h3. Full Original Description").
    pose proof (len_nonneg LF). lia. }
  eexists. split.
  - apply slice_to_Some. unfold maxJiraDescLength in *. lia.
  - unfold commentBody.
    destruct (Z.gtb_spec (len (truncatedContent
                (recorded st "h3. Full Original Description" assembled)))
                maxJiraDescLength); [|lia].
    rewrite slice_to_Some by (unfold maxJiraDescLength in *; lia). reflexivity.
Qed.

(** C8. When the ticket was created, the overflow comment is posted to it
    if and only if a variable section or the whole description was cut;
    without truncation no comment call is made. *)
Theorem overflow_comment_iff_truncated (s : JiraService) (req : TicketRequest)
    (r : run) (resp : TicketResponse) :
  CreateTicket s req = Done r ->
  returned r = inl resp ->
  existsb is_comment (calls r) = truncates req /\
  (forall key body e, CallAddComment key body e ∈ calls r -> key = TicketID resp) /\
  (truncates req = false -> forall c, c ∈ calls r -> is_comment c = false).
Proof.
  intros (description & ov & assignee & Hdesc & Hassignee & Hrun)%CreateTicket_Done
         Hret.
  cbv zeta in Hrun. apply describe_flag in Hdesc.
  destruct (Create (client s) _) as [key|[resp' e]].
  2: { subst r. discriminate. }
  destruct Hrun as (commented & Hattach & ->). injection Hret as <-.
  assert (Hpersist : forall c, c ∈ persist s req key assignee -> is_comment c = false).
  { unfold persist. destruct (mongoService s); [|by intros c ?%elem_of_nil].
    intros c ->%list_elem_of_singleton. reflexivity. }
  assert (Hno : existsb is_comment (persist s req key assignee) = false).
  { unfold persist. by destruct (mongoService s). }
  unfold attachOverflow in Hattach. rewrite Hdesc in Hattach.
  destruct (truncates req).
  - destruct (commentBody_total (truncatedContent ov)) as [body Hbody].
    rewrite Hbody in Hattach. injection Hattach as <-. simpl.
    split; [reflexivity|]. split; [|discriminate].
    intros key' body' e' [Hc|[Hc|Hc]%elem_of_cons]%elem_of_cons.
    + discriminate.
    + by injection Hc as -> _ _.
    + by apply Hpersist in Hc.
  - injection Hattach as <-. simpl. split; [exact Hno|]. split.
    + intros key' body' e' [Hc|Hc]%elem_of_cons; [discriminate|].
      by apply Hpersist in Hc.
    + intros _ c [->|Hc]%elem_of_cons; [reflexivity|]. by apply Hpersist.
Qed.

End OrchestrationClaims.

(** ** The network-call field parser *)

Section ParserProperties.
Context `{JsonDecoder}.

(** The attempts are made in order and the first success is returned. *)
Lemma GetNetworkCalls_first_attempt (r : ReportIssueRequest)
    (calls : list NetworkCall) :
  FailedNetworkCalls r <> "" ->
  Unmarshal_calls (FailedNetworkCalls r) [] = (calls, None) ->
  GetNetworkCalls r = Done (calls, None).
Proof.
  intros Hne Hfirst. unfold GetNetworkCalls.
  case_bool_decide; [done|]. by rewrite Hfirst.
Qed.

Lemma GetNetworkCalls_second_attempt (r : ReportIssueRequest)
    (partial calls : list NetworkCall) (e input : string) :
  FailedNetworkCalls r <> "" ->
  Unmarshal_calls (FailedNetworkCalls r) [] = (partial, Some e) ->
  clean (FailedNetworkCalls r) = Done input ->
  Unmarshal_calls input partial = (calls, None) ->
  GetNetworkCalls r = Done (calls, None).
Proof.
  intros Hne Hfirst Hclean Hsecond. unfold GetNetworkCalls.
  case_bool_decide; [done|]. by rewrite Hfirst, Hclean, Hsecond.
Qed.

(** When every attempt fails the parser returns the error, not a
    panic. *)
Lemma GetNetworkCalls_soft_failure (r : ReportIssueRequest) :
  FailedNetworkCalls r <> "" ->
  attempts_fail (FailedNetworkCalls r) = true ->
  exists calls, GetNetworkCalls r = Done (calls, Some parse_failure).
Proof.
  intros Hne. unfold attempts_fail, GetNetworkCalls.
  case_bool_decide; [done|].
  destruct (Unmarshal_calls (FailedNetworkCalls r) []) as [c1 [e1|]]; [|discriminate].
  destruct (clean (FailedNetworkCalls r)) as [input|]; [|discriminate].
  destruct (Unmarshal_calls input c1) as [c2 [e2|]]; [|discriminate].
  destruct (Unmarshal_string input) as [decoded|e3]; [|eauto].
  destruct (Unmarshal_calls decoded c2) as [c3 [e4|]]; [eauto|discriminate].
Qed.

(** C10. With an empty failed-network-calls field the parser returns the
    empty list and no error, whatever the decoder; yet the empty string
    is not JSON, and each of the three attempts fails on it. *)
Theorem empty_field_parses_to_empty_list (r : ReportIssueRequest) :
  FailedNetworkCalls r = "" ->
  GetNetworkCalls r = Done ([], None) /\
  Json.parse "" = None /\
  @attempts_fail Json.decoder "" = true.
Proof.
  intros Hempty. split; [|split; reflexivity].
  unfold GetNetworkCalls. rewrite Hempty. reflexivity.
Qed.

End ParserProperties.


(** ** Unquoting undoes quoting *)

Lemma substring_all (s : string) : String.substring 0 (String.length s) s = s.
Proof. induction s as [|c s IH]; [reflexivity | simpl; by rewrite IH]. Qed.

Lemma substring_head_app (s t : string) :
  String.substring 0 (String.length s) (s +:+ t) = s.
Proof. induction s as [|c s IH]; [by destruct t | simpl; by rewrite IH]. Qed.

Lemma substring_drop (p s : string) :
  String.substring (String.length p) (String.length (p +:+ s) - String.length p)
    (p +:+ s) = s.
Proof.
  induction p as [|c p IH].
  - change ("" +:+ s) with s. simpl. rewrite Nat.sub_0_r. apply substring_all.
  - change (String c p +:+ s) with (String c (p +:+ s)). simpl. exact IH.
Qed.

Lemma prefix_app (p s : string) : String.prefix p (p +:+ s) = true.
Proof.
  induction p as [|c p IH]; [by destruct s|].
  change (String c p +:+ s) with (String c (p +:+ s)). simpl.
  destruct (Ascii.ascii_dec c c); [exact IH | congruence].
Qed.

Lemma prefix_head (a c : Ascii.ascii) (p s : string) :
  a <> c -> String.prefix (String a p) (String c s) = false.
Proof. intros Hne. simpl. by destruct (Ascii.ascii_dec a c). Qed.

Lemma prefix_second (a b c d : Ascii.ascii) (p s : string) :
  b <> d -> String.prefix (String a (String b p)) (String c (String d s)) = false.
Proof.
  intros Hne. simpl. destruct (Ascii.ascii_dec a c); [|reflexivity].
  by destruct (Ascii.ascii_dec b d).
Qed.

(** One step of the scan: at an occurrence, and at a character that
    starts none. *)
Lemma replace_from_match (fuel : nat) (c : Ascii.ascii) (old s new : string) :
  replace_from (S fuel) (String c old +:+ s) (String c old) new =
    new +:+ replace_from fuel s (String c old) new.
Proof.
  change (replace_from (S fuel) (String c old +:+ s) (String c old) new) with
    (if String.prefix (String c old) (String c old +:+ s)
     then new +:+ replace_from fuel
            (String.substring (String.length (String c old))
               (String.length (String c old +:+ s) - String.length (String c old))
               (String c old +:+ s)) (String c old) new
     else String c (replace_from fuel (old +:+ s) (String c old) new)).
  by rewrite prefix_app, substring_drop.
Qed.

Lemma replace_from_skip (fuel : nat) (c : Ascii.ascii) (s old new : string) :
  String.prefix old (String c s) = false ->
  replace_from (S fuel) (String c s) old new = String c (replace_from fuel s old new).
Proof.
  intros Hno.
  change (replace_from (S fuel) (String c s) old new) with
    (if String.prefix old (String c s)
     then new +:+ replace_from fuel
            (String.substring (String.length old)
               (String.length (String c s) - String.length old) (String c s))
            old new
     else String c (replace_from fuel s old new)).
  by rewrite Hno.
Qed.

Lemma replace_from_empty (fuel : nat) (old new : string) :
  replace_from fuel "" old new = "".
Proof. by destruct fuel. Qed.

Lemma escape_char_bs : escape_char bs = String bs BS.
Proof. reflexivity. Qed.

Lemma escape_char_dq : escape_char dq = String bs DQ.
Proof. reflexivity. Qed.

Lemma escape_char_other (c : Ascii.ascii) :
  c <> bs -> c <> dq -> escape_char c = String c "".
Proof. intros Hbs Hdq. unfold escape_char. by rewrite !bool_decide_eq_false_2. Qed.

Lemma double_backslash_bs : double_backslash bs = String bs BS.
Proof. reflexivity. Qed.

Lemma double_backslash_other (c : Ascii.ascii) :
  c <> bs -> double_backslash c = String c "".
Proof. intros Hbs. unfold double_backslash. by rewrite bool_decide_eq_false_2. Qed.

Lemma escaped_cons (c : Ascii.ascii) (s : string) :
  escaped (String c s) = escape_char c +:+ escaped s.
Proof. reflexivity. Qed.

Lemma backslashes_doubled_cons (c : Ascii.ascii) (s : string) :
  backslashes_doubled (String c s) = double_backslash c +:+ backslashes_doubled s.
Proof. reflexivity. Qed.

(** An escaped text never starts with a bare quote. *)
Lemma escaped_head (s : string) : String.prefix DQ (escaped s) = false.
Proof.
  destruct s as [|c s]; [reflexivity|]. rewrite escaped_cons.
  destruct (decide (c = bs)) as [->|Hbs]; [reflexivity|].
  destruct (decide (c = dq)) as [->|Hdq]; [reflexivity|].
  rewrite escape_char_other by done. apply prefix_head. congruence.
Qed.

(** Replacing the escaped quotes of [escaped s] leaves the backslashes
    doubled. *)
Lemma unescape_quotes (fuel : nat) (s : string) :
  (String.length (escaped s) <= fuel)%nat ->
  replace_from fuel (escaped s) (BS +:+ DQ) DQ = backslashes_doubled s.
Proof.
  revert fuel. induction s as [|c s IH]; intros fuel Hfuel.
  - apply replace_from_empty.
  - rewrite escaped_cons in *. rewrite backslashes_doubled_cons.
    rewrite length_append in Hfuel.
    destruct (decide (c = bs)) as [->|Hbs];
      [|destruct (decide (c = dq)) as [->|Hdq]].
    + rewrite escape_char_bs in *. rewrite double_backslash_bs.
      change (String.length (String bs BS)) with 2%nat in Hfuel.
      destruct fuel as [|[|fuel]]; [lia..|].
      change (String bs BS +:+ escaped s) with (String bs (String bs (escaped s))).
      change (BS +:+ DQ) with (String bs (String dq "")).
      rewrite replace_from_skip by (by apply prefix_second).
      rewrite replace_from_skip.
      * change (String bs (String dq "")) with (BS +:+ DQ).
        rewrite IH by lia. reflexivity.
      * pose proof (escaped_head s) as Hhead.
        destruct (escaped s) as [|d r]; [reflexivity|].
        apply prefix_second. intros <-.
        change (String dq r) with (DQ +:+ r) in Hhead.
        by rewrite prefix_app in Hhead.
    + rewrite escape_char_dq in *. rewrite double_backslash_other by done.
      change (String.length (String bs DQ)) with 2%nat in Hfuel.
      destruct fuel as [|fuel]; [lia|].
      change (BS +:+ DQ) with (String bs DQ).
      rewrite replace_from_match.
      change (String bs DQ) with (BS +:+ DQ). rewrite IH by lia. reflexivity.
    + rewrite escape_char_other in * by done.
      rewrite double_backslash_other by done.
      change (String.length (String c "")) with 1%nat in Hfuel.
      destruct fuel as [|fuel]; [lia|].
      change (String c "" +:+ escaped s) with (String c (escaped s)).
      rewrite replace_from_skip by (apply prefix_head; congruence).
      rewrite IH by lia. reflexivity.
Qed.

(** Halving the doubled backslashes gives the text back. *)
Lemma unescape_backslashes (fuel : nat) (s : string) :
  (String.length (backslashes_doubled s) <= fuel)%nat ->
  replace_from fuel (backslashes_doubled s) (BS +:+ BS) BS = s.
Proof.
  revert fuel. induction s as [|c s IH]; intros fuel Hfuel.
  - apply replace_from_empty.
  - rewrite backslashes_doubled_cons in *. rewrite length_append in Hfuel.
    destruct (decide (c = bs)) as [->|Hbs].
    + rewrite double_backslash_bs in *.
      change (String.length (String bs BS)) with 2%nat in Hfuel.
      destruct fuel as [|fuel]; [lia|].
      change (BS +:+ BS) with (String bs BS).
      rewrite replace_from_match.
      change (String bs BS) with (BS +:+ BS). rewrite IH by lia. reflexivity.
    + rewrite double_backslash_other in * by done.
      change (String.length (String c "")) with 1%nat in Hfuel.
      destruct fuel as [|fuel]; [lia|].
      change (String c "" +:+ backslashes_doubled s)
        with (String c (backslashes_doubled s)).
      rewrite replace_from_skip by (apply prefix_head; congruence).
      rewrite IH by lia. reflexivity.
Qed.

Lemma unescape_escaped (s : string) :
  ReplaceAll (ReplaceAll (escaped s) (BS +:+ DQ) DQ) (BS +:+ BS) BS = s.
Proof.
  unfold ReplaceAll. rewrite unescape_quotes by reflexivity.
  by rewrite unescape_backslashes.
Qed.

(** ** Trimming and unquoting a quoted text *)

Lemma rev_app_app (s t acc : string) :
  String.rev_app (s +:+ t) acc = String.rev_app t (String.rev_app s acc).
Proof.
  revert acc. induction s as [|c s IH]; intros acc; [reflexivity|].
  change (String c s +:+ t) with (String c (s +:+ t)). simpl. apply IH.
Qed.

Lemma rev_rev_app (s acc : string) :
  String.rev (String.rev_app s acc) = String.rev_app acc s.
Proof.
  revert acc. induction s as [|c s IH]; intros acc; [reflexivity|].
  simpl. by rewrite IH.
Qed.

Lemma rev_involutive (s : string) : String.rev (String.rev s) = s.
Proof. unfold String.rev at 2. by rewrite rev_rev_app. Qed.

(** A text between double quotes, and its reverse, start with a quote. *)
Lemma rev_quoted (x : string) :
  String.rev (String dq (x +:+ DQ)) = String dq (String.rev_app x DQ).
Proof.
  unfold String.rev.
  change (String.rev_app (String dq (x +:+ DQ)) "")
    with (String.rev_app (x +:+ DQ) DQ).
  rewrite rev_app_app. reflexivity.
Qed.

Lemma leading_space_quote (r : string) : leading_space (String dq r) = None.
Proof. reflexivity. Qed.

Lemma trailing_space_quote (r : string) : trailing_space (String dq r) = None.
Proof. reflexivity. Qed.

Lemma TrimSpace_quoted (x : string) :
  TrimSpace (String dq (x +:+ DQ)) = String dq (x +:+ DQ).
Proof.
  unfold TrimSpace.
  change (String.length (String dq (x +:+ DQ)))
    with (S (String.length (x +:+ DQ))).
  change (trim_left (S (String.length (x +:+ DQ))) (String dq (x +:+ DQ)))
    with (String dq (x +:+ DQ)).
  cbv zeta. rewrite rev_quoted.
  change (String.length (String dq (x +:+ DQ)))
    with (S (String.length (x +:+ DQ))).
  change (trim_right_rev (S (String.length (x +:+ DQ)))
            (String dq (String.rev_app x DQ)))
    with (String dq (String.rev_app x DQ)).
  rewrite <- rev_quoted. apply rev_involutive.
Qed.

Lemma unquote_quoted (x : string) :
  unquote (String dq (x +:+ DQ)) = Done x.
Proof.
  unfold unquote.
  assert (Hsuffix : HasSuffix (String dq (x +:+ DQ)) DQ = true).
  { unfold HasSuffix. rewrite rev_quoted.
    change (String.prefix DQ (DQ +:+ String.rev_app x DQ) = true).
    apply prefix_app. }
  change (HasPrefix (String dq (x +:+ DQ)) DQ)
    with (String.prefix DQ (DQ +:+ (x +:+ DQ))).
  rewrite prefix_app, Hsuffix. simpl.
  assert (Hlen : len (String dq (x +:+ DQ)) = len x + 2).
  { change (String dq (x +:+ DQ)) with (DQ +:+ (x +:+ DQ)).
    rewrite !len_app. change (len DQ) with 1. lia. }
  unfold slice. rewrite Hlen.
  destruct (Z.leb_spec 0 1); [|lia].
  destruct (Z.leb_spec 1 (len x + 2 - 1)); [|pose proof (len_nonneg x); lia].
  destruct (Z.leb_spec (len x + 2 - 1) (len x + 2)); [|lia]. simpl.
  replace (Z.to_nat (len x + 2 - 1 - 1)) with (String.length x)
    by (unfold len; lia).
  change (Z.to_nat 1) with 1%nat.
  change (String.substring 1 (String.length x) (String dq (x +:+ DQ)))
    with (String.substring 0 (String.length x) (x +:+ DQ)).
  by rewrite substring_head_app.
Qed.

(** The second attempt's input for a quote-wrapped text is the text. *)
Lemma clean_quote_wrapped (s : string) : clean (quote_wrapped s) = Done s.
Proof.
  unfold clean, quote_wrapped.
  change (DQ +:+ escaped s +:+ DQ) with (String dq (escaped s +:+ DQ)).
  rewrite TrimSpace_quoted, unquote_quoted. by rewrite unescape_escaped.
Qed.

Section Variants.
Context `{JsonDecoder}.

Lemma quote_wrapped_nonempty (s : string) : quote_wrapped s <> "".
Proof. discriminate. Qed.

(** When the decoder rejects the quote-wrapped form of [s], the second
    attempt decodes [s] itself. *)
Lemma GetNetworkCalls_quote_wrapped (r : ReportIssueRequest) (s e : string)
    (partial calls : list NetworkCall) :
  FailedNetworkCalls r = quote_wrapped s ->
  Unmarshal_calls (quote_wrapped s) [] = (partial, Some e) ->
  Unmarshal_calls s partial = (calls, None) ->
  GetNetworkCalls r = Done (calls, None).
Proof.
  intros Hraw Hfirst Hsecond.
  apply (GetNetworkCalls_second_attempt r partial calls e s).
  - rewrite Hraw. apply quote_wrapped_nonempty.
  - by rewrite Hraw.
  - rewrite Hraw. apply clean_quote_wrapped.
  - exact Hsecond.
Qed.

End Variants.

(** ** The reference decoder on the variants *)

(** A text that starts with a quote is a string or malformed: decoding it
    into the slice fails and leaves the slice alone. *)
Lemma unmarshal_calls_quoted (x : string) (calls : list NetworkCall) :
  exists e, Json.unmarshal_calls (String dq x) calls = (calls, Some e).
Proof.
  unfold Json.unmarshal_calls, Json.parse.
  change (Json.parse_value (4 + 2 * String.length (String dq x)) (String dq x))
    with ('(t, rest) ← Json.parse_chars x; Some (VString t, rest)).
  destruct (Json.parse_chars x) as [[t rest]|]; simpl; [|eauto].
  case_bool_decide; simpl; eauto.
Qed.

Lemma code_inj (c : Ascii.ascii) (n : N) :
  Json.code c = Z.of_N n -> c = Ascii.ascii_of_N n.
Proof.
  unfold Json.code. intros Hc%N2Z.inj. by rewrite <- Hc, Ascii.ascii_N_embedding.
Qed.

Lemma escape_byte_plain (c : Ascii.ascii) :
  32 <= Json.code c ->
  Json.code c <> 60 -> Json.code c <> 62 -> Json.code c <> 38 ->
  Json.escape_byte c = escape_char c.
Proof.
  intros H32 H60 H62 H38.
  destruct (decide (c = bs)) as [->|Hbs]; [reflexivity|].
  destruct (decide (c = dq)) as [->|Hdq]; [reflexivity|].
  rewrite escape_char_other by done. unfold Json.escape_byte.
  assert (Json.code c <> 34) by (intros E; by apply (code_inj c 34) in E).
  assert (Json.code c <> 92) by (intros E; by apply (code_inj c 92) in E).
  repeat match goal with
         | |- context [?a =? ?b] => destruct (Z.eqb_spec a b); [lia|]
         | |- context [?a <? ?b] => destruct (Z.ltb_spec a b); [lia|]
         end.
  reflexivity.
Qed.

Lemma escape_plain (s : string) :
  Json.no_escapes_beyond_quotes s = true -> Json.escape s = escaped s.
Proof.
  unfold Json.no_escapes_beyond_quotes.
  induction s as [|c s IH]; [reflexivity|]. simpl.
  intros [[H32%Z.leb_le Hno%negb_true_iff]%andb_prop Hrest]%andb_prop.
  apply orb_false_elim in Hno as [[H60%Z.eqb_neq H62%Z.eqb_neq]%orb_false_elim
                                   H38%Z.eqb_neq].
  rewrite escaped_cons, escape_byte_plain, IH by done. reflexivity.
Qed.

(** Without control or HTML characters, encoding a text as a JSON string
    is wrapping it in quotes. *)
Lemma double_encoded_plain (s : string) :
  Json.no_escapes_beyond_quotes s = true ->
  Json.double_encoded s = quote_wrapped s.
Proof.
  intros Hplain. unfold Json.double_encoded, quote_wrapped. simpl.
  unfold Json.quote. by rewrite escape_plain.
Qed.

(** What does hold of C6: whenever the text of the field decodes to a
    list of calls, its quote-wrapped form parses to the same list, and so
    does its double-encoded form if the text has no control or HTML
    character. *)
Lemma variants_parse_alike (s : string) (calls : list NetworkCall)
    (r1 r2 r3 : ReportIssueRequest) :
  Json.unmarshal_calls s [] = (calls, None) ->
  FailedNetworkCalls r1 = s ->
  FailedNetworkCalls r2 = quote_wrapped s ->
  FailedNetworkCalls r3 = Json.double_encoded s ->
  @GetNetworkCalls Json.decoder r1 = Done (calls, None) /\
  @GetNetworkCalls Json.decoder r2 = Done (calls, None) /\
  (Json.no_escapes_beyond_quotes s = true ->
   @GetNetworkCalls Json.decoder r3 = Done (calls, None)).
Proof.
  intros Hs H1 H2 H3.
  assert (Hwrapped : forall r, FailedNetworkCalls r = quote_wrapped s ->
                               @GetNetworkCalls Json.decoder r = Done (calls, None)).
  { intros r Hr.
    destruct (unmarshal_calls_quoted (escaped s +:+ DQ) []) as [e He].
    by apply (@GetNetworkCalls_quote_wrapped Json.decoder r s e [] calls). }
  split; [|split].
  - apply (@GetNetworkCalls_first_attempt Json.decoder); [|by rewrite H1].
    rewrite H1. intros ->. discriminate Hs.
  - by apply Hwrapped.
  - intros Hplain. apply Hwrapped. by rewrite H3, double_encoded_plain.
Qed.

(** The example texts are the forms of one array. *)
Lemma example_variants :
  Examples.indented_array = Json.encode_indent 0 Examples.failed_calls /\
  Examples.wrapped_indented_array = quote_wrapped Examples.indented_array /\
  Examples.double_encoded_indented_array
    = Json.double_encoded Examples.indented_array /\
  Examples.compact_array = Json.encode Examples.failed_calls /\
  Examples.double_encoded_compact_array
    = Json.double_encoded Examples.compact_array.
Proof. repeat split; vm_compute; reflexivity. Qed.

(** C6 (the code departs from it). An indented JSON array of one failed
    call parses to that call, and so does its quote-wrapped, escaped
    variant; its double-JSON-encoded variant does not: the line feeds it
    escapes survive the unquoting of the second attempt, the third attempt
    decodes the unquoted text instead of the field, and the parser
    returns no call and the error, although the double-encoded variant of
    the compact array is recovered.  On the field made of one quote
    character the unquoting slices [input[1:0]] and the parser panics. *)
Theorem double_encoded_array_is_not_recovered :
  @GetNetworkCalls Json.decoder (Examples.report Examples.indented_array)
    = Done ([Examples.failed_call], None) /\
  @GetNetworkCalls Json.decoder (Examples.report Examples.wrapped_indented_array)
    = Done ([Examples.failed_call], None) /\
  @GetNetworkCalls Json.decoder
     (Examples.report Examples.double_encoded_indented_array)
    = Done ([], Some parse_failure) /\
  @GetNetworkCalls Json.decoder
     (Examples.report Examples.double_encoded_compact_array)
    = Done ([Examples.failed_call], None) /\
  @GetNetworkCalls Json.decoder (Examples.report DQ) = Panic.
Proof. repeat split; vm_compute; reflexivity. Qed.

(** ** The properties on concrete requests *)

Section Instances.
Import Examples.
#[local] Existing Instance rt.

Lemma Done_of_is_Done {A : Type} (o : outcome A) :
  is_Done o = true -> exists a, o = Done a.
Proof. destruct o; [eauto | discriminate]. Qed.

Lemma created_of_check (s : JiraService) (req : TicketRequest) (r : run) :
  CreateTicket s req = Done r ->
  match CreateTicket s req with
  | Done r => match returned r with inl _ => true | inr _ => false end
  | Panic => false
  end = true ->
  exists resp, returned r = inl resp.
Proof. intros ->. destruct (returned r); [eauto | discriminate]. Qed.

Lemma nonempty_of_size {V : Type} (m : gmap string V) :
  (0 <? Z.of_nat (size m)) = true -> m <> ∅.
Proof. intros Hsize ->. by rewrite map_size_empty in Hsize. Qed.

Lemma Some_of_is_Some {A : Type} (o : option A) :
  bool_decide (is_Some o) = true -> exists a, o = Some a.
Proof. intros [a ->]%bool_decide_eq_true. eauto. Qed.
Lemma description_within_ceiling_witness :
  1550 <= maxJiraDescLength - essentialLength long_request /\
  exists description ov,
    describe long_request = Done (description, ov) /\
    len description <= maxJiraDescLength.
Proof.
  assert (Hroom : 1550 <= maxJiraDescLength - essentialLength long_request)
    by (apply Z.leb_le; vm_compute; reflexivity).
  split; [exact Hroom|].
  destruct (description_within_ceiling long_request) as [Hreturns Hbound].
  destruct (Done_of_is_Done (describe long_request) (Hreturns Hroom))
    as [[description ov] Hrun].
  exists description, ov. split; [exact Hrun|].
  exact (Hbound description ov Hrun).
Defined.

(** C3 as stated fails.  The network calls of [long_request] exceed their
    allocation, and the section rendered for them ends with the closing
    code and panel tokens, not with the marker.  The payload of
    [tight_request] exceeds its allocation of 92 bytes, and no section is
    rendered for it: the slice bound is negative. *)
Lemma cut_section_does_not_end_with_marker :
  (let limit := networkCallsLimit (budget_of long_request) in
   networkCalls_exceeds long_request limit = true /\
   exists section ov,
     networkCallsSection long_request limit overflow_init = Done (section, ov) /\
     HasSuffix section truncation_marker = false /\
     HasSuffix section (marker_line +:+ "{code}" +:+ LF +:+ panel_end) = true) /\
  (let limit := payloadLimit (budget_of tight_request) in
   limit = 92 /\
   payload_exceeds tight_request limit = true /\
   payloadSection tight_request limit overflow_init = Panic).
Proof.
  cbv zeta. split; [split|]; [vm_compute; reflexivity | | ].
  - destruct (Done_of_is_Done
                (networkCallsSection long_request
                   (networkCallsLimit (budget_of long_request)) overflow_init))
      as [[section ov] Hrun]; [vm_compute; reflexivity|].
    exists section, ov. split; [exact Hrun|].
    assert (Hsection :
              match networkCallsSection long_request
                      (networkCallsLimit (budget_of long_request)) overflow_init with
              | Done (section, _) =>
                  negb (HasSuffix section truncation_marker) &&
                  HasSuffix section (marker_line +:+ "{code}" +:+ LF +:+ panel_end)
              | Panic => false
              end = true) by (vm_compute; reflexivity).
    rewrite Hrun in Hsection. apply andb_prop in Hsection as [Hno Hyes].
    split; [by apply negb_true_iff | exact Hyes].
  - repeat split; vm_compute; reflexivity.
Qed.

Lemma cut_sections_keep_full_content_in_overflow_witness :
  let b := budget_of long_request in
  (exists section,
     networkCallsSection long_request (networkCallsLimit b) overflow_init =
       Done (section,
             recorded overflow_init "h3. Complete Network Calls"
               (code_json +:+ Repeat "a" 20000 +:+ code_end))) /\
  (exists section headersJSON,
     json_MarshalIndent_headers (RequestHeaders long_request) = Some headersJSON /\
     headerSection long_request (headersLimit b) overflow_init =
       Done (section,
             recorded overflow_init "h3. Complete Request Headers"
               (code_json +:+ headersJSON +:+ code_end))) /\
  (exists section,
     responseSection long_request (responseLimit b) overflow_init =
       Done (section,
             recorded overflow_init "h3. Complete Response"
               (code_json +:+ map_rendered (Response long_request) +:+ code_end))) /\
  (exists section,
     payloadSection long_request (payloadLimit b) overflow_init =
       Done (section,
             recorded overflow_init "h3. Complete Payload"
               (code_json +:+ map_rendered (Payload long_request) +:+ code_end))).
Proof.
  cbv zeta. repeat split.
  - destruct (cut_sections_keep_full_content_in_overflow long_request
                (networkCallsLimit (budget_of long_request)) overflow_init)
      as (Hnc & _).
    destruct (Hnc (Repeat "a" 20000)) as (head & _ & Hrun);
      [reflexivity | vm_compute; reflexivity | vm_compute; discriminate|].
    eexists. exact Hrun.
  - destruct (cut_sections_keep_full_content_in_overflow long_request
                (headersLimit (budget_of long_request)) overflow_init)
      as (_ & Hh & _).
    destruct (Some_of_is_Some
                (json_MarshalIndent_headers (RequestHeaders long_request)))
      as [headersJSON Hmarshal]; [vm_compute; reflexivity|].
    assert (Hlen : len <$> json_MarshalIndent_headers (RequestHeaders long_request)
                   = Some 7018) by (vm_compute; reflexivity).
    rewrite Hmarshal in Hlen. injection Hlen as Hlen.
    destruct (Hh headersJSON) as (head & _ & Hrun);
      [apply nonempty_of_size; vm_compute; reflexivity | exact Hmarshal
      | rewrite Hlen; vm_compute; reflexivity | vm_compute; discriminate |].
    eexists _, headersJSON. split; [exact Hmarshal | exact Hrun].
  - destruct (cut_sections_keep_full_content_in_overflow long_request
                (responseLimit (budget_of long_request)) overflow_init)
      as (_ & _ & Hr & _).
    destruct Hr as (head & _ & Hrun);
      [apply nonempty_of_size; vm_compute; reflexivity | vm_compute; reflexivity
      | vm_compute; discriminate |].
    eexists. exact Hrun.
  - destruct (cut_sections_keep_full_content_in_overflow long_request
                (payloadLimit (budget_of long_request)) overflow_init)
      as (_ & _ & _ & Hp).
    destruct Hp as (head & _ & Hrun);
      [vm_compute; reflexivity | vm_compute; discriminate |].
    eexists. exact Hrun.
Defined.

Lemma oversized_essential_content_panics_witness :
  maxJiraDescLength < essentialLength oversized_request /\
  remainingChars (budget_of oversized_request) < 0 /\
  payloadLimit (budget_of oversized_request) < 0 /\
  describe oversized_request = Panic /\
  CreateTicket service oversized_request = Panic.
Proof.
  assert (Hover : maxJiraDescLength < essentialLength oversized_request)
    by (vm_compute; reflexivity).
  split; [exact Hover|].
  exact (oversized_essential_content_panics service oversized_request Hover).
Defined.

Lemma final_check_moves_description_to_overflow_witness :
  exists assembled st head,
    assemble long_request overflow_init = Done (assembled, st) /\
    maxJiraDescLength < len assembled /\
    slice_to assembled (maxJiraDescLength - 100) = Some head /\
    describe long_request =
      Done (head +:+ truncation_notice,
            {| wasTruncated := true;
               truncatedContent :=
                 truncatedContent st +:+ ("h3. Full Original Description" +:+ LF)
                   +:+ assembled +:+ (LF +:+ LF) |}).
Proof.
  destruct (Done_of_is_Done (assemble long_request overflow_init))
    as [[assembled st] Hasm]; [vm_compute; reflexivity|].
  assert (Hgt : maxJiraDescLength < len assembled).
  { assert (Hex : description_exceeds long_request = true) by (vm_compute; reflexivity).
    unfold description_exceeds in Hex. rewrite Hasm in Hex.
    apply Z.gtb_lt in Hex. apply Z.gt_lt. apply Z.lt_gt. exact Hex. }
  destruct (final_check_moves_description_to_overflow long_request assembled st
              Hasm Hgt) as (head & Hhead & _ & Hrun).
  exists assembled, st, head. repeat split; assumption.
Defined.

Lemma create_ticket_fails_only_on_submission_witness :
  (exists r,
     CreateTicket service long_request = Done r /\
     returned r = inl {| TicketID := "RON-1"; Status := "created";
                         AssignedTo := "bob";
                         JiraLink := "https://jira.example.com/browse/RON-1" |}) /\
  (exists r e,
     CreateTicket failing_service login_request = Done r /\ returned r = inr e).
Proof.
  split.
  - destruct (Done_of_is_Done (CreateTicket service long_request)) as [r Hrun];
      [vm_compute; reflexivity|].
    exists r. split; [exact Hrun|].
    destruct (create_ticket_fails_only_on_submission service long_request r Hrun)
      as (issue & assignee & rest & Hassignee & _ & _ & Hreturned & _).
    change (getRandomTeamMember service) with (Done (A:=string) "bob") in Hassignee.
    injection Hassignee as <-. exact Hreturned.
  - destruct (Done_of_is_Done (CreateTicket failing_service login_request))
      as [r Hrun]; [vm_compute; reflexivity|].
    destruct (create_ticket_fails_only_on_submission failing_service login_request r
                Hrun) as (issue & assignee & rest & _ & _ & _ & Hreturned & _).
    exists r. eexists. split; [exact Hrun | exact Hreturned].
Defined.

Lemma overflow_comment_iff_truncated_witness :
  (exists r, CreateTicket service long_request = Done r /\
             existsb is_comment (calls r) = true) /\
  (exists r, CreateTicket service login_request = Done r /\
             existsb is_comment (calls r) = false).
Proof.
  split.
  - destruct (Done_of_is_Done (CreateTicket service long_request)) as [r Hrun];
      [vm_compute; reflexivity|].
    exists r. split; [exact Hrun|].
    destruct (created_of_check service long_request r Hrun) as [resp Hreturned];
      [vm_compute; reflexivity|].
    destruct (overflow_comment_iff_truncated service long_request r resp Hrun
                Hreturned) as (Hcomment & _).
    rewrite Hcomment. vm_compute. reflexivity.
  - destruct (Done_of_is_Done (CreateTicket service login_request)) as [r Hrun];
      [vm_compute; reflexivity|].
    exists r. split; [exact Hrun|].
    destruct (created_of_check service login_request r Hrun) as [resp Hreturned];
      [vm_compute; reflexivity|].
    destruct (overflow_comment_iff_truncated service login_request r resp Hrun
                Hreturned) as (Hcomment & _).
    rewrite Hcomment. vm_compute. reflexivity.
Defined.

Lemma random_team_member_from_roster_witness :
  getRandomTeamMember failing_service = Done "" /\
  exists member,
    getRandomTeamMember service = Done member /\ member ∈ supportTeam service.
Proof.
  split.
  - apply (random_team_member_from_roster failing_service). reflexivity.
  - apply (random_team_member_from_roster service). discriminate.
Defined.

Lemma empty_field_parses_to_empty_list_witness :
  FailedNetworkCalls (report "") = "" /\
  @GetNetworkCalls Json.decoder (report "") = Done ([], None).
Proof.
  split; [reflexivity|].
  apply (@empty_field_parses_to_empty_list Json.decoder (report "")). reflexivity.
Defined.

End Instances.

(** * Further properties of the description engine *)

Lemma gtb_false (a b : Z) : (a >? b) = false -> a <= b.
Proof. rewrite Z.gtb_ltb. apply Z.ltb_ge. Qed.

Lemma gtb_true (a b : Z) : (a >? b) = true -> b < a.
Proof. rewrite Z.gtb_ltb. apply Z.ltb_lt. Qed.

Lemma len_panel (title : string) : len (panel title) = len title + 99.
Proof.
  unfold panel. rewrite !len_app.
  change (len "{panel:title=") with 13.
  change (len LF) with 1.
  change (len "|collapsed=true|borderStyle=solid|borderColor=#ddd|titleBGColor=#f7f7f7|bgColor=#fff}") with 85.
  lia.
Qed.

Lemma len_head (s : string) (n : Z) :
  0 <= n <= len s -> len (String.substring 0 (Z.to_nat n) s) = n.
Proof.
  intros Hn. unfold len in *. rewrite length_substring_head; lia.
Qed.

Lemma len_marker_line : len marker_line = 19.
Proof. reflexivity. Qed.

Lemma nonempty_size {V : Type} (m : gmap string V) :
  m <> ∅ -> (0 <? Z.of_nat (size m)) = true.
Proof.
  intros Hm. apply Z.ltb_lt.
  assert (size m <> 0%nat) by (by intros ?%map_size_empty_inv). lia.
Qed.

Ltac token_lengths :=
  rewrite ?len_app, ?len_panel in *;
  change (len "Failed Network Calls") with 20 in *;
  change (len "Request Headers") with 15 in *;
  change (len "Response") with 8 in *;
  change (len "Full Payload Data") with 17 in *;
  change (len panel_end) with 9 in *;
  change (len code_json) with 12 in *;
  change (len code_end) with 8 in *;
  change (len technicalDetails) with 23 in *.

(** X1. When the fixed sections fit under the ceiling no allocation is
    negative: each lies between 0 and the remaining budget, headers and
    response get the same, the network calls get at least as much, and the
    payload gets a tenth of the budget plus at most 3 bytes. *)
Theorem allocations_within_remaining (ceiling essentialLength : Z) :
  essentialLength <= ceiling ->
  let b := allocate ceiling essentialLength in
  0 <= headersLimit b /\
  headersLimit b = responseLimit b /\
  headersLimit b <= networkCallsLimit b <= remainingChars b /\
  0 <= payloadLimit b <= remainingChars b /\
  remainingChars b `quot` 10 <= payloadLimit b <= remainingChars b `quot` 10 + 3.
Proof.
  intros Hfit. cbv zeta. unfold allocate; simpl.
  assert (Hr : 0 <= ceiling - essentialLength) by lia. revert Hr.
  generalize (ceiling - essentialLength); intros r Hr.
  Z.quot_rem_to_equations. lia.
Qed.

Section KeptAndCut.
Context `{GoRuntime}.

Lemma map_pad_bounds (m : gmap string value) : 20 <= map_pad m <= 30.
Proof. unfold map_pad. destruct (json_MarshalIndent m); lia. Qed.

Lemma mapBody_keeps (heading : string) (m : gmap string value) (room : Z)
    (st : overflow) :
  map_exceeds m room = false ->
  mapBody heading m room st = Done (map_rendered m, st).
Proof.
  unfold map_exceeds, mapBody, map_rendered, map_pad.
  destruct (json_MarshalIndent m); intros Hle%gtb_false;
    by apply clipped_keeps.
Qed.

Lemma mapBody_cuts (heading : string) (m : gmap string value) (room : Z)
    (st : overflow) :
  map_exceeds m room = true -> 0 <= room - 30 ->
  mapBody heading m room st =
    Done (String.substring 0 (Z.to_nat (room - 30)) (map_rendered m) +:+ marker_line,
          recorded st heading (code_json +:+ map_rendered m +:+ code_end)).
Proof.
  unfold map_exceeds, mapBody, map_rendered, map_pad.
  destruct (json_MarshalIndent m); intros Hgt%gtb_true Hroom;
    apply clipped_cuts; lia.
Qed.

Lemma mapBody_cut_len (heading : string) (m : gmap string value) (room : Z)
    (st : overflow) :
  map_exceeds m room = true -> 0 <= room - 30 ->
  exists body st', mapBody heading m room st = Done (body, st') /\
                   len body = room - 11.
Proof.
  intros Hex Hroom. rewrite (mapBody_cuts _ _ _ _ Hex Hroom).
  eexists _, _. split; [reflexivity|].
  unfold map_exceeds in Hex. apply gtb_true in Hex.
  pose proof (map_pad_bounds m).
  rewrite len_app, len_head, len_marker_line; lia.
Qed.

(** *** Sections that are kept *)

Lemma networkCallsSection_keeps (req : TicketRequest) (limit : Z) (st : overflow)
    (nc : string) :
  networkCalls_rendered req = Some nc ->
  networkCalls_exceeds req limit = false ->
  networkCallsSection req limit st =
    Done (panel "Failed Network Calls" +:+ (code_json +:+ nc +:+ code_end)
            +:+ panel_end, st) /\
  len (panel "Failed Network Calls" +:+ (code_json +:+ nc +:+ code_end)
         +:+ panel_end) <= limit.
Proof.
  intros Hnc Hex. unfold networkCalls_exceeds in Hex. rewrite Hnc in Hex.
  apply gtb_false in Hex. split.
  - rewrite (networkCallsSection_rendered _ _ _ _ Hnc).
    by rewrite (bind_Done_l _ _ _ _ _ (networkCallsContent_keeps _ _ _ _ _ Hex)).
  - token_lengths. lia.
Qed.

Lemma headerSection_keeps (req : TicketRequest) (limit : Z) (st : overflow)
    (headersJSON : string) :
  RequestHeaders req <> ∅ ->
  json_MarshalIndent_headers (RequestHeaders req) = Some headersJSON ->
  headers_exceeds req limit = false ->
  headerSection req limit st =
    Done (panel "Request Headers" +:+ (code_json +:+ headersJSON +:+ code_end)
            +:+ panel_end, st) /\
  len (panel "Request Headers" +:+ (code_json +:+ headersJSON +:+ code_end)
         +:+ panel_end) <= limit.
Proof.
  intros Hne Hmarshal Hex. unfold headers_exceeds in Hex.
  rewrite (nonempty_size _ Hne), Hmarshal in Hex. simpl in Hex.
  apply gtb_false in Hex. split.
  - unfold headerSection. rewrite (nonempty_size _ Hne), Hmarshal.
    by rewrite (bind_Done_l _ _ _ _ _ (clipped_keeps _ _ _ _ _ _ Hex)).
  - token_lengths. lia.
Qed.

Lemma responseSection_keeps (req : TicketRequest) (limit : Z) (st : overflow) :
  Response req <> ∅ ->
  response_exceeds req limit = false ->
  responseSection req limit st =
    Done (panel "Response"
            +:+ (code_json +:+ map_rendered (Response req) +:+ code_end)
            +:+ panel_end, st) /\
  len (panel "Response"
         +:+ (code_json +:+ map_rendered (Response req) +:+ code_end)
         +:+ panel_end) <= limit.
Proof.
  intros Hne Hex. unfold response_exceeds in Hex.
  rewrite (nonempty_size _ Hne) in Hex. simpl in Hex. split.
  - unfold responseSection. rewrite (nonempty_size _ Hne).
    by rewrite (bind_Done_l _ _ _ _ _ (mapBody_keeps _ _ _ _ Hex)).
  - unfold map_exceeds in Hex. apply gtb_false in Hex.
    pose proof (map_pad_bounds (Response req)). token_lengths. lia.
Qed.

Lemma payloadSection_keeps (req : TicketRequest) (limit : Z) (st : overflow) :
  payload_exceeds req limit = false ->
  payloadSection req limit st =
    Done (panel "Full Payload Data"
            +:+ (code_json +:+ map_rendered (Payload req) +:+ code_end)
            +:+ panel_end, st) /\
  len (panel "Full Payload Data"
         +:+ (code_json +:+ map_rendered (Payload req) +:+ code_end)
         +:+ panel_end) <= limit.
Proof.
  intros Hex. unfold payload_exceeds in Hex. split.
  - unfold payloadSection.
    by rewrite (bind_Done_l _ _ _ _ _ (mapBody_keeps _ _ _ _ Hex)).
  - unfold map_exceeds in Hex. apply gtb_false in Hex.
    pose proof (map_pad_bounds (Payload req)). token_lengths. lia.
Qed.

(** X2. A section whose content passes its test is the panel around the
    whole content, leaves the overflow variables as they are, and is no
    longer than its allocation. *)
Theorem kept_sections_hold_full_content (req : TicketRequest) (limit : Z)
    (st : overflow) :
  (forall nc,
     networkCalls_rendered req = Some nc ->
     networkCalls_exceeds req limit = false ->
     let section := panel "Failed Network Calls"
                      +:+ (code_json +:+ nc +:+ code_end) +:+ panel_end in
     networkCallsSection req limit st = Done (section, st) /\
     len section <= limit) /\
  (forall headersJSON,
     RequestHeaders req <> ∅ ->
     json_MarshalIndent_headers (RequestHeaders req) = Some headersJSON ->
     headers_exceeds req limit = false ->
     let section := panel "Request Headers"
                      +:+ (code_json +:+ headersJSON +:+ code_end) +:+ panel_end in
     headerSection req limit st = Done (section, st) /\
     len section <= limit) /\
  (Response req <> ∅ ->
   response_exceeds req limit = false ->
   let section := panel "Response"
                    +:+ (code_json +:+ map_rendered (Response req) +:+ code_end)
                    +:+ panel_end in
   responseSection req limit st = Done (section, st) /\
   len section <= limit) /\
  (payload_exceeds req limit = false ->
   let section := panel "Full Payload Data"
                    +:+ (code_json +:+ map_rendered (Payload req) +:+ code_end)
                    +:+ panel_end in
   payloadSection req limit st = Done (section, st) /\
   len section <= limit).
Proof.
  split; [|split; [|split]].
  - intros nc. apply networkCallsSection_keeps.
  - intros headersJSON. apply headerSection_keeps.
  - apply responseSection_keeps.
  - apply payloadSection_keeps.
Qed.

(** *** Sections that are cut *)

Lemma networkCallsSection_cut_len (req : TicketRequest) (limit : Z) (st : overflow)
    (nc : string) :
  networkCalls_rendered req = Some nc ->
  networkCalls_exceeds req limit = true -> 178 <= limit ->
  exists section st',
    networkCallsSection req limit st = Done (section, st') /\
    len section = limit + 36.
Proof.
  intros Hnc Hex Hlimit.
  rewrite (networkCallsSection_rendered _ _ _ _ Hnc).
  unfold networkCalls_exceeds in Hex. rewrite Hnc in Hex.
  apply gtb_true in Hex.
  assert (Hroom : 0 <= limit - len (panel "Failed Network Calls")
                       - len panel_end - 50) by (token_lengths; lia).
  rewrite (bind_Done_l _ _ _ _ _
             (networkCallsContent_cuts limit (panel "Failed Network Calls")
                panel_end nc st Hex Hroom)).
  eexists _, _. split; [reflexivity|].
  rewrite !len_app, len_head, len_marker_line.
  - token_lengths. change (len LF) with 1. change (len "{code}") with 6.
    change (len "Network calls data truncated to fit Jira limit:") with 47.
    lia.
  - token_lengths. lia.
Qed.

Lemma headerSection_cut_len (req : TicketRequest) (limit : Z) (st : overflow)
    (headersJSON : string) :
  RequestHeaders req <> ∅ ->
  json_MarshalIndent_headers (RequestHeaders req) = Some headersJSON ->
  headers_exceeds req limit = true -> 153 <= limit ->
  exists section st',
    headerSection req limit st = Done (section, st') /\
    len section = limit + 9.
Proof.
  intros Hne Hmarshal Hex Hlimit.
  unfold headers_exceeds in Hex. unfold headerSection.
  rewrite (nonempty_size _ Hne), Hmarshal in *. simpl in Hex.
  apply gtb_true in Hex.
  assert (Hroom : 0 <= limit - len (panel "Request Headers") - len panel_end - 30)
    by (token_lengths; lia).
  rewrite (bind_Done_l _ _ _ _ _
             (clipped_cuts "h3. Complete Request Headers" headersJSON
                (code_json +:+ headersJSON +:+ code_end) _ 20 st Hex
                ltac:(lia) Hroom)).
  eexists _, _. split; [reflexivity|].
  rewrite !len_app, len_head, len_marker_line; [|lia].
  token_lengths. lia.
Qed.

Lemma responseSection_cut_len (req : TicketRequest) (limit : Z) (st : overflow) :
  Response req <> ∅ ->
  response_exceeds req limit = true -> 146 <= limit ->
  exists section st',
    responseSection req limit st = Done (section, st') /\
    len section = limit + 9.
Proof.
  intros Hne Hex Hlimit.
  unfold response_exceeds in Hex. unfold responseSection.
  rewrite (nonempty_size _ Hne) in *. simpl in Hex.
  assert (Hroom : 0 <= limit - len (panel "Response") - len panel_end - 30)
    by (token_lengths; lia).
  destruct (mapBody_cut_len "h3. Complete Response" (Response req) _ st Hex Hroom)
    as (body & st' & Hrun & Hlen).
  rewrite (bind_Done_l _ _ _ _ _ Hrun).
  eexists _, _. split; [reflexivity|].
  rewrite !len_app, Hlen. token_lengths. lia.
Qed.

Lemma payloadSection_cut_len (req : TicketRequest) (limit : Z) (st : overflow) :
  payload_exceeds req limit = true -> 155 <= limit ->
  exists section st',
    payloadSection req limit st = Done (section, st') /\
    len section = limit + 9.
Proof.
  intros Hex Hlimit.
  unfold payload_exceeds in Hex. unfold payloadSection.
  assert (Hroom : 0 <= limit - len (panel "Full Payload Data") - len panel_end - 30)
    by (token_lengths; lia).
  destruct (mapBody_cut_len "h3. Complete Payload" (Payload req) _ st Hex Hroom)
    as (body & st' & Hrun & Hlen).
  rewrite (bind_Done_l _ _ _ _ _ Hrun).
  eexists _, _. split; [reflexivity|].
  rewrite !len_app, Hlen. token_lengths. lia.
Qed.

(** X3. A section that is cut is longer than its allocation: the network
    calls by 36 bytes, the headers, the response and the payload by 9
    bytes each, whatever the content and the allocation. *)
Theorem cut_sections_overshoot_their_allocation (req : TicketRequest) (limit : Z)
    (st : overflow) :
  (forall nc,
     networkCalls_rendered req = Some nc ->
     networkCalls_exceeds req limit = true -> 178 <= limit ->
     exists section st',
       networkCallsSection req limit st = Done (section, st') /\
       len section = limit + 36) /\
  (forall headersJSON,
     RequestHeaders req <> ∅ ->
     json_MarshalIndent_headers (RequestHeaders req) = Some headersJSON ->
     headers_exceeds req limit = true -> 153 <= limit ->
     exists section st',
       headerSection req limit st = Done (section, st') /\
       len section = limit + 9) /\
  (Response req <> ∅ ->
   response_exceeds req limit = true -> 146 <= limit ->
   exists section st',
     responseSection req limit st = Done (section, st') /\
     len section = limit + 9) /\
  (payload_exceeds req limit = true -> 155 <= limit ->
   exists section st',
     payloadSection req limit st = Done (section, st') /\
     len section = limit + 9).
Proof.
  split; [|split; [|split]].
  - intros nc. apply networkCallsSection_cut_len.
  - intros headersJSON. apply headerSection_cut_len.
  - apply responseSection_cut_len.
  - apply payloadSection_cut_len.
Qed.

Lemma budget_thresholds (req : TicketRequest) :
  1550 <= maxJiraDescLength - essentialLength req ->
  178 <= networkCallsLimit (budget_of req) /\
  153 <= headersLimit (budget_of req) /\
  146 <= responseLimit (budget_of req) /\
  155 <= payloadLimit (budget_of req) /\
  networkCallsLimit (budget_of req) + headersLimit (budget_of req)
    + responseLimit (budget_of req) + payloadLimit (budget_of req)
    = maxJiraDescLength - essentialLength req.
Proof.
  unfold budget_of, allocate; simpl.
  generalize (maxJiraDescLength - essentialLength req); intros r Hr.
  Z.quot_rem_to_equations. lia.
Qed.

Lemma assemble_unfold (req : TicketRequest) (st : overflow) :
  assemble req st =
    (networkCallsSection ← networkCallsSection req (networkCallsLimit (budget_of req));
     headerSection ← headerSection req (headersLimit (budget_of req));
     responseSection ← responseSection req (responseLimit (budget_of req));
     payloadSection ← payloadSection req (payloadLimit (budget_of req));
     mret ((((((fixedSections req +:+ timestamp) +:+ networkCallsSection)
                +:+ technicalDetails) +:+ headerSection) +:+ responseSection)
           +:+ payloadSection)) st.
Proof. reflexivity. Qed.

(** X4. When all four variable sections are cut, the assembled
    description is 32086 bytes long whatever the request holds, 86 bytes
    over the ceiling; the final check then always fires, and the
    description submitted is 31989 bytes long. *)
Theorem fully_cut_description_has_fixed_length (req : TicketRequest)
    (nc headersJSON : string) :
  1550 <= maxJiraDescLength - essentialLength req ->
  networkCalls_rendered req = Some nc ->
  networkCalls_exceeds req (networkCallsLimit (budget_of req)) = true ->
  RequestHeaders req <> ∅ ->
  json_MarshalIndent_headers (RequestHeaders req) = Some headersJSON ->
  headers_exceeds req (headersLimit (budget_of req)) = true ->
  Response req <> ∅ ->
  response_exceeds req (responseLimit (budget_of req)) = true ->
  payload_exceeds req (payloadLimit (budget_of req)) = true ->
  exists assembled st description ov,
    assemble req overflow_init = Done (assembled, st) /\
    len assembled = maxJiraDescLength + 86 /\
    describe req = Done (description, ov) /\
    len description = maxJiraDescLength - 11.
Proof.
  intros Hroom Hnc Hncx Hh Hmarshal Hhx Hr Hrx Hpx.
  destruct (budget_thresholds req Hroom) as (Hn1 & Hn2 & Hn3 & Hn4 & Hsum).
  destruct (networkCallsSection_cut_len req _ overflow_init nc Hnc Hncx Hn1)
    as (s1 & st1 & Hrun1 & Hlen1).
  destruct (headerSection_cut_len req _ st1 headersJSON Hh Hmarshal Hhx Hn2)
    as (s2 & st2 & Hrun2 & Hlen2).
  destruct (responseSection_cut_len req _ st2 Hr Hrx Hn3)
    as (s3 & st3 & Hrun3 & Hlen3).
  destruct (payloadSection_cut_len req _ st3 Hpx Hn4)
    as (s4 & st4 & Hrun4 & Hlen4).
  assert (Hasm : assemble req overflow_init =
                 Done ((((((fixedSections req +:+ timestamp) +:+ s1)
                            +:+ technicalDetails) +:+ s2) +:+ s3) +:+ s4, st4)).
  { rewrite assemble_unfold.
    rewrite (bind_Done_l _ _ _ _ _ Hrun1), (bind_Done_l _ _ _ _ _ Hrun2),
      (bind_Done_l _ _ _ _ _ Hrun3), (bind_Done_l _ _ _ _ _ Hrun4).
    reflexivity. }
  assert (Hlen : len ((((((fixedSections req +:+ timestamp) +:+ s1)
                            +:+ technicalDetails) +:+ s2) +:+ s3) +:+ s4)
                 = maxJiraDescLength + 86).
  { rewrite !len_app, Hlen1, Hlen2, Hlen3, Hlen4.
    change (len technicalDetails) with 23.
    unfold essentialLength in Hsum. lia. }
  eexists _, _, _, _. split; [exact Hasm|]. split; [exact Hlen|].
  unfold describe. rewrite (bind_Done_l _ _ _ _ _ Hasm).
  rewrite finalCheck_fires by lia. split; [reflexivity|].
  rewrite len_app, len_head, len_truncation_notice by (unfold maxJiraDescLength in *; lia).
  unfold maxJiraDescLength. lia.
Qed.

(** *** Requests that are not cut *)

Lemma headersFallback_quiet (room : Z) (hs : list (string * string))
    (headersStr fullHeadersStr : string) (st : overflow) :
  fallback_exceeds room hs headersStr = false ->
  exists text, headersFallback room hs headersStr fullHeadersStr st = Done (text, st).
Proof.
  revert headersStr fullHeadersStr.
  induction hs as [|[k v] rest IH]; intros headersStr fullHeadersStr Hex; simpl in *.
  - by eexists.
  - apply orb_false_elim in Hex as [Hhere Hrest]. rewrite Hhere.
    by apply IH.
Qed.

Lemma networkCallsSection_quiet (req : TicketRequest) (limit : Z) (st : overflow) :
  networkCalls_exceeds req limit = false ->
  exists text, networkCallsSection req limit st = Done (text, st).
Proof.
  intros Hex. destruct (networkCalls_rendered req) as [nc|] eqn:Hnc.
  - destruct (networkCallsSection_keeps req limit st nc Hnc Hex) as [Hrun _].
    eexists. exact Hrun.
  - unfold networkCalls_rendered in Hnc. unfold networkCallsSection.
    destruct (Payload req !! "failedNetworkCalls") as [[]|]; try discriminate;
      try (by eexists); rewrite Hnc; by eexists.
Qed.

Lemma headerSection_quiet (req : TicketRequest) (limit : Z) (st : overflow) :
  headers_exceeds req limit = false ->
  exists text, headerSection req limit st = Done (text, st).
Proof.
  unfold headers_exceeds, headerSection.
  destruct (0 <? Z.of_nat (size (RequestHeaders req))); simpl; [|by eexists].
  destruct (json_MarshalIndent_headers (RequestHeaders req)) as [headersJSON|].
  - intros Hex%gtb_false.
    rewrite (bind_Done_l _ _ _ _ _ (clipped_keeps _ _ _ _ _ _ Hex)). by eexists.
  - intros Hex.
    destruct (headersFallback_quiet _ _ "" "" st Hex) as [text Hrun].
    rewrite (bind_Done_l _ _ _ _ _ Hrun). by eexists.
Qed.

Lemma responseSection_quiet (req : TicketRequest) (limit : Z) (st : overflow) :
  response_exceeds req limit = false ->
  exists text, responseSection req limit st = Done (text, st).
Proof.
  unfold response_exceeds, responseSection.
  destruct (0 <? Z.of_nat (size (Response req))); simpl; [|by eexists].
  intros Hex. rewrite (bind_Done_l _ _ _ _ _ (mapBody_keeps _ _ _ _ Hex)).
  by eexists.
Qed.

Lemma assemble_quiet (req : TicketRequest) :
  truncates req = false ->
  exists description,
    assemble req overflow_init = Done (description, overflow_init) /\
    len description <= maxJiraDescLength.
Proof.
  unfold truncates.
  intros [[[[Hn Hh]%orb_false_elim Hr]%orb_false_elim Hp]%orb_false_elim
            Hd]%orb_false_elim.
  destruct (networkCallsSection_quiet req _ overflow_init Hn) as [s1 Hrun1].
  destruct (headerSection_quiet req _ overflow_init Hh) as [s2 Hrun2].
  destruct (responseSection_quiet req _ overflow_init Hr) as [s3 Hrun3].
  destruct (payloadSection_keeps req _ overflow_init Hp) as [Hrun4 _].
  assert (Hasm : assemble req overflow_init =
                 Done ((((((fixedSections req +:+ timestamp) +:+ s1)
                            +:+ technicalDetails) +:+ s2) +:+ s3)
                       +:+ (panel "Full Payload Data"
                              +:+ (code_json +:+ map_rendered (Payload req)
                                             +:+ code_end)
                              +:+ panel_end), overflow_init)).
  { rewrite assemble_unfold.
    rewrite (bind_Done_l _ _ _ _ _ Hrun1), (bind_Done_l _ _ _ _ _ Hrun2),
      (bind_Done_l _ _ _ _ _ Hrun3), (bind_Done_l _ _ _ _ _ Hrun4).
    reflexivity. }
  unfold description_exceeds in Hd. rewrite Hasm in Hd. apply gtb_false in Hd.
  eexists. split; [exact Hasm | exact Hd].
Qed.

(** X5. A request none of whose tests fires is described without a
    panic, the description is the assembled text unchanged and within the
    ceiling, and the overflow variables are as initialised: nothing is
    flagged and nothing is written to the overflow document. *)
Theorem untruncated_request_is_described_whole (req : TicketRequest) :
  truncates req = false ->
  exists description,
    assemble req overflow_init = Done (description, overflow_init) /\
    describe req = Done (description, overflow_init) /\
    len description <= maxJiraDescLength.
Proof.
  intros (description & Hasm & Hlen)%assemble_quiet.
  exists description. split; [exact Hasm|]. split; [|exact Hlen].
  unfold describe. rewrite (bind_Done_l _ _ _ _ _ Hasm).
  by apply finalCheck_within.
Qed.

End KeptAndCut.

(** * Further properties of the orchestration *)




Lemma overflow_comment_body (truncatedContent : string) :
  exists body,
    commentBody truncatedContent = Done body /\ len body <= maxJiraDescLength.
Proof.
  unfold commentBody.
  destruct (Z.gtb_spec (len truncatedContent) maxJiraDescLength) as [Hgt|Hle].
  - rewrite slice_to_Some by (unfold maxJiraDescLength in *; lia).
    eexists. split; [reflexivity|].
    rewrite len_app, len_head by (unfold maxJiraDescLength in *; lia).
    change (len comment_notice) with 49. lia.
  - eexists. by split.
Qed.

(** X7. The body of the overflow comment is always produced and is never
    longer than the ceiling: a document within the ceiling is posted
    whole, a longer one as its first 31900 bytes and a 49-byte notice. *)
Theorem overflow_comment_within_ceiling (truncatedContent : string) :
  exists body,
    commentBody truncatedContent = Done body /\
    len body <= maxJiraDescLength /\
    (len truncatedContent <= maxJiraDescLength -> body = truncatedContent) /\
    (maxJiraDescLength < len truncatedContent ->
     body = String.substring 0 (Z.to_nat (maxJiraDescLength - 100)) truncatedContent
              +:+ comment_notice /\
     len body = maxJiraDescLength - 51).
Proof.
  unfold commentBody.
  destruct (Z.gtb_spec (len truncatedContent) maxJiraDescLength) as [Hgt|Hle].
  - rewrite slice_to_Some by (unfold maxJiraDescLength in *; lia).
    eexists. split; [reflexivity|].
    assert (Hlen : len (String.substring 0 (Z.to_nat (maxJiraDescLength - 100))
                          truncatedContent +:+ comment_notice)
                   = maxJiraDescLength - 51).
    { rewrite len_app, len_head by (unfold maxJiraDescLength in *; lia).
      change (len comment_notice) with 49. lia. }
    split; [lia|]. split; [lia|]. intros _. by split.
  - eexists. split; [reflexivity|]. split; [exact Hle|]. split; [done|lia].
Qed.

Section MoreOrchestration.
Context `{GoRuntime}.

Lemma describe_bound (req : TicketRequest) (description : string) (ov : overflow) :
  describe req = Done (description, ov) -> len description <= maxJiraDescLength.
Proof.
  unfold describe. intros (pre & st & _ & Hfinal)%bind_Done.
  destruct (Z.le_gt_cases (len pre) maxJiraDescLength) as [Hle|Hgt].
  - rewrite finalCheck_within in Hfinal by exact Hle. by injection Hfinal as <- _.
  - rewrite finalCheck_fires in Hfinal by exact Hgt. injection Hfinal as <- _.
    rewrite len_app, len_truncation_notice, len_head
      by (unfold maxJiraDescLength in *; lia).
    unfold maxJiraDescLength. lia.
Qed.

Lemma getRandomTeamMember_total (s : JiraService) :
  exists assignee,
    getRandomTeamMember s = Done assignee /\
    (supportTeam s = [] /\ assignee = "" \/ assignee ∈ supportTeam s).
Proof.
  unfold getRandomTeamMember. case_bool_decide as Hlen.
  - apply nil_length_inv in Hlen. eexists. split; [reflexivity|by left].
  - destruct (at_index_Some (supportTeam s)
                (Intn (rand s) (Z.of_nat (length (supportTeam s)))))
      as (member & -> & Hin).
    + apply Intn_range. destruct (supportTeam s); simpl in *; [done|lia].
    + eexists. split; [reflexivity|by right].
Qed.

Lemma CreateTicket_of_describe (s : JiraService) (req : TicketRequest)
    (description : string) (ov : overflow) :
  describe req = Done (description, ov) ->
  exists r, CreateTicket s req = Done r.
Proof.
  intros Hdesc. unfold CreateTicket. rewrite Hdesc.
  destruct (getRandomTeamMember_total s) as (assignee & -> & _). cbv zeta.
  destruct (Create (client s) _) as [key|[resp e]]; [|by eexists].
  unfold attachOverflow. destruct (wasTruncated ov); [|by eexists].
  destruct (commentBody_total (truncatedContent ov)) as [body ->]. by eexists.
Qed.

(** X8. [CreateTicket] returns, with a ticket or with the submission's
    error, for every request whose fixed sections leave 1550 bytes or
    more, and for every request none of whose tests fires; it panics,
    before anything is submitted, for every request whose fixed sections
    leave less than 1420 bytes. *)
Theorem create_ticket_returns_or_panics (s : JiraService) (req : TicketRequest) :
  (1550 <= maxJiraDescLength - essentialLength req ->
   exists r, CreateTicket s req = Done r) /\
  (truncates req = false -> exists r, CreateTicket s req = Done r) /\
  (maxJiraDescLength - essentialLength req < 1420 -> CreateTicket s req = Panic).
Proof.
  split; [|split].
  - intros Hroom.
    destruct (describe req) as [[description ov]|] eqn:Hdesc.
    + by eapply CreateTicket_of_describe.
    + pose proof (describe_returns req Hroom) as Hdone.
      rewrite Hdesc in Hdone. discriminate.
  - intros Hquiet.
    destruct (assemble_quiet req Hquiet) as (description & Hasm & Hlen).
    apply (CreateTicket_of_describe s req description overflow_init).
    unfold describe. rewrite (bind_Done_l _ _ _ _ _ Hasm).
    by apply finalCheck_within.
  - intros Htight. unfold CreateTicket. by rewrite describe_panics.
Qed.

(** X9. The issue [CreateTicket] submits is under the service's project,
    has a description of at most 32000 bytes and a non-empty type, and is
    assigned to a member of the roster, or to nobody when the roster is
    empty; it is the first call made. *)
Theorem submitted_issue_is_well_formed (s : JiraService) (req : TicketRequest)
    (r : run) :
  CreateTicket s req = Done r ->
  exists issue rest,
    calls r = CallCreate issue (Create (client s) issue) :: rest /\
    ProjectKey issue = projectKey s /\
    len (Description issue) <= maxJiraDescLength /\
    TypeID issue <> "" /\
    (supportTeam s = [] /\ AssigneeAccountID issue = "" \/
     AssigneeAccountID issue ∈ supportTeam s) /\
    (forall c, c ∈ rest -> forall issue' result, c <> CallCreate issue' result).
Proof.
  intros (description & ov & assignee & Hdesc & Hassignee & Hrun)%CreateTicket_Done.
  cbv zeta in Hrun.
  set (issue := {| ProjectKey := projectKey s; Summary := _; Description := description;
                   TypeID := issueTypeID s; AssigneeAccountID := assignee |}) in *.
  assert (Hwell : ProjectKey issue = projectKey s /\
                  len (Description issue) <= maxJiraDescLength /\
                  TypeID issue <> "" /\
                  (supportTeam s = [] /\ AssigneeAccountID issue = "" \/
                   AssigneeAccountID issue ∈ supportTeam s)).
  { split; [reflexivity|]. split; [by eapply describe_bound|]. split.
    - simpl. unfold issueTypeID. by case_bool_decide.
    - simpl. destruct (getRandomTeamMember_total s) as (a & Ha & Hroster).
      rewrite Ha in Hassignee. by injection Hassignee as <-. }
  destruct Hwell as (Hw1 & Hw2 & Hw3 & Hw4).
  exists issue.
  destruct (Create (client s) issue) as [key|[resp e]] eqn:Hcreate.
  - destruct Hrun as (commented & Hattach & ->).
    exists (commented ++ persist s req key assignee). simpl.
    split; [reflexivity|]. repeat (split; [assumption|]).
    intros c [Hc|Hc]%elem_of_app issue' result ->.
    + unfold attachOverflow in Hattach. destruct (wasTruncated ov).
      * destruct (commentBody (truncatedContent ov)); [|discriminate].
        injection Hattach as <-. by apply list_elem_of_singleton in Hc.
      * injection Hattach as <-. by apply elem_of_nil in Hc.
    + unfold persist in Hc. destruct (mongoService s).
      * by apply list_elem_of_singleton in Hc.
      * by apply elem_of_nil in Hc.
  - subst r. exists []. simpl. split; [reflexivity|].
    repeat (split; [assumption|]). by intros c ?%elem_of_nil.
Qed.

(** X10. After a ticket is created the calls made are the submission,
    then at most one comment on that ticket with a body of at most 32000
    bytes, then one save when a store is configured and none otherwise.
    The record saved carries the ticket id, status, assignee and link
    returned to the caller, and the failure of the comment or of the save
    is not in what is returned. *)
Theorem created_ticket_is_commented_then_saved (s : JiraService)
    (req : TicketRequest) (r : run) (resp : TicketResponse) :
  CreateTicket s req = Done r ->
  returned r = inl resp ->
  exists issue comments saves,
    calls r = CallCreate issue (inl (TicketID resp)) :: comments ++ saves /\
    (comments = [] \/
     exists body,
       comments = [CallAddComment (TicketID resp) body
                     (AddComment (client s) (TicketID resp) body)] /\
       len body <= maxJiraDescLength) /\
    match mongoService s with
    | None => saves = []
    | Some SaveTicket =>
        exists ticket,
          saves = [CallSaveTicket ticket (SaveTicket ticket)] /\
          ft_TicketID ticket = TicketID resp /\
          ft_Status ticket = Status resp /\
          ft_AssignedTo ticket = AssignedTo resp /\
          ft_JiraLink ticket = JiraLink resp /\
          ft_CreatedAt ticket = time_Now s
    end.
Proof.
  intros (description & ov & assignee & Hdesc & Hassignee & Hrun)%CreateTicket_Done
         Hret.
  cbv zeta in Hrun.
  destruct (Create (client s) _) as [key|[resp' e]] eqn:Hcreate.
  2: { subst r. discriminate. }
  destruct Hrun as (commented & Hattach & ->). injection Hret as <-. simpl.
  eexists _, commented, (persist s req key assignee). split; [reflexivity|]. split.
  - unfold attachOverflow in Hattach. destruct (wasTruncated ov).
    + destruct (overflow_comment_body (truncatedContent ov)) as (body & Hbody & Hlen).
      rewrite Hbody in Hattach. injection Hattach as <-. right. by exists body.
    + injection Hattach as <-. by left.
  - unfold persist. destruct (mongoService s) as [SaveTicket|]; [|reflexivity].
    eexists. split; [reflexivity|]. by repeat split.
Qed.

End MoreOrchestration.

(** * Further properties of the network-call field parser *)

Lemma rev_wrapped (c : Ascii.ascii) (x : string) :
  String.rev (String c (x +:+ String c "")) =
    String c (String.rev_app x (String c "")).
Proof.
  unfold String.rev.
  change (String.rev_app (String c (x +:+ String c "")) "")
    with (String.rev_app (x +:+ String c "") (String c "")).
  rewrite rev_app_app. reflexivity.
Qed.

Lemma TrimSpace_single_quoted (x : string) :
  TrimSpace (String sq (x +:+ SQ)) = String sq (x +:+ SQ).
Proof.
  unfold TrimSpace.
  change (String.length (String sq (x +:+ SQ)))
    with (S (String.length (x +:+ SQ))).
  change (trim_left (S (String.length (x +:+ SQ))) (String sq (x +:+ SQ)))
    with (String sq (x +:+ SQ)).
  cbv zeta. unfold SQ. rewrite rev_wrapped.
  change (String.length (String sq (x +:+ String sq "")))
    with (S (String.length (x +:+ String sq ""))).
  change (trim_right_rev (S (String.length (x +:+ String sq "")))
            (String sq (String.rev_app x (String sq ""))))
    with (String sq (String.rev_app x (String sq ""))).
  rewrite <- rev_wrapped. apply rev_involutive.
Qed.

Lemma unquote_single_quoted (x : string) :
  unquote (String sq (x +:+ SQ)) = Done x.
Proof.
  unfold unquote.
  assert (Hsuffix : HasSuffix (String sq (x +:+ SQ)) SQ = true).
  { unfold HasSuffix, SQ. rewrite rev_wrapped.
    change (String.prefix SQ (SQ +:+ String.rev_app x SQ) = true).
    apply prefix_app. }
  change (HasPrefix (String sq (x +:+ SQ)) DQ) with false.
  change (HasPrefix (String sq (x +:+ SQ)) SQ)
    with (String.prefix SQ (SQ +:+ (x +:+ SQ))).
  rewrite prefix_app, Hsuffix. simpl.
  assert (Hlen : len (String sq (x +:+ SQ)) = len x + 2).
  { change (String sq (x +:+ SQ)) with (SQ +:+ (x +:+ SQ)).
    rewrite !len_app. change (len SQ) with 1. lia. }
  unfold slice. rewrite Hlen.
  destruct (Z.leb_spec 0 1); [|lia].
  destruct (Z.leb_spec 1 (len x + 2 - 1)); [|pose proof (len_nonneg x); lia].
  destruct (Z.leb_spec (len x + 2 - 1) (len x + 2)); [|lia]. simpl.
  replace (Z.to_nat (len x + 2 - 1 - 1)) with (String.length x)
    by (unfold len; lia).
  change (Z.to_nat 1) with 1%nat.
  change (String.substring 1 (String.length x) (String sq (x +:+ SQ)))
    with (String.substring 0 (String.length x) (x +:+ SQ)).
  by rewrite substring_head_app.
Qed.

Lemma prefix_single (a c : Ascii.ascii) :
  String.prefix (String a "") (String c "") = bool_decide (a = c).
Proof.
  cbn [String.prefix]. destruct (Ascii.ascii_dec a c) as [Heq|Hne].
  - by rewrite (bool_decide_eq_true_2 _ Heq).
  - by rewrite (bool_decide_eq_false_2 _ Hne).
Qed.

Lemma unquote_panics_iff (input : string) :
  unquote input = Panic <-> input = DQ \/ input = SQ.
Proof.
  destruct input as [|c [|d rest]].
  - split; [discriminate|]. intros [?|?]; discriminate.
  - unfold unquote, HasPrefix, HasSuffix.
    change (String.rev (String c "")) with (String c "").
    change (String.rev DQ) with DQ. change (String.rev SQ) with SQ.
    unfold DQ, SQ. rewrite !prefix_single.
    change (slice (String c "") 1 (len (String c "") - 1)) with (@None string).
    case_bool_decide as Hdq; [subst c; split; [by left|reflexivity]|].
    case_bool_decide as Hsq; [subst c; split; [by right|reflexivity]|].
    cbn [andb orb]. split; [discriminate|]. intros [[=]|[=]]; congruence.
  - split; [|intros [?|?]; discriminate].
    unfold unquote.
    assert (Hlen : len (String c (String d rest)) = len rest + 2)
      by (unfold len; cbn [String.length]; lia).
    unfold slice. rewrite Hlen. pose proof (len_nonneg rest).
    destruct (Z.leb_spec 0 1); [|lia].
    destruct (Z.leb_spec 1 (len rest + 2 - 1)); [|lia].
    destruct (Z.leb_spec (len rest + 2 - 1) (len rest + 2)); [|lia].
    cbn [andb]. by destruct (_ || _).
Qed.

Lemma clean_panics_iff (raw : string) :
  clean raw = Panic <-> TrimSpace raw = DQ \/ TrimSpace raw = SQ.
Proof.
  rewrite <- unquote_panics_iff. unfold clean.
  destruct (unquote (TrimSpace raw)); [split; discriminate | done].
Qed.

Section MoreParser.
Context `{JsonDecoder}.

(** X11. The parser panics on exactly the fields that the decoder
    rejects and that are, once the surrounding white space is trimmed, a
    single double quote or a single single quote: unquoting then slices
    [input[1:0]].  On every other field it returns. *)
Theorem parser_panics_exactly_on_a_lone_quote (r : ReportIssueRequest) :
  GetNetworkCalls r = Panic <->
  (exists partial e,
     Unmarshal_calls (FailedNetworkCalls r) [] = (partial, Some e)) /\
  (TrimSpace (FailedNetworkCalls r) = DQ \/ TrimSpace (FailedNetworkCalls r) = SQ).
Proof.
  rewrite <- clean_panics_iff. unfold GetNetworkCalls.
  case_bool_decide as Hraw.
  - rewrite Hraw. split; [discriminate|]. intros [_ Hclean]. discriminate Hclean.
  - destruct (Unmarshal_calls (FailedNetworkCalls r) []) as [partial [e|]].
    + destruct (clean (FailedNetworkCalls r)) as [input|].
      * split; [|intros [_ ?]; discriminate].
        destruct (Unmarshal_calls input partial) as [calls [e2|]]; [|discriminate].
        destruct (Unmarshal_string input) as [decoded|]; [|discriminate].
        by destruct (Unmarshal_calls decoded calls) as [calls' [e3|]].
      * split; [|done]. intros _. split; [eauto|done].
    + split; [discriminate|]. by intros [(partial' & e & [=]) _].
Qed.

(** X12. The only error the parser returns is the fixed text "could not
    parse network calls after multiple attempts": the decoder's own
    errors are never passed on.  It is returned exactly for the non-empty
    fields on which no attempt succeeds. *)
Theorem parser_error_is_the_fixed_text (r : ReportIssueRequest) :
  (forall calls e,
     GetNetworkCalls r = Done (calls, Some e) -> e = parse_failure) /\
  ((exists calls e, GetNetworkCalls r = Done (calls, Some e)) <->
   FailedNetworkCalls r <> "" /\ attempts_fail (FailedNetworkCalls r) = true).
Proof.
  assert (Hfail : forall calls e,
             GetNetworkCalls r = Done (calls, Some e) ->
             e = parse_failure /\ FailedNetworkCalls r <> "" /\
             attempts_fail (FailedNetworkCalls r) = true).
  { intros calls e. unfold GetNetworkCalls, attempts_fail.
    case_bool_decide as Hraw; [discriminate|].
    destruct (Unmarshal_calls (FailedNetworkCalls r) []) as [partial [e1|]];
      [|discriminate].
    destruct (clean (FailedNetworkCalls r)) as [input|]; [|discriminate].
    destruct (Unmarshal_calls input partial) as [calls2 [e2|]]; [|discriminate].
    destruct (Unmarshal_string input) as [decoded|].
    - destruct (Unmarshal_calls decoded calls2) as [calls3 [e3|]]; [|discriminate].
      by intros [= _ <-].
    - by intros [= _ <-]. }
  split.
  - intros calls e Hrun. by destruct (Hfail calls e Hrun).
  - split.
    + intros (calls & e & Hrun). by destruct (Hfail calls e Hrun) as (_ & ? & ?).
    + intros [Hraw Hattempts].
      destruct (GetNetworkCalls_soft_failure r Hraw Hattempts) as [calls Hrun].
      eauto.
Qed.

(** X13. A text sent between single quotes, with its double quotes and
    backslashes escaped, is unwrapped like one sent between double
    quotes: the second attempt decodes the text itself, and the parser
    returns what the decoder makes of it. *)
Theorem single_quoted_field_is_unwrapped (r : ReportIssueRequest) (s e : string)
    (partial calls : list NetworkCall) :
  FailedNetworkCalls r = SQ +:+ escaped s +:+ SQ ->
  Unmarshal_calls (FailedNetworkCalls r) [] = (partial, Some e) ->
  Unmarshal_calls s partial = (calls, None) ->
  clean (FailedNetworkCalls r) = Done s /\
  GetNetworkCalls r = Done (calls, None).
Proof.
  intros Hraw Hfirst Hsecond.
  assert (Hclean : clean (FailedNetworkCalls r) = Done s).
  { rewrite Hraw. unfold clean.
    change (SQ +:+ escaped s +:+ SQ) with (String sq (escaped s +:+ SQ)).
    rewrite TrimSpace_single_quoted, unquote_single_quoted.
    by rewrite unescape_escaped. }
  split; [exact Hclean|].
  apply (GetNetworkCalls_second_attempt r partial calls e s); try done.
  rewrite Hraw. discriminate.
Qed.

End MoreParser.

(** * Properties of the log slices, the store's queries and the handlers *)

Lemma prefix_substring_head (n : nat) (s : string) :
  String.prefix (String.substring 0 n s) s = true.
Proof.
  revert n. induction s as [|c s IH]; intros [|n]; cbn [String.substring String.prefix];
    try reflexivity.
  destruct (Ascii.ascii_dec c c) as [_|Hne]; [apply IH | by destruct Hne].
Qed.

(** X14. The slices taken for the log never panic, whatever the text:
    the sample of the network-call field is the field's first 100 bytes,
    or the whole field when it is shorter, a logged payload value is at
    most 103 bytes long and the logged description at most 503. *)
Theorem log_slices_never_panic (input : string) :
  (exists head,
     Logging.sample input = Some head /\
     len head = Logging.min (len input) 100 /\
     len head <= 100 /\
     HasPrefix input head = true /\
     (len input <= 100 -> head = input)) /\
  (exists text,
     Logging.logged input = Some text /\
     len text <= 103 /\
     (len input <= 100 -> text = input)) /\
  (exists text,
     Logging.loggedDescription input = Some text /\
     len text <= 503 /\
     (len input <= 500 -> text = input)).
Proof.
  pose proof (len_nonneg input) as Hlen. split; [|split].
  - unfold Logging.sample, Logging.min.
    destruct (Z.ltb_spec (len input) 100) as [Hlt|Hge].
    + rewrite slice_to_Some by lia. eexists. split; [reflexivity|].
      rewrite len_head by lia. split; [reflexivity|]. split; [lia|].
      split; [apply prefix_substring_head|]. intros _.
      unfold len. rewrite Nat2Z.id. apply substring_all.
    + rewrite slice_to_Some by lia. eexists. split; [reflexivity|].
      rewrite len_head by lia. split; [reflexivity|]. split; [lia|].
      split; [apply prefix_substring_head|]. intros Hle.
      replace (Z.to_nat 100) with (String.length input) by (unfold len in *; lia).
      apply substring_all.
  - unfold Logging.logged.
    destruct (Z.gtb_spec (len input) 100) as [Hgt|Hle].
    + rewrite slice_to_Some by lia. eexists. split; [reflexivity|].
      rewrite len_app, len_head by lia. change (len "...") with 3.
      split; lia.
    + eexists. split; [reflexivity|]. split; [lia|done].
  - unfold Logging.loggedDescription. cbv zeta.
    destruct (Z.gtb_spec (len input) 500) as [Hgt|Hle].
    + rewrite slice_to_Some by lia. eexists. split; [reflexivity|].
      rewrite len_app, len_head by lia. change (len "...") with 3.
      split; lia.
    + eexists. split; [reflexivity|]. split; [lia|done].
Qed.

Import Store Handlers.

Lemma Contains_ticket_not_found (jiraID : string) :
  Contains ("ticket not found: " +:+ jiraID) "not found" = true.
Proof. reflexivity. Qed.

Lemma Contains_failed_to_get_ticket (err : string) :
  Contains ("failed to get ticket: " +:+ err) "not found" = Contains err "not found".
Proof. reflexivity. Qed.

(** X15. A query for a ticket the store does not hold is answered 404
    with the id in the details, and a ticket it holds with 200 and the
    ticket.  Any other failure of the store is answered 404 "Ticket not
    found" as well when its text contains "not found", and 500 with the
    text otherwise.  An empty id is answered 400 and a missing store 500
    before the store is asked. *)
Theorem ticket_query_replies (mongo : option Collection) (s : Collection)
    (id : string) :
  GetTicketByIDGin mongo "" =
    {| code := StatusBadRequest;
       obj := ErrorResponse "Invalid request" "Ticket ID is required" |} /\
  (id <> "" ->
   GetTicketByIDGin None id =
     {| code := StatusInternalServerError;
        obj := ErrorResponse "Database not available"
                 "MongoDB service is not configured" |} /\
   (FindOne s id = ErrNoDocuments ->
    GetTicketByIDGin (Some s) id =
      {| code := StatusNotFound;
         obj := ErrorResponse "Ticket not found"
                  ("Ticket with ID " +:+ id +:+ " not found") |}) /\
   (forall ticket,
      FindOne s id = Decoded ticket ->
      GetTicketByIDGin (Some s) id = {| code := StatusOK; obj := Ticket ticket |}) /\
   (forall err,
      FindOne s id = FindOneError err ->
      GetTicketByIDGin (Some s) id =
        if Contains err "not found"
        then {| code := StatusNotFound;
                obj := ErrorResponse "Ticket not found"
                         ("Ticket with ID " +:+ id +:+ " not found") |}
        else {| code := StatusInternalServerError;
                obj := ErrorResponse "Failed to retrieve ticket"
                         ("failed to get ticket: " +:+ err) |})).
Proof.
  split; [reflexivity|]. intros Hid. unfold GetTicketByIDGin, GetTicketByJiraID.
  rewrite (bool_decide_eq_false_2 _ Hid). split; [reflexivity|].
  split; [|split].
  - intros ->. by rewrite Contains_ticket_not_found.
  - by intros ticket ->.
  - intros err ->. by rewrite Contains_failed_to_get_ticket.
Qed.

Section HandlerProperties.
Context `{GoRuntime}.

(** X16. [CreateTicketGin] answers 400 without touching the ticket
    system when binding or validation fails; otherwise it runs
    [CreateTicket] once and answers 201 with the response exactly when
    that returned one, and 500 with the fixed text and no detail of the
    error otherwise.  It panics exactly when [CreateTicket] does, so a
    valid request whose fixed sections leave 1550 bytes or more is always
    answered. *)
Theorem create_ticket_handler_replies (h : TicketHandler)
    (bound : TicketRequest + string) :
  (forall rep made,
     CreateTicketGin h bound = Done (rep, made) ->
     (code rep = StatusBadRequest /\ made = [] /\
      ((exists err, bound = inr err) \/
       exists req err, bound = inl req /\ validate h req = Some err)) \/
     exists req r,
       bound = inl req /\ validate h req = None /\
       CreateTicket (jiraService h) req = Done r /\ made = calls r /\
       match returned r with
       | inl response => rep = {| code := StatusCreated; obj := Created response |}
       | inr _ =>
           rep = {| code := StatusInternalServerError;
                    obj := H {[ "error" := "Failed to create ticket" ]} |}
       end) /\
  (CreateTicketGin h bound = Panic <->
   exists req, bound = inl req /\ validate h req = None /\
               CreateTicket (jiraService h) req = Panic) /\
  (forall req,
     bound = inl req -> validate h req = None ->
     1550 <= maxJiraDescLength - essentialLength req ->
     exists rep made,
       CreateTicketGin h bound = Done (rep, made) /\
       (code rep = StatusCreated \/ code rep = StatusInternalServerError)).
Proof.
  split; [|split].
  - intros rep made. unfold CreateTicketGin.
    destruct bound as [req|err].
    + destruct (validate h req) as [err|] eqn:Hvalid.
      * intros [= <- <-]. left. split; [reflexivity|]. split; [reflexivity|].
        right. eauto.
      * destruct (CreateTicket (jiraService h) req) as [r|] eqn:Hrun; [|discriminate].
        intros Hrep. right. exists req, r.
        destruct (returned r) as [response|e]; injection Hrep as <- <-; by repeat split.
    + intros [= <- <-]. left. split; [reflexivity|]. split; [reflexivity|].
      left. eauto.
  - unfold CreateTicketGin. destruct bound as [req|err].
    + destruct (validate h req) as [err|] eqn:Hvalid.
      * split; [discriminate|]. intros (req' & [= <-] & Hv & _). congruence.
      * destruct (CreateTicket (jiraService h) req) as [r|] eqn:Hrun.
        -- split; [by destruct (returned r)|].
           intros (req' & [= <-] & _ & Hp). congruence.
        -- split; [eauto|done].
    + split; [discriminate|]. by intros (req & [=] & _).
  - intros req -> Hvalid Hroom. unfold CreateTicketGin. rewrite Hvalid.
    destruct (describe req) as [[description ov]|] eqn:Hdesc.
    + destruct (CreateTicket_of_describe (jiraService h) req description ov Hdesc)
        as [r ->].
      destruct (returned r); eexists _, _; (split; [reflexivity|]); [by left|by right].
    + pose proof (describe_returns req Hroom) as Hdone.
      rewrite Hdesc in Hdone. discriminate.
Qed.

End HandlerProperties.

Section ReportProperties.
Context `{JsonDecoder} `{GenericDecoder}.

(** The request [ReportIssue] builds for a form whose parser returns. *)
Lemma submit_Done (h : ReportHandler) (uploads : list step)
    (ticketReq : ReportedTicket) (rep : reply) (steps : list step) :
  submit h uploads ticketReq = Done (rep, steps) ->
  steps = uploads ++ [Submit ticketReq] /\
  match createTicket h ticketReq with
  | Done (inl response) => rep = {| code := StatusCreated; obj := Created response |}
  | Done (inr err) =>
      rep = {| code := StatusInternalServerError;
               obj := ErrorResponse "Failed to create ticket" err |}
  | Panic => False
  end.
Proof.
  unfold submit. destruct (createTicket h ticketReq) as [[response|err]|];
    [| |discriminate]; by intros [= <- <-].
Qed.

Lemma sample_Some (input : string) : exists head, Logging.sample input = Some head.
Proof.
  unfold Logging.sample, Logging.min. pose proof (len_nonneg input).
  destruct (Z.ltb_spec (len input) 100); rewrite slice_to_Some by lia; eauto.
Qed.

(** X17. [ReportIssue] answers 400, with nothing uploaded or submitted,
    exactly when binding or validation fails.  Otherwise it submits one
    ticket request, after at most one upload, whatever the parser makes of
    the network-call field: it answers 201 when the ticket service
    returns a response and 500 with the error's text when it returns an
    error.  The image URL of the request is the upload's, never the
    form's. *)
Theorem report_issue_replies (h : ReportHandler)
    (bound : ReportIssueRequest + string) (image0 : option FileHeader)
    (rep : reply) (steps : list step) :
  ReportIssue h bound image0 = Done (rep, steps) ->
  (code rep = StatusBadRequest /\ steps = [] /\
   ((exists err, bound = inr err) \/
    exists req err, bound = inl req /\ validateReport h req = Some err)) \/
  exists req ticketReq,
    bound = inl req /\ validateReport h req = None /\
    steps = (upload h image0).2 ++ [Submit ticketReq] /\
    (length (upload h image0).2 <= 1)%nat /\
    t_ImageS3URL ticketReq = (upload h image0).1 /\
    t_URL ticketReq = rq_PageURL req /\
    match createTicket h ticketReq with
    | Done (inl response) =>
        rep = {| code := StatusCreated; obj := Created response |}
    | Done (inr err) =>
        rep = {| code := StatusInternalServerError;
                 obj := ErrorResponse "Failed to create ticket" err |}
    | Panic => False
    end.
Proof.
  unfold ReportIssue. destruct bound as [req|err].
  2: { intros [= <- <-]. left. split; [reflexivity|]. split; [reflexivity|].
       left. eauto. }
  destruct (validateReport h req) as [err|] eqn:Hvalid.
  { intros [= <- <-]. left. split; [reflexivity|]. split; [reflexivity|].
    right. eauto. }
  assert (Hup : (length (upload h image0).2 <= 1)%nat).
  { unfold upload. destruct image0 as [file|]; [|simpl; lia].
    destruct (uploadFile h) as [UploadFile|]; [|simpl; lia].
    destruct (UploadFile file); simpl; lia. }
  destruct (upload h image0) as [imageURL uploads]. simpl in Hup |- *.
  intros Hrun. right. exists req.
  destruct (GetNetworkCalls req) as [[networkCalls [e|]]|]; [| |discriminate].
  - destruct (Logging.sample (FailedNetworkCalls req)); [|discriminate].
    destruct (Unmarshal_any (FailedNetworkCalls req)) as [rawNetworkData|e'];
      apply submit_Done in Hrun as [-> Hrep]; eexists; by repeat split.
  - apply submit_Done in Hrun as [-> Hrep]. eexists. by repeat split.
Qed.

(** X18. Whatever the parser and the decoders do, the request submitted
    carries the form's issue, description, email, lead and product under
    their keys, the response [status: reported] and the header
    [Content-Type: multipart/form-data].  The raw network-call field is
    kept under [rawNetworkCallsJSON] unless the parser failed and the
    field decoded as generic JSON; the calls submitted are the parser's
    when it succeeded, the generic value when only that decoding
    succeeded, and an empty list otherwise, never what a failed parse
    left behind. *)
Theorem reported_ticket_contents (h : ReportHandler) (req : ReportIssueRequest)
    (image0 : option FileHeader) (rep : reply) (steps : list step)
    (ticketReq : ReportedTicket) :
  ReportIssue h (inl req) image0 = Done (rep, steps) ->
  Submit ticketReq ∈ steps ->
  t_Payload ticketReq !! "issue" = Some (AString (rq_Issue req)) /\
  t_Payload ticketReq !! "description" = Some (AString (rq_Description req)) /\
  t_Payload ticketReq !! "userEmail" = Some (AString (rq_UserEmail req)) /\
  t_Payload ticketReq !! "leadId" = Some (AString (rq_LeadID req)) /\
  t_Payload ticketReq !! "product" = Some (AString (rq_Product req)) /\
  t_Response ticketReq = {[ "status" := AString "reported" ]} /\
  t_RequestHeaders ticketReq = {[ "Content-Type" := "multipart/form-data" ]} /\
  exists networkCalls failure,
    GetNetworkCalls req = Done (networkCalls, failure) /\
    match failure, Unmarshal_any (FailedNetworkCalls req) with
    | None, _ =>
        t_Payload ticketReq !! "failedNetworkCalls" = Some (ACalls networkCalls) /\
        t_Payload ticketReq !! "rawNetworkCallsJSON"
          = Some (AString (FailedNetworkCalls req))
    | Some _, inl rawNetworkData =>
        t_Payload ticketReq !! "failedNetworkCalls" = Some (AValue rawNetworkData) /\
        t_Payload ticketReq !! "rawNetworkCallsJSON" = None
    | Some _, inr _ =>
        t_Payload ticketReq !! "failedNetworkCalls" = Some (ACalls []) /\
        t_Payload ticketReq !! "rawNetworkCallsJSON"
          = Some (AString (FailedNetworkCalls req))
    end.
Proof.
  unfold ReportIssue.
  destruct (validateReport h req) as [err|].
  { intros [= _ <-] Hin. by apply elem_of_nil in Hin. }
  destruct (upload h image0) as [imageURL uploads] eqn:Hupload.
  assert (Huploads : forall t, Submit t ∈ uploads -> False).
  { intros t. unfold upload in Hupload. destruct image0 as [file|].
    - destruct (uploadFile h) as [UploadFile|].
      + destruct (UploadFile file); injection Hupload as _ <-;
          by intros ?%list_elem_of_singleton.
      + injection Hupload as _ <-. by intros ?%elem_of_nil.
    - injection Hupload as _ <-. by intros ?%elem_of_nil. }
  assert (Hsubmitted : forall t,
            submit h uploads t = Done (rep, steps) -> Submit ticketReq ∈ steps ->
            ticketReq = t).
  { intros t [-> _]%submit_Done [Hin|Hin]%elem_of_app.
    - by apply Huploads in Hin.
    - apply list_elem_of_singleton in Hin. by injection Hin. }
  destruct (GetNetworkCalls req) as [[networkCalls [e|]]|]; [| |discriminate].
  - destruct (Logging.sample (FailedNetworkCalls req)); [|discriminate].
    destruct (Unmarshal_any (FailedNetworkCalls req)) as [rawNetworkData|e'] eqn:Hany;
      intros Hrun Hin; rewrite (Hsubmitted _ Hrun Hin);
      (repeat (split; [reflexivity|])); eexists _, _; (split; [reflexivity|]);
      rewrite ?Hany; by split.
  - intros Hrun Hin. rewrite (Hsubmitted _ Hrun Hin).
    repeat (split; [reflexivity|]). eexists _, _. split; [reflexivity|].
    cbn match. by split.
Qed.

(** X19. [ReportIssue] panics exactly when the form is bound and valid
    and either the parser panics or the ticket service panics on the
    request built; logging the field's sample never does. *)
Theorem report_issue_panics_with_parser_or_service (h : ReportHandler)
    (bound : ReportIssueRequest + string) (image0 : option FileHeader) :
  ReportIssue h bound image0 = Panic <->
  exists req,
    bound = inl req /\ validateReport h req = None /\
    (GetNetworkCalls req = Panic \/
     exists networkCalls failure,
       GetNetworkCalls req = Done (networkCalls, failure) /\
       createTicket h
         match failure, Unmarshal_any (FailedNetworkCalls req) with
         | None, _ => parsedTicket req networkCalls (upload h image0).1
         | Some _, inl rawNetworkData =>
             genericTicket req rawNetworkData (upload h image0).1
         | Some _, inr _ => parsedTicket req [] (upload h image0).1
         end = Panic).
Proof.
  assert (Hsubmit : forall uploads t,
            submit h uploads t = Panic <-> createTicket h t = Panic).
  { intros uploads t. unfold submit.
    destruct (createTicket h t) as [[response|err]|]; by split. }
  unfold ReportIssue. destruct bound as [req|err].
  2: { split; [discriminate|]. by intros (req & [=] & _). }
  destruct (validateReport h req) as [err|] eqn:Hvalid.
  { split; [discriminate|]. intros (req' & [= <-] & Hv & _). congruence. }
  destruct (upload h image0) as [imageURL uploads]. cbn [fst].
  destruct (GetNetworkCalls req) as [[networkCalls [e|]]|] eqn:Hparse.
  - destruct (sample_Some (FailedNetworkCalls req)) as [head ->].
    destruct (Unmarshal_any (FailedNetworkCalls req)) as [rawNetworkData|e'] eqn:Hany;
      rewrite Hsubmit; split.
    + intros Hp. exists req. repeat (split; [done|]). right.
      eexists _, _. split; [exact Hparse|]. by rewrite Hany.
    + intros (req' & [= <-] & _ & [Hp|(n & f & Hn & Hp)]); [congruence|].
      rewrite Hparse in Hn. injection Hn as <- <-. by rewrite Hany in Hp.
    + intros Hp. exists req. repeat (split; [done|]). right.
      eexists _, _. split; [exact Hparse|]. by rewrite Hany.
    + intros (req' & [= <-] & _ & [Hp|(n & f & Hn & Hp)]); [congruence|].
      rewrite Hparse in Hn. injection Hn as <- <-. by rewrite Hany in Hp.
  - rewrite Hsubmit. split.
    + intros Hp. exists req. repeat (split; [done|]). right.
      eexists _, _. split; [exact Hparse|]. exact Hp.
    + intros (req' & [= <-] & _ & [Hp|(n & f & Hn & Hp)]); [congruence|].
      rewrite Hparse in Hn. by injection Hn as <- <-.
  - split; [|done]. intros _. exists req. repeat (split; [done|]). by left.
Qed.

End ReportProperties.

(** * Invariants of the description *)

Lemma substring_app_head (p r : string) (n : nat) :
  (String.length p <= n)%nat ->
  String.substring 0 n (p +:+ r) = p +:+ String.substring 0 (n - String.length p) r.
Proof.
  revert n. induction p as [|c p IH]; intros n Hn.
  - change ("" +:+ r) with r. cbn [String.length]. by rewrite Nat.sub_0_r.
  - destruct n as [|n]; [cbn [String.length] in Hn; lia|].
    change (String c p +:+ r) with (String c (p +:+ r)).
    cbn [String.substring String.length]. rewrite IH by (cbn [String.length] in Hn; lia).
    reflexivity.
Qed.

Section Invariants.
Context `{GoRuntime}.

Lemma assemble_prefix (req : TicketRequest) (st st' : overflow) (assembled : string) :
  assemble req st = Done (assembled, st') ->
  exists rest, assembled = (fixedSections req +:+ timestamp) +:+ rest.
Proof.
  rewrite assemble_unfold.
  intros (s1 & st1 & _ & (s2 & st2 & _ & (s3 & st3 & _ &
           (s4 & st4 & _ & [= <- _])%bind_Done)%bind_Done)%bind_Done)%bind_Done.
  eexists. rewrite !append_assoc. reflexivity.
Qed.

(** X20. Whatever is cut, the issue summary, the description text, the
    user information, the screenshot and the timestamp are in the
    description in full: every description [CreateTicket] reaches the
    submission with starts with the fixed sections and the timestamp,
    which take at most 30580 bytes of it. *)
Theorem fixed_sections_are_never_cut (req : TicketRequest) (description : string)
    (ov : overflow) :
  describe req = Done (description, ov) ->
  essentialLength req <= maxJiraDescLength - 1420 /\
  HasPrefix description (fixedSections req +:+ timestamp) = true.
Proof.
  intros Hdesc.
  assert (Hroom : essentialLength req <= maxJiraDescLength - 1420).
  { destruct (Z.le_gt_cases (essentialLength req) (maxJiraDescLength - 1420))
      as [Hle|Hgt]; [exact Hle|].
    rewrite describe_panics in Hdesc by lia. discriminate. }
  split; [exact Hroom|].
  revert Hdesc. unfold describe. intros (pre & st & Hasm & Hfinal)%bind_Done.
  destruct (assemble_prefix _ _ _ _ Hasm) as [rest ->].
  unfold HasPrefix.
  destruct (Z.le_gt_cases (len ((fixedSections req +:+ timestamp) +:+ rest))
              maxJiraDescLength) as [Hle|Hgt].
  - rewrite finalCheck_within in Hfinal by exact Hle. injection Hfinal as <- _.
    apply prefix_app.
  - rewrite finalCheck_fires in Hfinal by exact Hgt. injection Hfinal as <- _.
    rewrite substring_app_head, append_assoc; [apply prefix_app|].
    unfold essentialLength in Hroom. rewrite <- len_app in Hroom.
    unfold len, maxJiraDescLength in *. lia.
Qed.

Lemma screenshot_nonempty (req : TicketRequest) :
  has_image req = true -> screenshotSection req <> "".
Proof.
  intros Himage. unfold screenshotSection. rewrite Himage.
  destruct (HasPrefix (ImageS3URL req) "http"); discriminate.
Qed.

(** X21. The ticket shows a screenshot exactly when the stored record
    has an image URL, that is unless the request's image URL is empty,
    "None" or "null"; the section then starts with its heading and the
    record holds the request's URL. *)
Theorem screenshot_shown_iff_image_stored (s : JiraService) (req : TicketRequest)
    (key assignee : string) :
  (screenshotSection req = "" <->
   ft_ImageURL (flatten s req key assignee) = "") /\
  (screenshotSection req = "" <->
   ImageS3URL req = "" \/ ImageS3URL req = "None" \/ ImageS3URL req = "null") /\
  (screenshotSection req <> "" ->
   HasPrefix (screenshotSection req) ("h3. Screenshot" +:+ LF) = true /\
   ft_ImageURL (flatten s req key assignee) = ImageS3URL req).
Proof.
  cbn [flatten ft_ImageURL].
  destruct (has_image req) eqn:Himage.
  - pose proof (screenshot_nonempty req Himage) as Hshown.
    unfold has_image in Himage.
    apply andb_prop in Himage as [[H1%bool_decide_eq_true H2%bool_decide_eq_true]%andb_prop
                                    H3%bool_decide_eq_true].
    split; [split; [done|by intros ?]|]. split.
    + split; [done|]. by intros [?|[?|?]].
    + intros _. split; [|reflexivity].
      unfold screenshotSection, has_image.
      rewrite (bool_decide_eq_true_2 _ H1), (bool_decide_eq_true_2 _ H2),
        (bool_decide_eq_true_2 _ H3). cbn [andb].
      unfold HasPrefix.
      destruct (String.prefix "http" (ImageS3URL req));
        rewrite <- (append_assoc "h3. Screenshot" LF); apply prefix_app.
  - assert (Hnone : screenshotSection req = "")
      by (unfold screenshotSection; by rewrite Himage).
    split; [by split|]. split; [|by intros ?].
    split; [|done]. intros _. unfold has_image in Himage.
    apply andb_false_iff in Himage as [[Hi|Hi]%andb_false_iff|Hi];
      apply bool_decide_eq_false in Hi;
      destruct (decide (ImageS3URL req = "")) as [?|?];
      destruct (decide (ImageS3URL req = "None")) as [?|?];
      destruct (decide (ImageS3URL req = "null")) as [?|?]; tauto.
Qed.

End Invariants.

(** * The overflow document along a run *)

Import OverflowInvariant.

Lemma extends_refl (st : overflow) : extends st st.
Proof. by left. Qed.

Lemma append_nonempty_l (s t : string) : s <> "" -> s +:+ t <> "".
Proof. destruct s; [done|discriminate]. Qed.

Lemma extends_trans (st1 st2 st3 : overflow) :
  extends st1 st2 -> extends st2 st3 -> extends st1 st3.
Proof.
  intros [->|(Hflag2 & more2 & Hne2 & Htext2)] [->|(Hflag3 & more3 & Hne3 & Htext3)].
  - by left.
  - right. eauto.
  - right. eauto.
  - right. split; [exact Hflag3|]. exists (more2 +:+ more3).
    split; [by apply append_nonempty_l|].
    by rewrite Htext3, Htext2, append_assoc.
Qed.

Lemma extends_recorded (st : overflow) (heading fullContent : string) :
  extends st (recorded st heading fullContent).
Proof.
  right. split; [reflexivity|].
  exists ((heading +:+ LF) +:+ fullContent +:+ (LF +:+ LF)). split.
  - intros Hempty%(f_equal String.length). rewrite !length_append in Hempty.
    cbn [String.length LF] in Hempty. lia.
  - unfold recorded. cbn [truncatedContent]. by rewrite !append_assoc.
Qed.

Lemma cut_state (s head : string) (hi : Z) (st st' : overflow) :
  cut s hi st = Done (head, st') -> st' = st.
Proof. unfold cut. destruct (slice_to s hi); [|discriminate]. by intros [= _ <-]. Qed.

Section OverflowDocument.
Context `{GoRuntime}.

Lemma clipped_extends (heading body fullContent : string) (room pad : Z)
    (st st' : overflow) (text : string) :
  clipped heading body fullContent room pad st = Done (text, st') -> extends st st'.
Proof.
  unfold clipped. destruct (len body >? room - pad).
  - intros (u & st1 & Hblock & (head & st2 & Hcut & [= _ <-])%bind_Done)%bind_Done.
    rewrite overflow_block_spec in Hblock. injection Hblock as _ <-.
    apply cut_state in Hcut as ->. apply extends_recorded.
  - intros [= _ <-]. apply extends_refl.
Qed.

Lemma networkCallsContent_extends (limit : Z) (sectionStart sectionEnd nc : string)
    (st st' : overflow) (text : string) :
  networkCallsContent limit sectionStart sectionEnd nc st = Done (text, st') ->
  extends st st'.
Proof.
  unfold networkCallsContent. destruct (len nc >? _).
  - intros (u & st1 & Hblock & (head & st2 & Hcut & [= _ <-])%bind_Done)%bind_Done.
    rewrite overflow_block_spec in Hblock. injection Hblock as _ <-.
    apply cut_state in Hcut as ->. apply extends_recorded.
  - intros [= _ <-]. apply extends_refl.
Qed.

Lemma networkCallsSection_extends (req : TicketRequest) (limit : Z)
    (st st' : overflow) (text : string) :
  networkCallsSection req limit st = Done (text, st') -> extends st st'.
Proof.
  unfold networkCallsSection.
  destruct (Payload req !! "failedNetworkCalls") as [networkCalls|];
    [|intros [= _ <-]; apply extends_refl].
  assert (Hcontent : forall nc,
            (content ← networkCallsContent limit (panel "Failed Network Calls")
                         panel_end nc;
             mret (panel "Failed Network Calls" +:+ content +:+ panel_end)) st
              = Done (text, st') -> extends st st').
  { intros nc (content & st1 & Hrun & [= _ <-])%bind_Done.
    by eapply networkCallsContent_extends. }
  assert (Hmarshalled : forall v,
            (content ← match json_Marshal v with
                       | Some ncJSON =>
                           networkCallsContent limit (panel "Failed Network Calls")
                             panel_end ncJSON
                       | None =>
                           mret ("Failed to format network calls data as JSON." +:+ LF)
                       end;
             mret (panel "Failed Network Calls" +:+ content +:+ panel_end)) st
              = Done (text, st') -> extends st st').
  { intros v. destruct (json_Marshal v) as [ncJSON|]; [apply Hcontent|].
    intros [= _ <-]. apply extends_refl. }
  destruct networkCalls; try apply Hmarshalled; try apply Hcontent.
  intros [= _ <-]. apply extends_refl.
Qed.

Lemma headersFallback_extends (room : Z) (hs : list (string * string))
    (headersStr fullHeadersStr : string) (st st' : overflow) (text : string) :
  headersFallback room hs headersStr fullHeadersStr st = Done (text, st') ->
  extends st st'.
Proof.
  revert headersStr fullHeadersStr.
  induction hs as [|[k v] rest IH]; intros headersStr fullHeadersStr;
    cbn [headersFallback].
  - intros [= _ <-]. apply extends_refl.
  - destruct (len headersStr + len (k +:+ ": " +:+ v +:+ LF) >? room - 30);
      [|apply IH].
    intros [= _ <-]. right. split; [reflexivity|].
    eexists. split; [|cbn [truncatedContent]; apply append_assoc]. discriminate.
Qed.

Lemma headerSection_extends (req : TicketRequest) (limit : Z)
    (st st' : overflow) (text : string) :
  headerSection req limit st = Done (text, st') -> extends st st'.
Proof.
  unfold headerSection.
  destruct (0 <? Z.of_nat (size (RequestHeaders req)));
    [|intros [= _ <-]; apply extends_refl].
  intros (body & st1 & Hrun & [= _ <-])%bind_Done.
  destruct (json_MarshalIndent_headers (RequestHeaders req)).
  - by eapply clipped_extends.
  - by eapply headersFallback_extends.
Qed.

Lemma mapBody_extends (heading : string) (m : gmap string value) (room : Z)
    (st st' : overflow) (text : string) :
  mapBody heading m room st = Done (text, st') -> extends st st'.
Proof.
  unfold mapBody. destruct (json_MarshalIndent m); apply clipped_extends.
Qed.

Lemma responseSection_extends (req : TicketRequest) (limit : Z)
    (st st' : overflow) (text : string) :
  responseSection req limit st = Done (text, st') -> extends st st'.
Proof.
  unfold responseSection.
  destruct (0 <? Z.of_nat (size (Response req)));
    [|intros [= _ <-]; apply extends_refl].
  intros (body & st1 & Hrun & [= _ <-])%bind_Done. by eapply mapBody_extends.
Qed.

Lemma payloadSection_extends (req : TicketRequest) (limit : Z)
    (st st' : overflow) (text : string) :
  payloadSection req limit st = Done (text, st') -> extends st st'.
Proof.
  unfold payloadSection.
  intros (body & st1 & Hrun & [= _ <-])%bind_Done. by eapply mapBody_extends.
Qed.

Lemma finalCheck_extends (description text : string) (st st' : overflow) :
  finalCheck description st = Done (text, st') -> extends st st'.
Proof.
  unfold finalCheck. destruct (len description >? maxJiraDescLength).
  - intros (u & st1 & Hblock & (head & st2 & Hcut & [= _ <-])%bind_Done)%bind_Done.
    rewrite overflow_block_spec in Hblock. injection Hblock as _ <-.
    apply cut_state in Hcut as ->. apply extends_recorded.
  - intros [= _ <-]. apply extends_refl.
Qed.

Lemma describe_extends (req : TicketRequest) (description : string) (ov : overflow) :
  describe req = Done (description, ov) -> extends overflow_init ov.
Proof.
  unfold describe. intros (pre & st & Hasm & Hfinal)%bind_Done.
  apply (extends_trans _ st); [|by eapply finalCheck_extends].
  revert Hasm. rewrite assemble_unfold.
  intros (s1 & st1 & H1 & (s2 & st2 & H2 & (s3 & st3 & H3 &
           (s4 & st4 & H4 & [= _ <-])%bind_Done)%bind_Done)%bind_Done)%bind_Done.
  apply networkCallsSection_extends in H1. apply headerSection_extends in H2.
  apply responseSection_extends in H3. apply payloadSection_extends in H4.
  eauto using extends_trans.
Qed.

(** X22. The overflow document only grows: when [CreateTicket] reaches
    the submission it holds the introduction it was initialised with,
    followed by what the sections and the final check recorded; and the
    flag is set exactly when something was recorded, so a comment is
    never posted with the introduction alone. *)
Theorem overflow_document_agrees_with_flag (req : TicketRequest)
    (description : string) (ov : overflow) :
  describe req = Done (description, ov) ->
  exists more,
    truncatedContent ov = truncatedContent overflow_init +:+ more /\
    (wasTruncated ov = false <-> more = "").
Proof.
  intros [->|(Hflag & more & Hne & Htext)]%describe_extends.
  - exists "". split; [|done]. cbn [truncatedContent overflow_init].
    by rewrite !append_assoc.
  - exists more. split; [exact Htext|]. rewrite Hflag. by split.
Qed.

(** X23. Every overflow comment [CreateTicket] posts starts with the
    line "Additional details that couldn't fit in the description:" and
    an empty line, also when the comment itself is cut to the ceiling. *)
Theorem overflow_comment_starts_with_introduction (s : JiraService)
    (req : TicketRequest) (r : run) (key body : string) (e : option string) :
  CreateTicket s req = Done r ->
  CallAddComment key body e ∈ calls r ->
  HasPrefix body
    ("Additional details that couldn't fit in the description:" +:+ LF +:+ LF) = true.
Proof.
  intros (description & ov & assignee & Hdesc & Hassignee & Hrun)%CreateTicket_Done
         Hin.
  cbv zeta in Hrun.
  assert (Hdoc : exists more,
             truncatedContent ov = truncatedContent overflow_init +:+ more).
  { destruct (describe_extends _ _ _ Hdesc) as [->|(_ & more & _ & Htext)].
    - exists "". cbn [truncatedContent overflow_init]. by rewrite !append_assoc.
    - eauto. }
  destruct Hdoc as [more Htext].
  destruct (Create (client s) _) as [key'|[resp e']].
  2: { subst r. apply list_elem_of_singleton in Hin. discriminate. }
  destruct Hrun as (commented & Hattach & ->). cbn [calls] in Hin.
  apply elem_of_cons in Hin as [Hin|Hin]; [discriminate|].
  apply elem_of_app in Hin as [Hin|Hin].
  2: { unfold persist in Hin. destruct (mongoService s).
       - apply list_elem_of_singleton in Hin. discriminate.
       - by apply elem_of_nil in Hin. }
  unfold attachOverflow in Hattach. destruct (wasTruncated ov).
  2: { injection Hattach as <-. by apply elem_of_nil in Hin. }
  unfold commentBody in Hattach. unfold HasPrefix.
  change ("Additional details that couldn't fit in the description:" +:+ LF +:+ LF)
    with (truncatedContent overflow_init).
  destruct (Z.gtb_spec (len (truncatedContent ov)) maxJiraDescLength) as [Hgt|Hle].
  - rewrite slice_to_Some in Hattach by (unfold maxJiraDescLength in *; lia).
    injection Hattach as <-. apply list_elem_of_singleton in Hin.
    injection Hin as _ -> _. rewrite Htext.
    rewrite substring_app_head, append_assoc; [apply prefix_app|].
    apply Nat2Z.inj_le. rewrite Z2Nat.id by (unfold maxJiraDescLength; lia).
    change (Z.of_nat (String.length (truncatedContent overflow_init))) with 58.
    unfold maxJiraDescLength. lia.
  - injection Hattach as <-. apply list_elem_of_singleton in Hin.
    injection Hin as _ -> _. rewrite Htext. apply prefix_app.
Qed.

End OverflowDocument.

(** X24. The list of all tickets is answered 200 exactly when a store is
    configured and both its query and the decoding of the cursor succeed;
    every other case is a 500 whose details tell the missing store, the
    failed query and the failed decoding apart. *)
Theorem all_tickets_reply (mongo : option Collection) :
  (code (GetAllTicketsGin mongo) = StatusOK \/
   code (GetAllTicketsGin mongo) = StatusInternalServerError) /\
  (forall tickets,
     GetAllTicketsGin mongo = {| code := StatusOK; obj := Tickets tickets |} <->
     exists s, mongo = Some s /\ Find s = Cursor (inl tickets)) /\
  (mongo = None ->
   obj (GetAllTicketsGin mongo)
     = ErrorResponse "Database not available" "MongoDB service is not configured") /\
  (forall s err,
     mongo = Some s -> Find s = FindError err ->
     obj (GetAllTicketsGin mongo)
       = ErrorResponse "Failed to retrieve tickets"
           ("failed to find tickets: " +:+ err)) /\
  (forall s err,
     mongo = Some s -> Find s = Cursor (inr err) ->
     obj (GetAllTicketsGin mongo)
       = ErrorResponse "Failed to retrieve tickets"
           ("failed to decode tickets: " +:+ err)).
Proof.
  unfold GetAllTicketsGin, GetAllTickets.
  split; [|split; [|split; [|split]]].
  - destruct mongo as [s|]; [|by right].
    destruct (Find s) as [[tickets|err]|err]; [by left|by right|by right].
  - intros tickets. destruct mongo as [s|].
    + destruct (Find s) as [[tickets'|err]|err] eqn:Hfind.
      * split; [intros [= ->]; eauto|]. intros (s' & [= <-] & Hf).
        rewrite Hfind in Hf. by injection Hf as ->.
      * split; [discriminate|]. intros (s' & [= <-] & Hf). congruence.
      * split; [discriminate|]. intros (s' & [= <-] & Hf). congruence.
    + split; [discriminate|]. by intros (s & [=] & _).
  - by intros ->.
  - by intros s err -> ->.
  - by intros s err -> ->.
Qed.

(** ** The further properties on concrete requests *)

Section MoreInstances.
Import Examples HandlerExamples.
#[local] Existing Instance rt.

Lemma allocations_within_remaining_witness :
  30000 <= 32000 /\
  0 <= payloadLimit (allocate 32000 30000) <= remainingChars (allocate 32000 30000).
Proof.
  assert (Hfit : 30000 <= 32000) by lia.
  split; [exact Hfit|].
  pose proof (allocations_within_remaining 32000 30000 Hfit) as Hw.
  cbv zeta in Hw. destruct Hw as (_ & _ & _ & Hpayload & _). exact Hpayload.
Defined.

Lemma kept_sections_hold_full_content_witness :
  let b := budget_of short_request in
  (exists section,
     networkCallsSection short_request (networkCallsLimit b) overflow_init
       = Done (section, overflow_init) /\
     len section <= networkCallsLimit b) /\
  (exists section,
     headerSection short_request (headersLimit b) overflow_init
       = Done (section, overflow_init) /\
     len section <= headersLimit b) /\
  (exists section,
     responseSection short_request (responseLimit b) overflow_init
       = Done (section, overflow_init) /\
     len section <= responseLimit b) /\
  (exists section,
     payloadSection short_request (payloadLimit b) overflow_init
       = Done (section, overflow_init) /\
     len section <= payloadLimit b).
Proof.
  cbv zeta. repeat split.
  - destruct (kept_sections_hold_full_content short_request
                (networkCallsLimit (budget_of short_request)) overflow_init)
      as (Hnc & _).
    eexists. apply (Hnc compact_array); vm_compute; reflexivity.
  - destruct (kept_sections_hold_full_content short_request
                (headersLimit (budget_of short_request)) overflow_init)
      as (_ & Hh & _).
    destruct (Some_of_is_Some
                (json_MarshalIndent_headers (RequestHeaders short_request)))
      as [headersJSON Hmarshal]; [vm_compute; reflexivity|].
    assert (Hfits : match json_MarshalIndent_headers (RequestHeaders short_request) with
                    | Some _ => headers_exceeds short_request
                                  (headersLimit (budget_of short_request))
                    | None => true
                    end = false) by (vm_compute; reflexivity).
    rewrite Hmarshal in Hfits.
    eexists. apply (Hh headersJSON);
      [apply nonempty_of_size; vm_compute; reflexivity | exact Hmarshal | exact Hfits].
  - destruct (kept_sections_hold_full_content short_request
                (responseLimit (budget_of short_request)) overflow_init)
      as (_ & _ & Hr & _).
    eexists. apply Hr;
      [apply nonempty_of_size; vm_compute; reflexivity | vm_compute; reflexivity].
  - destruct (kept_sections_hold_full_content short_request
                (payloadLimit (budget_of short_request)) overflow_init)
      as (_ & _ & _ & Hp).
    eexists. apply Hp. vm_compute. reflexivity.
Defined.

Lemma cut_sections_overshoot_their_allocation_witness :
  let b := budget_of long_request in
  (exists section st',
     networkCallsSection long_request (networkCallsLimit b) overflow_init
       = Done (section, st') /\
     len section = networkCallsLimit b + 36) /\
  (exists section st',
     headerSection long_request (headersLimit b) overflow_init = Done (section, st') /\
     len section = headersLimit b + 9) /\
  (exists section st',
     responseSection long_request (responseLimit b) overflow_init
       = Done (section, st') /\
     len section = responseLimit b + 9) /\
  (exists section st',
     payloadSection long_request (payloadLimit b) overflow_init = Done (section, st') /\
     len section = payloadLimit b + 9).
Proof.
  cbv zeta. repeat split.
  - destruct (cut_sections_overshoot_their_allocation long_request
                (networkCallsLimit (budget_of long_request)) overflow_init)
      as (Hnc & _).
    apply (Hnc (Repeat "a" 20000));
      [reflexivity | vm_compute; reflexivity | vm_compute; discriminate].
  - destruct (cut_sections_overshoot_their_allocation long_request
                (headersLimit (budget_of long_request)) overflow_init)
      as (_ & Hh & _).
    destruct (Some_of_is_Some
                (json_MarshalIndent_headers (RequestHeaders long_request)))
      as [headersJSON Hmarshal]; [vm_compute; reflexivity|].
    apply (Hh headersJSON);
      [apply nonempty_of_size; vm_compute; reflexivity | exact Hmarshal
      | vm_compute; reflexivity | vm_compute; discriminate].
  - destruct (cut_sections_overshoot_their_allocation long_request
                (responseLimit (budget_of long_request)) overflow_init)
      as (_ & _ & Hr & _).
    apply Hr;
      [apply nonempty_of_size; vm_compute; reflexivity | vm_compute; reflexivity
      | vm_compute; discriminate].
  - destruct (cut_sections_overshoot_their_allocation long_request
                (payloadLimit (budget_of long_request)) overflow_init)
      as (_ & _ & _ & Hp).
    apply Hp; [vm_compute; reflexivity | vm_compute; discriminate].
Defined.

Lemma fully_cut_description_has_fixed_length_witness :
  exists assembled st description ov,
    assemble long_request overflow_init = Done (assembled, st) /\
    len assembled = 32086 /\
    describe long_request = Done (description, ov) /\
    len description = 31989.
Proof.
  destruct (Some_of_is_Some
              (json_MarshalIndent_headers (RequestHeaders long_request)))
    as [headersJSON Hmarshal]; [vm_compute; reflexivity|].
  apply (fully_cut_description_has_fixed_length long_request (Repeat "a" 20000)
           headersJSON).
  - apply Z.leb_le. vm_compute. reflexivity.
  - reflexivity.
  - vm_compute. reflexivity.
  - apply nonempty_of_size. vm_compute. reflexivity.
  - exact Hmarshal.
  - vm_compute. reflexivity.
  - apply nonempty_of_size. vm_compute. reflexivity.
  - vm_compute. reflexivity.
  - vm_compute. reflexivity.
Defined.

Lemma untruncated_request_is_described_whole_witness :
  truncates login_request = false /\
  exists description,
    assemble login_request overflow_init = Done (description, overflow_init) /\
    describe login_request = Done (description, overflow_init) /\
    len description <= maxJiraDescLength.
Proof.
  assert (Hquiet : truncates login_request = false) by (vm_compute; reflexivity).
  split; [exact Hquiet|].
  exact (untruncated_request_is_described_whole login_request Hquiet).
Defined.


Lemma overflow_comment_within_ceiling_witness :
  len "h3. Complete Payload" <= maxJiraDescLength /\
  commentBody "h3. Complete Payload" = Done "h3. Complete Payload".
Proof.
  assert (Hshort : len "h3. Complete Payload" <= maxJiraDescLength)
    by (vm_compute; discriminate).
  split; [exact Hshort|].
  destruct (overflow_comment_within_ceiling "h3. Complete Payload")
    as (body & Hrun & _ & Hwhole & _).
  rewrite Hrun. f_equal. exact (Hwhole Hshort).
Defined.

Lemma create_ticket_returns_or_panics_witness :
  (exists r, CreateTicket service long_request = Done r) /\
  (exists r, CreateTicket service login_request = Done r) /\
  CreateTicket service oversized_request = Panic.
Proof.
  split; [|split].
  - destruct (create_ticket_returns_or_panics service long_request) as (Hroom & _).
    apply Hroom. apply Z.leb_le. vm_compute. reflexivity.
  - destruct (create_ticket_returns_or_panics service login_request)
      as (_ & Hquiet & _).
    apply Hquiet. vm_compute. reflexivity.
  - destruct (create_ticket_returns_or_panics service oversized_request)
      as (_ & _ & Htight).
    apply Htight. vm_compute. reflexivity.
Defined.

Lemma submitted_issue_is_well_formed_witness :
  exists r issue rest,
    CreateTicket service long_request = Done r /\
    calls r = CallCreate issue (Create (client service) issue) :: rest /\
    len (Description issue) <= maxJiraDescLength /\
    AssigneeAccountID issue ∈ supportTeam service.
Proof.
  destruct (Done_of_is_Done (CreateTicket service long_request)) as [r Hrun];
    [vm_compute; reflexivity|].
  destruct (submitted_issue_is_well_formed service long_request r Hrun)
    as (issue & rest & Hcalls & _ & Hlen & _ & Hassignee & _).
  exists r, issue, rest. split; [exact Hrun|]. split; [exact Hcalls|].
  split; [exact Hlen|]. destruct Hassignee as [[Hnone _]|Hin]; [|exact Hin].
  discriminate Hnone.
Defined.

Lemma created_ticket_is_commented_then_saved_witness :
  exists r resp issue body ticket,
    CreateTicket service long_request = Done r /\
    returned r = inl resp /\
    calls r = [CallCreate issue (inl (TicketID resp));
               CallAddComment (TicketID resp) body (Some "comment rejected");
               CallSaveTicket ticket (inr "store unavailable")] /\
    len body <= maxJiraDescLength /\
    ft_TicketID ticket = TicketID resp.
Proof.
  destruct (Done_of_is_Done (CreateTicket service long_request)) as [r Hrun];
    [vm_compute; reflexivity|].
  destruct (created_of_check service long_request r Hrun) as [resp Hreturned];
    [vm_compute; reflexivity|].
  destruct (created_ticket_is_commented_then_saved service long_request r resp
              Hrun Hreturned)
    as (issue & comments & saves & Hcalls & Hcomments & Hsaves).
  destruct Hsaves as (ticket & -> & Hid & _).
  assert (Hcommented : existsb is_comment (calls r) = true).
  { assert (Hcheck : match CreateTicket service long_request with
                     | Done r => existsb is_comment (calls r)
                     | Panic => false
                     end = true) by (vm_compute; reflexivity).
    by rewrite Hrun in Hcheck. }
  destruct Hcomments as [->|(body & -> & Hlen)].
  - rewrite Hcalls in Hcommented. discriminate Hcommented.
  - exists r, resp, issue, body, ticket. split; [exact Hrun|].
    split; [exact Hreturned|]. split; [exact Hcalls|]. split; [exact Hlen|exact Hid].
Defined.

Lemma parser_panics_exactly_on_a_lone_quote_witness :
  @GetNetworkCalls Json.decoder (report (" " +:+ DQ +:+ LF)) = Panic.
Proof.
  apply (@parser_panics_exactly_on_a_lone_quote Json.decoder
           (report (" " +:+ DQ +:+ LF))).
  split.
  - exists [], "invalid JSON". vm_compute. reflexivity.
  - left. vm_compute. reflexivity.
Defined.

Lemma parser_error_is_the_fixed_text_witness :
  exists calls,
    @GetNetworkCalls Json.decoder (report double_encoded_indented_array)
      = Done (calls, Some parse_failure).
Proof.
  destruct (@parser_error_is_the_fixed_text Json.decoder
              (report double_encoded_indented_array)) as [Hfixed [_ Hfails]].
  destruct Hfails as (calls & e & Hrun).
  - split; [discriminate | vm_compute; reflexivity].
  - exists calls. rewrite Hrun. by rewrite (Hfixed calls e Hrun).
Defined.

Lemma single_quoted_field_is_unwrapped_witness :
  @GetNetworkCalls Json.decoder (report (SQ +:+ escaped compact_array +:+ SQ))
    = Done ([failed_call], None).
Proof.
  apply (@single_quoted_field_is_unwrapped Json.decoder
           (report (SQ +:+ escaped compact_array +:+ SQ)) compact_array
           "invalid JSON" [] [failed_call]).
  - reflexivity.
  - vm_compute. reflexivity.
  - vm_compute. reflexivity.
Defined.

Lemma log_slices_never_panic_witness :
  Logging.sample "[]" = Some "[]" /\ Logging.logged "[]" = Some "[]".
Proof.
  assert (Hshort : len "[]" <= 100) by (vm_compute; discriminate).
  destruct (log_slices_never_panic "[]")
    as [(head & Hsample & _ & _ & _ & Hhead) [(text & Hlogged & _ & Htext) _]].
  split.
  - rewrite Hsample. f_equal. exact (Hhead Hshort).
  - rewrite Hlogged. f_equal. exact (Htext Hshort).
Defined.

Lemma ticket_query_replies_witness :
  GetTicketByIDGin (Some tickets) "RON-1"
    = {| code := StatusOK; obj := Ticket stored_ticket |} /\
  GetTicketByIDGin (Some tickets) "RON-2"
    = {| code := StatusNotFound;
         obj := ErrorResponse "Ticket not found" "Ticket with ID RON-2 not found" |} /\
  GetTicketByIDGin (Some tickets) "RON-3"
    = {| code := StatusNotFound;
         obj := ErrorResponse "Ticket not found" "Ticket with ID RON-3 not found" |}.
Proof.
  split; [|split].
  - destruct (ticket_query_replies None tickets "RON-1") as [_ Hq].
    destruct Hq as (_ & _ & Hfound & _); [discriminate|].
    apply Hfound. reflexivity.
  - destruct (ticket_query_replies None tickets "RON-2") as [_ Hq].
    destruct Hq as (_ & _ & _ & Hfailed); [discriminate|].
    exact (Hfailed "lookup mongo: host not found" eq_refl).
  - destruct (ticket_query_replies None tickets "RON-3") as [_ Hq].
    destruct Hq as (_ & Hmissing & _); [discriminate|].
    apply Hmissing. reflexivity.
Defined.

Lemma create_ticket_handler_replies_witness :
  exists rep made,
    CreateTicketGin ticket_handler (inl login_request) = Done (rep, made) /\
    (code rep = StatusCreated \/ code rep = StatusInternalServerError).
Proof.
  destruct (create_ticket_handler_replies ticket_handler (inl login_request))
    as (_ & _ & Hvalid).
  apply (Hvalid login_request); [reflexivity | reflexivity|].
  apply Z.leb_le. vm_compute. reflexivity.
Defined.

Lemma report_issue_replies_witness :
  exists rep steps,
    @ReportIssue Json.decoder generic report_handler
      (inl (report double_encoded_indented_array)) (Some screenshot)
      = Done (rep, steps) /\
    rep = {| code := StatusCreated; obj := Created created |} /\
    exists ticketReq,
      steps = [Upload screenshot (inr "failed to upload to S3: access denied");
               Submit ticketReq] /\
      t_ImageS3URL ticketReq = "".
Proof.
  destruct (Done_of_is_Done
              (@ReportIssue Json.decoder generic report_handler
                 (inl (report double_encoded_indented_array)) (Some screenshot)))
    as [[rep steps] Hrun]; [vm_compute; reflexivity|].
  exists rep, steps. split; [exact Hrun|].
  destruct (@report_issue_replies Json.decoder generic report_handler _ _ rep steps
              Hrun)
    as [(_ & _ & [[err Hbound]|(req & err & _ & Hvalid)])
       |(req & ticketReq & _ & _ & Hsteps & _ & Himage & _ & Hrep)].
  - discriminate Hbound.
  - discriminate Hvalid.
  - split; [exact Hrep|]. exists ticketReq. split; [exact Hsteps | exact Himage].
Defined.

Lemma reported_ticket_contents_witness :
  exists rep steps ticketReq,
    @ReportIssue Json.decoder generic report_handler
      (inl (report double_encoded_indented_array)) (Some screenshot)
      = Done (rep, steps) /\
    Submit ticketReq ∈ steps /\
    t_Payload ticketReq !! "issue" = Some (AString "Checkout fails") /\
    t_Payload ticketReq !! "failedNetworkCalls"
      = Some (AValue (VString indented_array)) /\
    t_Payload ticketReq !! "rawNetworkCallsJSON" = None.
Proof.
  set (ticketReq := genericTicket (report double_encoded_indented_array)
                      (VString indented_array) "").
  assert (Hrun : @ReportIssue Json.decoder generic report_handler
                   (inl (report double_encoded_indented_array)) (Some screenshot)
                 = Done ({| code := StatusCreated; obj := Created created |},
                         [Upload screenshot
                            (inr "failed to upload to S3: access denied");
                          Submit ticketReq]))
    by (vm_compute; reflexivity).
  assert (Hin : Submit ticketReq
                ∈ [Upload screenshot (inr "failed to upload to S3: access denied");
                   Submit ticketReq])
    by (apply elem_of_cons; right; apply elem_of_cons; left; reflexivity).
  destruct (@reported_ticket_contents Json.decoder generic report_handler _ _ _ _
              ticketReq Hrun Hin)
    as (Hissue & _ & _ & _ & _ & _ & _ & networkCalls & failure & Hparse & Hcalls).
  assert (Hfailed : @GetNetworkCalls Json.decoder
                      (report double_encoded_indented_array)
                    = Done ([], Some parse_failure)) by (vm_compute; reflexivity).
  rewrite Hfailed in Hparse. injection Hparse as <- <-.
  change (@Unmarshal_any generic
            (FailedNetworkCalls (report double_encoded_indented_array)))
    with (@inl value string (VString indented_array)) in Hcalls.
  destruct Hcalls as [Hvalue Hraw].
  eexists _, _, ticketReq. split; [exact Hrun|]. split; [exact Hin|].
  split; [exact Hissue|]. split; [exact Hvalue | exact Hraw].
Defined.

Lemma report_issue_panics_with_parser_or_service_witness :
  @ReportIssue Json.decoder generic report_handler (inl (report DQ)) None = Panic.
Proof.
  apply (@report_issue_panics_with_parser_or_service Json.decoder generic
           report_handler (inl (report DQ)) None).
  exists (report DQ). split; [reflexivity|]. split; [reflexivity|].
  left. vm_compute. reflexivity.
Defined.

Lemma fixed_sections_are_never_cut_witness :
  exists description ov,
    describe long_request = Done (description, ov) /\
    essentialLength long_request <= maxJiraDescLength - 1420 /\
    HasPrefix description (fixedSections long_request +:+ timestamp) = true.
Proof.
  destruct (Done_of_is_Done (describe long_request)) as [[description ov] Hrun];
    [vm_compute; reflexivity|].
  exists description, ov. split; [exact Hrun|].
  exact (fixed_sections_are_never_cut long_request description ov Hrun).
Defined.

Lemma screenshot_shown_iff_image_stored_witness :
  screenshotSection short_request <> "" /\
  ft_ImageURL (flatten service short_request "RON-1" "bob")
    = "https://example.com/placeholder.png".
Proof.
  assert (Hshown : screenshotSection short_request <> "")
    by (apply screenshot_nonempty; vm_compute; reflexivity).
  split; [exact Hshown|].
  destruct (screenshot_shown_iff_image_stored service short_request "RON-1" "bob")
    as (_ & _ & Hstored).
  destruct (Hstored Hshown) as [_ Hurl]. exact Hurl.
Defined.

Lemma overflow_document_agrees_with_flag_witness :
  exists description ov more,
    describe long_request = Done (description, ov) /\
    truncatedContent ov = truncatedContent overflow_init +:+ more /\
    (wasTruncated ov = false <-> more = "").
Proof.
  destruct (Done_of_is_Done (describe long_request)) as [[description ov] Hrun];
    [vm_compute; reflexivity|].
  destruct (overflow_document_agrees_with_flag long_request description ov Hrun)
    as (more & Htext & Hflag).
  exists description, ov, more. split; [exact Hrun|]. split; [exact Htext|exact Hflag].
Defined.

Lemma overflow_comment_starts_with_introduction_witness :
  exists r key body e,
    CreateTicket service long_request = Done r /\
    CallAddComment key body e ∈ calls r /\
    HasPrefix body
      ("Additional details that couldn't fit in the description:" +:+ LF +:+ LF)
      = true.
Proof.
  destruct (Done_of_is_Done (CreateTicket service long_request)) as [r Hrun];
    [vm_compute; reflexivity|].
  assert (Hcommented : existsb is_comment (calls r) = true).
  { assert (Hcheck : match CreateTicket service long_request with
                     | Done r => existsb is_comment (calls r)
                     | Panic => false
                     end = true) by (vm_compute; reflexivity).
    by rewrite Hrun in Hcheck. }
  apply existsb_exists in Hcommented as (c & Hin%list_elem_of_In & Hc).
  destruct c as [issue result|key body e|ticket result]; try discriminate Hc.
  exists r, key, body, e. split; [exact Hrun|]. split; [exact Hin|].
  exact (overflow_comment_starts_with_introduction service long_request r key body e
           Hrun Hin).
Defined.

Lemma all_tickets_reply_witness :
  GetAllTicketsGin (Some tickets)
    = {| code := StatusOK; obj := Tickets [stored_ticket] |}.
Proof.
  destruct (all_tickets_reply (Some tickets)) as (_ & Hok & _).
  apply (Hok [stored_ticket]). exists tickets. split; reflexivity.
Defined.

End MoreInstances.
